(** * Adafruit_SI5351: register computation and bus protocol of the driver

    A shallow embedding of [Adafruit_SI5351.cpp].  The driver object is a
    record, the I2C device an interface (a type class) whose transactions are
    logged, and every member function a state transformer returning the
    [err_t] status of the C++ function.

    Arithmetic conventions, as in the source:
    - [uint8_t] and [uint32_t] values are integers of [Z], reduced modulo
      [2^8] and [2^32] where the C++ code stores into such a variable;
    - [float] is IEEE-754 binary32 with round-to-nearest-even, taken from
      the Standard Library's [SpecFloat] (the executable specification
      borrowed from Flocq); an integer operand of [+], [-], [*] or [/]
      whose other operand is a [float] is converted to [float] first, and
      the operation is carried out and rounded in binary32;
    - [floor] applied to a [float] yields a [float], so the expressions
      around it stay in binary32;
    - a floating-point value whose integer part lies outside [0, 2^32)
      converted to [uint32_t] has no value defined by the language; the
      model takes the resulting word from a parameter [fixuns_oor]
      standing for the target board;
    - [i2c_dev] is null until [begin] has created the device object: the
      model has no null pointer, so a call that reaches the bus stands for
      the source only on a machine on which [begin] has run. *)

From Stdlib Require Import ZArith Lia Bool List SpecFloat.
From stdpp Require Import base list.
Import ListNotations.
Local Open Scope Z_scope.

(** ** Machine integers *)

Definition u8 (z : Z) : Z := z mod 2 ^ 8.
Definition u32 (z : Z) : Z := z mod 2 ^ 32.

(** ** Floating point *)

(** The integer part of a finite float, rounded toward minus infinity. *)
Definition SFfloorZ (x : spec_float) : Z :=
  match x with
  | S754_finite s m e =>
      let z := if s then Z.neg m else Z.pos m in
      if 0 <=? e then z * 2 ^ e else z / 2 ^ (- e)
  | _ => 0
  end.

(** The integer part of a finite float, rounded toward zero. *)
Definition SFtruncZ (x : spec_float) : Z :=
  match x with
  | S754_finite s m e =>
      let a := if 0 <=? e then Z.pos m * 2 ^ e else Z.pos m / 2 ^ (- e) in
      if s then - a else a
  | _ => 0
  end.

(** [float]: IEEE-754 binary32. *)
Module F32.
Definition prec : Z := 24.
Definition emax : Z := 128.
(** Conversion of an integer, [(float)z]. *)
Definition of_Z (z : Z) : spec_float := binary_normalize prec emax z 0 false.
Definition add : spec_float -> spec_float -> spec_float := SFadd prec emax.
Definition sub : spec_float -> spec_float -> spec_float := SFsub prec emax.
Definition mul : spec_float -> spec_float -> spec_float := SFmul prec emax.
Definition div : spec_float -> spec_float -> spec_float := SFdiv prec emax.
(** [floor] on a [float]: the integer part converted back, which is
    exact, the integer part of a binary32 number being one. *)
Definition floor (x : spec_float) : spec_float :=
  match x with
  | S754_finite s _ _ => binary_normalize prec emax (SFfloorZ x) 0 s
  | _ => x
  end.
End F32.

(** ** Status codes and enumerations of the header *)

(** Modelled from the spec: the header's [err_t] is not part of the source
    file; the four error kinds of the spec's error-handling section and
    success. *)
Inductive err_t : Type :=
| ERROR_NONE
| ERROR_I2C_DEVICENOTFOUND
| ERROR_I2C_TRANSACTION
| ERROR_DEVICENOTINITIALISED
| ERROR_INVALIDPARAMETER.

(** Modelled from the spec: the PLL selector of the header, [which] in
    {A, B}. *)
Inductive si5351PLL_t : Type := SI5351_PLL_A | SI5351_PLL_B.

(** Modelled from the spec: register addresses of the header; each name
    carries its address. *)
Definition SI5351_REGISTER_3_OUTPUT_ENABLE_CONTROL : Z := 3.
Definition SI5351_REGISTER_16_CLK0_CONTROL : Z := 16.
Definition SI5351_REGISTER_17_CLK1_CONTROL : Z := 17.
Definition SI5351_REGISTER_18_CLK2_CONTROL : Z := 18.
Definition SI5351_REGISTER_19_CLK3_CONTROL : Z := 19.
Definition SI5351_REGISTER_20_CLK4_CONTROL : Z := 20.
Definition SI5351_REGISTER_21_CLK5_CONTROL : Z := 21.
Definition SI5351_REGISTER_22_CLK6_CONTROL : Z := 22.
Definition SI5351_REGISTER_23_CLK7_CONTROL : Z := 23.
Definition SI5351_REGISTER_42_MULTISYNTH0_PARAMETERS_1 : Z := 42.
Definition SI5351_REGISTER_44_MULTISYNTH0_PARAMETERS_3 : Z := 44.
Definition SI5351_REGISTER_50_MULTISYNTH1_PARAMETERS_1 : Z := 50.
Definition SI5351_REGISTER_52_MULTISYNTH1_PARAMETERS_3 : Z := 52.
Definition SI5351_REGISTER_58_MULTISYNTH2_PARAMETERS_1 : Z := 58.
Definition SI5351_REGISTER_60_MULTISYNTH2_PARAMETERS_3 : Z := 60.
Definition SI5351_REGISTER_149_SPREAD_SPECTRUM_PARAMETERS : Z := 149.
Definition SI5351_REGISTER_177_PLL_RESET : Z := 177.
Definition SI5351_REGISTER_183_CRYSTAL_INTERNAL_LOAD_CAPACITANCE : Z := 183.

(** Modelled from the spec: the crystal frequency constant of the header,
    25 MHz in the spec's end-to-end scenario. *)
Definition SI5351_CRYSTAL_FREQ_25MHZ : Z := 25000000.

(** ** The driver object *)

Record si5351Config_t : Type := {
  initialised : bool;
  crystalFreq : Z;
  crystalLoad : Z;
  crystalPPM : Z;
  plla_configured : bool;
  plla_freq : Z;
  pllb_configured : bool;
  pllb_freq : Z
}.

Record Adafruit_SI5351 : Type := {
  m_si5351Config : si5351Config_t;
  lastRdivValue : list Z
}.

Definition set_initialised (b : bool) (c : si5351Config_t) : si5351Config_t :=
  {| initialised := b; crystalFreq := crystalFreq c;
     crystalLoad := crystalLoad c; crystalPPM := crystalPPM c;
     plla_configured := plla_configured c; plla_freq := plla_freq c;
     pllb_configured := pllb_configured c; pllb_freq := pllb_freq c |}.

Definition set_plla (b : bool) (f : Z) (c : si5351Config_t) : si5351Config_t :=
  {| initialised := initialised c; crystalFreq := crystalFreq c;
     crystalLoad := crystalLoad c; crystalPPM := crystalPPM c;
     plla_configured := b; plla_freq := f;
     pllb_configured := pllb_configured c; pllb_freq := pllb_freq c |}.

Definition set_pllb (b : bool) (f : Z) (c : si5351Config_t) : si5351Config_t :=
  {| initialised := initialised c; crystalFreq := crystalFreq c;
     crystalLoad := crystalLoad c; crystalPPM := crystalPPM c;
     plla_configured := plla_configured c; plla_freq := plla_freq c;
     pllb_configured := b; pllb_freq := f |}.

Definition set_config (c : si5351Config_t) (d : Adafruit_SI5351) : Adafruit_SI5351 :=
  {| m_si5351Config := c; lastRdivValue := lastRdivValue d |}.

Definition set_lastRdivValue (i : Z) (v : Z) (d : Adafruit_SI5351) : Adafruit_SI5351 :=
  {| m_si5351Config := m_si5351Config d;
     lastRdivValue := <[Z.to_nat i := v]> (lastRdivValue d) |}.

Definition get_lastRdivValue (i : Z) (d : Adafruit_SI5351) : Z :=
  default 0 (lastRdivValue d !! Z.to_nat i).

(** The configured flag and frequency of one PLL. *)
Definition pll_configured (pll : si5351PLL_t) (c : si5351Config_t) : bool :=
  match pll with
  | SI5351_PLL_A => plla_configured c
  | SI5351_PLL_B => pllb_configured c
  end.

Definition pll_freq (pll : si5351PLL_t) (c : si5351Config_t) : Z :=
  match pll with
  | SI5351_PLL_A => plla_freq c
  | SI5351_PLL_B => pllb_freq c
  end.

(** ** The I2C device *)

(** The three calls the driver makes on [Adafruit_I2CDevice].  A read
    returns its status together with the byte found in the caller's
    variable afterwards: the byte read on success, whatever the variable
    held on failure. *)
Class I2CDevice (Bus : Type) : Type := {
  dev_begin : Bus -> bool * Bus;
  dev_write : list Z -> Bus -> bool * Bus;
  dev_write_then_read : Z -> Bus -> bool * Z * Bus
}.

Inductive bus_event : Type :=
| EvBegin
| EvWrite (bytes : list Z)
| EvRead (reg : Z).

(** A device that acknowledges everything and reads zero. *)
Definition ack_device : I2CDevice unit :=
  {| dev_begin := fun b => (true, b);
     dev_write := fun _ b => (true, b);
     dev_write_then_read := fun _ b => (true, 0, b) |}.


(** A device whose reads fail and whose writes succeed.  A failed read
    leaves the caller's variable as it was; [setupRdiv] and
    [enableSpreadSpectrum] pass a variable they never initialised, whose
    content [leftover] is any byte. *)
Definition deaf_device (leftover : Z) : I2CDevice unit :=
  {| dev_begin := fun b => (true, b);
     dev_write := fun _ b => (true, b);
     dev_write_then_read := fun _ b => (false, leftover, b) |}.

(** A device that acknowledges its first [n] writes and refuses every
    write after them; it answers the detection and reads zero. *)
Definition flaky_device : I2CDevice nat :=
  {| dev_begin := fun n => (true, n);
     dev_write := fun _ n => match n with O => (false, O) | S k => (true, k) end;
     dev_write_then_read := fun _ n => (true, 0, n) |}.

(** ** The driver *)

Section Driver.
Context {Bus : Type} {device : I2CDevice Bus}.

(** The word a target board produces when a floating-point value outside
    the range of [uint32_t] is converted to it. *)
Variable fixuns_oor : spec_float -> Z.

(** The register map generated by ClockBuilder Desktop (a table of the
    header): rows of register address and value. *)
Variable m_si5351_regs_15to92_149to170 : list (Z * Z).

(** The value of [SI5351_CRYSTAL_LOAD_10PF] in the header. *)
Variable SI5351_CRYSTAL_LOAD_10PF : Z.

(** The driver object, the bus behind [i2c_dev], and the transactions
    issued so far (latest first). *)
Record Machine : Type := {
  obj : Adafruit_SI5351;
  bus : Bus;
  trace : list bus_event
}.

Definition with_obj (d : Adafruit_SI5351) (m : Machine) : Machine :=
  {| obj := d; bus := bus m; trace := trace m |}.

Definition config (m : Machine) : si5351Config_t := m_si5351Config (obj m).

Definition with_config (c : si5351Config_t) (m : Machine) : Machine :=
  with_obj (set_config c (obj m)) m.

(** [(uint32_t)x] for a floating-point [x]. *)
Definition to_uint32 (x : spec_float) : Z :=
  match x with
  | S754_zero _ => 0
  | S754_finite _ _ _ =>
      let z := SFtruncZ x in
      if (0 <=? z) && (z <? 2 ^ 32) then z else u32 (fixuns_oor x)
  | _ => u32 (fixuns_oor x)
  end.

(** *** Statements with early return

    A statement either falls through with a value or makes the enclosing
    function return a status. *)
Definition Stmt (A : Type) : Type := Machine -> (err_t + A) * Machine.

Definition ret {A : Type} (a : A) : Stmt A := fun m => (inr a, m).

Definition bind {A B : Type} (s : Stmt A) (k : A -> Stmt B) : Stmt B :=
  fun m =>
    match s m with
    | (inl e, m') => (inl e, m')
    | (inr a, m') => k a m'
    end.

Declare Scope stmt_scope.
Notation "x ← y ; z" := (bind y (fun x => z))
  (at level 20, y at level 100, z at level 200, only parsing) : stmt_scope.
Notation "x ;; z" := (bind x (fun _ => z))
  (at level 100, z at level 200, only parsing, right associativity) : stmt_scope.
Local Open Scope stmt_scope.

Definition gets {A : Type} (f : Machine -> A) : Stmt A := fun m => (inr (f m), m).
Definition modify (f : Machine -> Machine) : Stmt unit := fun m => (inr tt, f m).

(** [return e;] *)
Definition Return {A : Type} (e : err_t) : Stmt A := fun m => (inl e, m).

(** A member function: the status it returns and the machine it leaves. *)
Definition Fn : Type := Machine -> err_t * Machine.

(** Calling a function and keeping what it returns. *)
Definition call {A : Type} (f : Machine -> A * Machine) : Stmt A :=
  fun m => let (a, m') := f m in (inr a, m').

(** A function body falling off its last statement has returned by then
    in every function of the driver; the default is never reached. *)
Definition body (s : Stmt unit) : Fn :=
  fun m =>
    match s m with
    | (inl e, m') => (e, m')
    | (inr _, m') => (ERROR_NONE, m')
    end.

(** Modelled from the spec: the header's [ASSERT(cond, err)] macro, which
    returns [err] when a precondition fails. *)
Definition ASSERT (cond : Machine -> bool) (e : err_t) : Stmt unit :=
  fun m => if cond m then (inr tt, m) else (inl e, m).

(** Modelled from the spec: the header's [ASSERT_STATUS(call)] macro: the
    first failure aborts the remaining steps and is surfaced
    immediately. *)
Definition ASSERT_STATUS (f : Fn) : Stmt unit :=
  e ← call f;
  match e with
  | ERROR_NONE => ret tt
  | _ => Return e
  end.

(** The machine after a write transaction and after a read. *)
Definition after_write (bytes : list Z) (m : Machine) : Machine :=
  {| obj := obj m; bus := snd (dev_write bytes (bus m));
     trace := EvWrite bytes :: trace m |}.

Definition after_read (reg : Z) (m : Machine) : Machine :=
  {| obj := obj m; bus := snd (dev_write_then_read reg (bus m));
     trace := EvRead reg :: trace m |}.

(** *** Private functions *)

Definition i2c_write (bytes : list Z) : Fn :=
  fun m =>
    let (ok, b) := dev_write bytes (bus m) in
    (if ok then ERROR_NONE else ERROR_I2C_TRANSACTION,
     {| obj := obj m; bus := b; trace := EvWrite bytes :: trace m |}).

(** [i2c_dev->begin()], on the device object created by [begin]. *)
Definition i2c_begin : Machine -> bool * Machine :=
  fun m =>
    let (ok, b) := dev_begin (bus m) in
    (ok, {| obj := obj m; bus := b; trace := EvBegin :: trace m |}).

Definition write8 (reg value : Z) : Fn := i2c_write [u8 reg; u8 value].

Definition writeN (data : list Z) : Fn := i2c_write data.

(** [read8(reg, &value)]: the status and the content of [value]
    afterwards. *)
Definition read8 (reg : Z) : Machine -> (err_t * Z) * Machine :=
  fun m =>
    let '(ok, v, b) := dev_write_then_read (u8 reg) (bus m) in
    ((if ok then ERROR_NONE else ERROR_I2C_TRANSACTION, u8 v),
     {| obj := obj m; bus := b; trace := EvRead (u8 reg) :: trace m |}).

(** *** Constructor *)

Definition new_Adafruit_SI5351 : Adafruit_SI5351 :=
  {| m_si5351Config :=
       {| initialised := false;
          crystalFreq := SI5351_CRYSTAL_FREQ_25MHZ;
          crystalLoad := SI5351_CRYSTAL_LOAD_10PF;
          crystalPPM := 30;
          plla_configured := false; plla_freq := 0;
          pllb_configured := false; pllb_freq := 0 |};
     lastRdivValue := [0; 0; 0] |}.

(** *** enableSpreadSpectrum *)

Definition enableSpreadSpectrum (enabled : bool) : Fn :=
  body (
    r ← call (read8 SI5351_REGISTER_149_SPREAD_SPECTRUM_PARAMETERS);
    match fst r with
    | ERROR_NONE =>
        let regval :=
          if enabled then Z.lor (snd r) 0x80 else Z.land (snd r) 0x7F in
        ASSERT_STATUS (write8 SI5351_REGISTER_149_SPREAD_SPECTRUM_PARAMETERS regval) ;;
        Return ERROR_NONE
    | e => Return e
    end).

(** *** begin *)

Definition begin : Fn :=
  body (
    ok ← call i2c_begin;
    (if ok : bool then ret tt else Return ERROR_I2C_DEVICENOTFOUND) ;;
    ASSERT_STATUS (write8 SI5351_REGISTER_3_OUTPUT_ENABLE_CONTROL 0xFF) ;;
    ASSERT_STATUS (write8 SI5351_REGISTER_16_CLK0_CONTROL 0x80) ;;
    ASSERT_STATUS (write8 SI5351_REGISTER_17_CLK1_CONTROL 0x80) ;;
    ASSERT_STATUS (write8 SI5351_REGISTER_18_CLK2_CONTROL 0x80) ;;
    ASSERT_STATUS (write8 SI5351_REGISTER_19_CLK3_CONTROL 0x80) ;;
    ASSERT_STATUS (write8 SI5351_REGISTER_20_CLK4_CONTROL 0x80) ;;
    ASSERT_STATUS (write8 SI5351_REGISTER_21_CLK5_CONTROL 0x80) ;;
    ASSERT_STATUS (write8 SI5351_REGISTER_22_CLK6_CONTROL 0x80) ;;
    ASSERT_STATUS (write8 SI5351_REGISTER_23_CLK7_CONTROL 0x80) ;;
    load ← gets (fun m => crystalLoad (config m));
    ASSERT_STATUS (write8 SI5351_REGISTER_183_CRYSTAL_INTERNAL_LOAD_CAPACITANCE load) ;;
    _ ← call (enableSpreadSpectrum false);
    modify (fun m => with_config (set_plla false 0 (config m)) m) ;;
    modify (fun m => with_config (set_pllb false 0 (config m)) m) ;;
    modify (fun m => with_config (set_initialised true (config m)) m) ;;
    Return ERROR_NONE).

(** *** setClockBuilderData *)

Fixpoint write_table (rows : list (Z * Z)) : Stmt unit :=
  match rows with
  | [] => ret tt
  | (reg, value) :: rest => ASSERT_STATUS (write8 reg value) ;; write_table rest
  end.

Definition setClockBuilderData : Fn :=
  body (
    ASSERT (fun m => initialised (config m)) ERROR_DEVICENOTINITIALISED ;;
    ASSERT_STATUS (write8 SI5351_REGISTER_3_OUTPUT_ENABLE_CONTROL 0xFF) ;;
    write_table m_si5351_regs_15to92_149to170 ;;
    ASSERT_STATUS (write8 SI5351_REGISTER_177_PLL_RESET 0xAC) ;;
    ASSERT_STATUS (write8 SI5351_REGISTER_3_OUTPUT_ENABLE_CONTROL 0x00) ;;
    Return ERROR_NONE).

(** *** setupPLL *)

(** [floor(128 * ((float)num / (float)denom))], a [float]. *)
Definition floor_128_ratio (num denom : Z) : spec_float :=
  F32.floor (F32.mul (F32.of_Z 128) (F32.div (F32.of_Z num) (F32.of_Z denom))).

(** [128 * a + floor(128 * ((float)num / (float)denom)) - 512]: the
    integer operands [128 * a] (an [int] in [setupPLL], a [uint32_t] in
    [setupMultisynth]) and [512] are converted to [float]. *)
Definition fractional_P1 (a num denom : Z) : spec_float :=
  F32.sub (F32.add (F32.of_Z (128 * a)) (floor_128_ratio num denom)) (F32.of_Z 512).

(** [128 * num - denom * floor(128 * ((float)num / (float)denom))]: the
    [uint32_t] operands [128 * num] and [denom] are converted to
    [float]. *)
Definition fractional_P2 (num denom : Z) : spec_float :=
  F32.sub (F32.of_Z (u32 (128 * num)))
          (F32.mul (F32.of_Z denom) (floor_128_ratio num denom)).

(** The fractional-mode assignments to P1, P2 and P3, shared by the two
    stages ([a] is [mult] or [div]). *)
Definition fractional_fields (a num denom : Z) : Z * Z * Z :=
  (to_uint32 (fractional_P1 a num denom), to_uint32 (fractional_P2 num denom), denom).

(** The values of P1, P2, P3 after the branch of [setupPLL]. *)
Definition setupPLL_fields (mult num denom : Z) : Z * Z * Z :=
  if num =? 0 then (u32 (128 * mult - 512), num, denom)
  else fractional_fields mult num denom.

Definition pll_baseaddr (pll : si5351PLL_t) : Z :=
  match pll with SI5351_PLL_A => 26 | SI5351_PLL_B => 34 end.

(** [(uint32_t)floor(crystalFreq * (mult + ((float)num / (float)denom)))] *)
Definition fvco_floor (xtal mult num denom : Z) : Z :=
  to_uint32 (F32.floor
    (F32.mul (F32.of_Z xtal)
             (F32.add (F32.of_Z mult) (F32.div (F32.of_Z num) (F32.of_Z denom))))).

Definition setupPLL (pll : si5351PLL_t) (mult num denom : Z) : Fn :=
  body (
    ASSERT (fun m => initialised (config m)) ERROR_DEVICENOTINITIALISED ;;
    ASSERT (fun _ => (14 <? mult) && (mult <? 91)) ERROR_INVALIDPARAMETER ;;
    ASSERT (fun _ => 0 <? denom) ERROR_INVALIDPARAMETER ;;
    ASSERT (fun _ => num <=? 0xFFFFF) ERROR_INVALIDPARAMETER ;;
    ASSERT (fun _ => denom <=? 0xFFFFF) ERROR_INVALIDPARAMETER ;;
    let '(P1, P2, P3) := setupPLL_fields mult num denom in
    let baseaddr := pll_baseaddr pll in
    ASSERT_STATUS (write8 baseaddr (Z.shiftr (Z.land P3 0x0000FF00) 8)) ;;
    ASSERT_STATUS (write8 (baseaddr + 1) (Z.land P3 0x000000FF)) ;;
    ASSERT_STATUS (write8 (baseaddr + 2) (Z.shiftr (Z.land P1 0x00030000) 16)) ;;
    ASSERT_STATUS (write8 (baseaddr + 3) (Z.shiftr (Z.land P1 0x0000FF00) 8)) ;;
    ASSERT_STATUS (write8 (baseaddr + 4) (Z.land P1 0x000000FF)) ;;
    ASSERT_STATUS (write8 (baseaddr + 5)
                     (Z.lor (Z.shiftr (Z.land P3 0x000F0000) 12)
                            (Z.shiftr (Z.land P2 0x000F0000) 16))) ;;
    ASSERT_STATUS (write8 (baseaddr + 6) (Z.shiftr (Z.land P2 0x0000FF00) 8)) ;;
    ASSERT_STATUS (write8 (baseaddr + 7) (Z.land P2 0x000000FF)) ;;
    ASSERT_STATUS (write8 SI5351_REGISTER_177_PLL_RESET
                     (Z.lor (Z.shiftl 1 7) (Z.shiftl 1 5))) ;;
    match pll with
    | SI5351_PLL_A =>
        modify (fun m =>
          with_config (set_plla true (fvco_floor (crystalFreq (config m)) mult num denom)
                                (config m)) m)
    | SI5351_PLL_B =>
        modify (fun m =>
          with_config (set_pllb true (fvco_floor (crystalFreq (config m)) mult num denom)
                                (config m)) m)
    end ;;
    Return ERROR_NONE).

Definition setupPLLInt (pll : si5351PLL_t) (mult : Z) : Fn := setupPLL pll mult 0 1.

(** *** setupRdiv *)

Definition rdiv_register (output : Z) : Z :=
  if output =? 0 then SI5351_REGISTER_44_MULTISYNTH0_PARAMETERS_3
  else if output =? 1 then SI5351_REGISTER_52_MULTISYNTH1_PARAMETERS_3
  else SI5351_REGISTER_60_MULTISYNTH2_PARAMETERS_3.

Definition setupRdiv (output div : Z) : Fn :=
  body (
    ASSERT (fun _ => output <? 3) ERROR_INVALIDPARAMETER ;;
    let Rreg := rdiv_register output in
    r ← call (read8 Rreg);
    let regval := Z.land (snd r) 0x0F in
    let divider := u8 (Z.shiftl (Z.land (u8 div) 0x07) 4) in
    let regval := Z.lor regval divider in
    modify (fun m => with_obj (set_lastRdivValue output divider (obj m)) m) ;;
    e ← call (write8 Rreg regval);
    Return e).

(** *** setupMultisynth *)

(** The values of P1, P2, P3 after the branches of [setupMultisynth]. *)
Definition setupMultisynth_fields (div num denom : Z) : Z * Z * Z :=
  if num =? 0 then (u32 (128 * div - 512), 0, denom)
  else if denom =? 1 then (u32 (128 * div + 128 * num - 512), u32 (128 * num - 128), 1)
  else fractional_fields div num denom.

Definition multisynth_baseaddr (output : Z) : Z :=
  if output =? 0 then SI5351_REGISTER_42_MULTISYNTH0_PARAMETERS_1
  else if output =? 1 then SI5351_REGISTER_50_MULTISYNTH1_PARAMETERS_1
  else if output =? 2 then SI5351_REGISTER_58_MULTISYNTH2_PARAMETERS_1
  else 0.

(** The nine bytes of [sendBuffer]: the base address and the eight
    register bytes. *)
Definition multisynth_sendBuffer (output rdiv P1 P2 P3 : Z) : list Z :=
  [ u8 (multisynth_baseaddr output);
    u8 (Z.shiftr (Z.land P3 0xFF00) 8);
    u8 (Z.land P3 0xFF);
    u8 (Z.lor (Z.shiftr (Z.land P1 0x30000) 16) rdiv);
    u8 (Z.shiftr (Z.land P1 0xFF00) 8);
    u8 (Z.land P1 0xFF);
    u8 (Z.lor (Z.shiftr (Z.land P3 0xF0000) 12) (Z.shiftr (Z.land P2 0xF0000) 16));
    u8 (Z.shiftr (Z.land P2 0xFF00) 8);
    u8 (Z.land P2 0xFF) ].

Definition clkControlReg (pllSource : si5351PLL_t) (num : Z) : Z :=
  let r := 0x0F in
  let r := match pllSource with
           | SI5351_PLL_B => Z.lor r (Z.shiftl 1 5)
           | SI5351_PLL_A => r
           end in
  if num =? 0 then Z.lor r (Z.shiftl 1 6) else r.

Definition setupMultisynth (output : Z) (pllSource : si5351PLL_t)
    (div num denom : Z) : Fn :=
  body (
    ASSERT (fun m => initialised (config m)) ERROR_DEVICENOTINITIALISED ;;
    ASSERT (fun _ => output <? 3) ERROR_INVALIDPARAMETER ;;
    ASSERT (fun _ => 3 <? div) ERROR_INVALIDPARAMETER ;;
    ASSERT (fun _ => div <? 2049) ERROR_INVALIDPARAMETER ;;
    ASSERT (fun _ => 0 <? denom) ERROR_INVALIDPARAMETER ;;
    ASSERT (fun _ => num <=? 0xFFFFF) ERROR_INVALIDPARAMETER ;;
    ASSERT (fun _ => denom <=? 0xFFFFF) ERROR_INVALIDPARAMETER ;;
    match pllSource with
    | SI5351_PLL_A => ASSERT (fun m => plla_configured (config m)) ERROR_INVALIDPARAMETER
    | SI5351_PLL_B => ASSERT (fun m => pllb_configured (config m)) ERROR_INVALIDPARAMETER
    end ;;
    let '(P1, P2, P3) := setupMultisynth_fields div num denom in
    rdiv ← gets (fun m => get_lastRdivValue output (obj m));
    ASSERT_STATUS (writeN (multisynth_sendBuffer output rdiv P1 P2 P3)) ;;
    let clk := clkControlReg pllSource num in
    (if output =? 0 then ASSERT_STATUS (write8 SI5351_REGISTER_16_CLK0_CONTROL clk)
     else if output =? 1 then ASSERT_STATUS (write8 SI5351_REGISTER_17_CLK1_CONTROL clk)
     else if output =? 2 then ASSERT_STATUS (write8 SI5351_REGISTER_18_CLK2_CONTROL clk)
     else ret tt) ;;
    Return ERROR_NONE).

Definition setupMultisynthInt (output : Z) (pllSource : si5351PLL_t) (div : Z) : Fn :=
  setupMultisynth output pllSource div 0 1.

(** *** enableOutputs *)

Definition enableOutputs (enabled : bool) : Fn :=
  body (
    ASSERT (fun m => initialised (config m)) ERROR_DEVICENOTINITIALISED ;;
    ASSERT_STATUS (write8 SI5351_REGISTER_3_OUTPUT_ENABLE_CONTROL
                     (if enabled then 0x00 else 0xFF)) ;;
    Return ERROR_NONE).

End Driver.

Arguments Machine Bus : clear implicits.
Arguments Stmt Bus A : clear implicits.
Arguments Fn Bus : clear implicits.

(** ** Notions used by the statements below *)

(** A statement that leaves the driver object alone, whatever its outcome. *)
Definition keeps_obj {Bus A : Type} (s : Stmt Bus A) : Prop :=
  forall m, obj (snd (s m)) = obj m.

(** A statement that leaves the driver object alone whenever it makes the
    function return an error. *)
Definition error_keeps_obj {Bus A : Type} (s : Stmt Bus A) : Prop :=
  forall m e, fst (s m) = inl e -> e <> ERROR_NONE -> obj (snd (s m)) = obj m.

(** The floor-based formulas in the words of the spec and of the comment
    in the source, in exact integer arithmetic ([a] is the multiplier or
    the divider). *)
Definition spec_fractional_fields (a num denom : Z) : Z * Z * Z :=
  (128 * a + (128 * num) / denom - 512,
   128 * num - denom * ((128 * num) / denom),
   denom).

(** The nine register writes of [setupPLL], in program order. *)
Definition setupPLL_writes (pll : si5351PLL_t) (P1 P2 P3 : Z) : list (list Z) :=
  let baseaddr := pll_baseaddr pll in
  [ [u8 baseaddr; u8 (Z.shiftr (Z.land P3 0x0000FF00) 8)];
    [u8 (baseaddr + 1); u8 (Z.land P3 0x000000FF)];
    [u8 (baseaddr + 2); u8 (Z.shiftr (Z.land P1 0x00030000) 16)];
    [u8 (baseaddr + 3); u8 (Z.shiftr (Z.land P1 0x0000FF00) 8)];
    [u8 (baseaddr + 4); u8 (Z.land P1 0x000000FF)];
    [u8 (baseaddr + 5); u8 (Z.lor (Z.shiftr (Z.land P3 0x000F0000) 12)
                                  (Z.shiftr (Z.land P2 0x000F0000) 16))];
    [u8 (baseaddr + 6); u8 (Z.shiftr (Z.land P2 0x0000FF00) 8)];
    [u8 (baseaddr + 7); u8 (Z.land P2 0x000000FF)];
    [u8 SI5351_REGISTER_177_PLL_RESET; u8 (Z.lor (Z.shiftl 1 7) (Z.shiftl 1 5))] ].

(** The machine after a sequence of write transactions. *)
Definition after_writes {Bus : Type} {device : I2CDevice Bus}
    (ws : list (list Z)) (m : Machine Bus) : Machine Bus :=
  fold_left (fun m bytes => after_write bytes m) ws m.

(** Storing the result of a PLL configuration. *)
Definition set_pll (pll : si5351PLL_t) (f : Z) (c : si5351Config_t) : si5351Config_t :=
  match pll with
  | SI5351_PLL_A => set_plla true f c
  | SI5351_PLL_B => set_pllb true f c
  end.

(** A driver object fresh from its constructor, on a bus of type [unit];
    the crystal load constant is taken to be [3 << 6].  This is the state
    in which [begin] is called: [i2c_dev] is still null, and no other
    function is run on it. *)
Definition power_on : Machine unit :=
  {| obj := new_Adafruit_SI5351 0xC0; bus := tt; trace := [] |}.


(** A board on which every out-of-range conversion yields zero. *)
Definition oor_zero : spec_float -> Z := fun _ => 0.

(** The instance after a successful [begin] on an acknowledging device,
    the instance after [setupPLLInt(PLL_A, 36)] on top of that, and the
    latter driver object on a device that stops answering after [n]
    transactions. *)
Definition begun_machine : Machine unit := snd (@begin unit ack_device power_on).

Definition ready_machine : Machine unit :=
  snd (@setupPLLInt unit ack_device oor_zero SI5351_PLL_A 36 begun_machine).

Definition flaky_machine (n : nat) : Machine nat :=
  {| obj := obj ready_machine; bus := n; trace := [] |}.

(** The register byte at position [i] of a burst (position 0 holds the
    start address). *)
Definition burst_byte (i : nat) (burst : list Z) : Z := nth i burst 0.

(** The integers [lo, lo + n). *)
Definition zrange (lo : Z) (n : nat) : list Z := map (fun i => lo + Z.of_nat i) (seq 0 n).

(** The integer the source takes for [floor(128 * num / denom)]: the floor
    of 128 times the single-precision quotient. *)
Definition code_floor (num denom : Z) : Z :=
  SFfloorZ (F32.mul (F32.of_Z 128) (F32.div (F32.of_Z num) (F32.of_Z denom))).

(** [float_is x X]: the binary32 number [x] is the integer [X >= 0]
    (mantissa and exponent compared after scaling by [2^24], the exponent
    of an integer being at least [-23]). *)
Definition float_is (x : spec_float) (X : Z) : Prop :=
  match x with
  | S754_zero _ => X = 0
  | S754_finite false m e => -24 <= e <= 100 /\ Z.pos m * 2 ^ (e + 24) = X * 2 ^ 24
  | _ => False
  end.

(** A board on which an out-of-range conversion yields the all-ones word. *)
Definition oor_ones : spec_float -> Z := fun _ => 0xFFFFFFFF.

(** ** Write sequences and the notions of the further properties *)

(** The argument checks of [setupPLL] and of [setupMultisynth], in the
    order of their [ASSERT]s. *)
Definition setupPLL_args_ok (mult num denom : Z) : bool :=
  (14 <? mult) && (mult <? 91) && (0 <? denom) && (num <=? 0xFFFFF) && (denom <=? 0xFFFFF).

Definition setupMultisynth_args_ok (output div num denom : Z) : bool :=
  (output <? 3) && (3 <? div) && (div <? 2049) && (0 <? denom) &&
  (num <=? 0xFFFFF) && (denom <=? 0xFFFFF).

(** A sequence of checked writes, [ASSERT_STATUS(write(...))] one after the
    other. *)
Fixpoint write_all {Bus : Type} {device : I2CDevice Bus} (ws : list (list Z))
    : Stmt Bus unit :=
  match ws with
  | [] => ret tt
  | w :: rest => bind (ASSERT_STATUS (i2c_write w)) (fun _ => write_all rest)
  end.

(** The position (from 0) of the first write of a sequence that the device
    refuses, each write being put to the device in the state the writes
    before it left it in; [None] when the device acknowledges them all. *)
Fixpoint first_refused {Bus : Type} {device : I2CDevice Bus} (ws : list (list Z)) (b : Bus)
    : option nat :=
  match ws with
  | [] => None
  | w :: rest =>
      if fst (dev_write w b) then option_map S (first_refused rest (snd (dev_write w b)))
      else Some 0%nat
  end.

(** The bytes of the rows of a register table. *)
Definition table_writes (rows : list (Z * Z)) : list (list Z) :=
  map (fun row => [u8 (fst row); u8 (snd row)]) rows.

(** The ten register writes of [begin] and the writes of
    [setClockBuilderData], in program order. *)
Definition begin_writes (load : Z) : list (list Z) :=
  [ [u8 SI5351_REGISTER_3_OUTPUT_ENABLE_CONTROL; u8 0xFF];
    [u8 SI5351_REGISTER_16_CLK0_CONTROL; u8 0x80];
    [u8 SI5351_REGISTER_17_CLK1_CONTROL; u8 0x80];
    [u8 SI5351_REGISTER_18_CLK2_CONTROL; u8 0x80];
    [u8 SI5351_REGISTER_19_CLK3_CONTROL; u8 0x80];
    [u8 SI5351_REGISTER_20_CLK4_CONTROL; u8 0x80];
    [u8 SI5351_REGISTER_21_CLK5_CONTROL; u8 0x80];
    [u8 SI5351_REGISTER_22_CLK6_CONTROL; u8 0x80];
    [u8 SI5351_REGISTER_23_CLK7_CONTROL; u8 0x80];
    [u8 SI5351_REGISTER_183_CRYSTAL_INTERNAL_LOAD_CAPACITANCE; u8 load] ].

Definition setClockBuilderData_writes (table : list (Z * Z)) : list (list Z) :=
  [u8 SI5351_REGISTER_3_OUTPUT_ENABLE_CONTROL; u8 0xFF]
    :: table_writes table
    ++ [ [u8 SI5351_REGISTER_177_PLL_RESET; u8 0xAC];
         [u8 SI5351_REGISTER_3_OUTPUT_ENABLE_CONTROL; u8 0x00] ].

(** The configuration [begin] leaves: PLL fields reset and the instance
    marked initialised. *)
Definition begun_config (c : si5351Config_t) : si5351Config_t :=
  set_initialised true (set_pllb false 0 (set_plla false 0 c)).

(** The stored R-divider fields are well formed: three entries, each a
    3-bit code in bits 6:4. *)
Definition rdiv_wf (d : Adafruit_SI5351) : Prop :=
  length (lastRdivValue d) = 3%nat /\
  Forall (fun v => exists r, 0 <= r <= 7 /\ v = r * 16) (lastRdivValue d).

(** Reading the three fields back from the eight parameter bytes of a PLL
    or Multisynth window, by the register layout the source writes:
    P3[15:8], P3[7:0], P1[17:16] in bits 1:0, P1[15:8], P1[7:0],
    P3[19:16] and P2[19:16] as the two nibbles, P2[15:8], P2[7:0]. *)
Definition decode_fields (bytes : list Z) : Z * Z * Z :=
  match bytes with
  | [b0; b1; b2; b3; b4; b5; b6; b7] =>
      ((b2 mod 4) * 65536 + b3 * 256 + b4,
       (b5 mod 16) * 65536 + b6 * 256 + b7,
       (b5 / 16) * 65536 + b0 * 256 + b1)
  | _ => (0, 0, 0)
  end.

(** The value byte of each register write. *)
Definition write_values (ws : list (list Z)) : list Z := map (fun w => nth 1 w 0) ws.

(** The register address of each write. *)
Definition write_registers (ws : list (list Z)) : list Z := map (fun w => nth 0 w 0) ws.

(** The status and the machine at the end of a function that performs a
    sequence of checked writes and then a final step. *)
Definition finish {Bus : Type} {device : I2CDevice Bus} (ws : list (list Z))
    (last : Machine Bus -> Machine Bus) (m : Machine Bus) : err_t * Machine Bus :=
  match fst (write_all ws m) with
  | inl e => (e, snd (write_all ws m))
  | inr _ => (ERROR_NONE, last (snd (write_all ws m)))
  end.

(** The machine after [i2c_dev->begin()]. *)
Definition after_begin {Bus : Type} {device : I2CDevice Bus} (m : Machine Bus) : Machine Bus :=
  {| obj := obj m; bus := snd (dev_begin (bus m)); trace := EvBegin :: trace m |}.

(** The end of [begin] once its ten writes are through: the call of
    [enableSpreadSpectrum(false)], whose status is not looked at, and the
    assignments to the configuration. *)
Definition begin_finish {Bus : Type} {device : I2CDevice Bus} (m : Machine Bus)
    : Machine Bus :=
  let m' := snd (enableSpreadSpectrum false m) in
  with_config (begun_config (config m')) m'.

(** The write to the clock control register of a channel, as the [switch]
    of [setupMultisynth] issues it: none for a channel other than 0, 1, 2. *)
Definition clk_control_writes (output clk : Z) : list (list Z) :=
  if output =? 0 then [[u8 SI5351_REGISTER_16_CLK0_CONTROL; u8 clk]]
  else if output =? 1 then [[u8 SI5351_REGISTER_17_CLK1_CONTROL; u8 clk]]
  else if output =? 2 then [[u8 SI5351_REGISTER_18_CLK2_CONTROL; u8 clk]]
  else [].

(** The writes of [setupMultisynth], in program order: the burst of nine
    bytes and the clock control register. *)
Definition setupMultisynth_writes (output rdiv : Z) (pllSource : si5351PLL_t)
    (num P1 P2 P3 : Z) : list (list Z) :=
  multisynth_sendBuffer output rdiv P1 P2 P3
    :: clk_control_writes output (clkControlReg pllSource num).

(** The field [setupRdiv] stores and merges into the register: the low
    three bits of the divider code, in bits 6:4. *)
Definition rdiv_field (div : Z) : Z := u8 (Z.shiftl (Z.land (u8 div) 0x07) 4).

(** ** Sequences of calls *)

(** A call of one of the public member functions. *)
Inductive operation : Type :=
| Begin
| SetClockBuilderData
| SetupPLLInt (pll : si5351PLL_t) (mult : Z)
| SetupPLL (pll : si5351PLL_t) (mult num denom : Z)
| SetupMultisynthInt (output : Z) (pllSource : si5351PLL_t) (div : Z)
| SetupRdiv (output div : Z)
| SetupMultisynth (output : Z) (pllSource : si5351PLL_t) (div num denom : Z)
| EnableOutputs (enabled : bool)
| EnableSpreadSpectrum (enabled : bool).

Definition perform {Bus : Type} {device : I2CDevice Bus} (oor : spec_float -> Z)
    (table : list (Z * Z)) (o : operation) : Fn Bus :=
  match o with
  | Begin => begin
  | SetClockBuilderData => setClockBuilderData table
  | SetupPLLInt pll mult => setupPLLInt oor pll mult
  | SetupPLL pll mult num denom => setupPLL oor pll mult num denom
  | SetupMultisynthInt output pllSource div => setupMultisynthInt oor output pllSource div
  | SetupRdiv output div => setupRdiv output div
  | SetupMultisynth output pllSource div num denom =>
      setupMultisynth oor output pllSource div num denom
  | EnableOutputs enabled => enableOutputs enabled
  | EnableSpreadSpectrum enabled => enableSpreadSpectrum enabled
  end.

(** The machine after a sequence of calls, whatever each of them
    returned. *)
Definition perform_all {Bus : Type} {device : I2CDevice Bus} (oor : spec_float -> Z)
    (table : list (Z * Z)) (os : list operation) (m : Machine Bus) : Machine Bus :=
  fold_left (fun m o => snd (perform oor table o m)) os m.

(** What holds of the driver object in every state a program can reach
    from the constructor: the crystal settings are the constructor's, the
    R-divider fields are well formed, a PLL that is marked configured
    belongs to an initialised instance, and a PLL that is not has frequency
    0. *)
Definition driver_invariant (load : Z) (d : Adafruit_SI5351) : Prop :=
  let c := m_si5351Config d in
  crystalFreq c = SI5351_CRYSTAL_FREQ_25MHZ /\ crystalLoad c = load /\ crystalPPM c = 30 /\
  rdiv_wf d /\
  (forall pll, pll_configured pll c = true -> initialised c = true) /\
  (forall pll, pll_configured pll c = false -> pll_freq pll c = 0).

(** A machine whose driver object is fresh from the constructor.  Its
    [i2c_dev] is still null: the first call of a program is [begin]. *)
Definition fresh {Bus : Type} (load : Z) (b : Bus) : Machine Bus :=
  {| obj := new_Adafruit_SI5351 load; bus := b; trace := [] |}.

(** ** A device with registers *)

(** Storing a burst: the bytes go to consecutive addresses from [reg] on
    (the source's comment on its burst: register address auto-increases). *)
Definition store_burst (reg : Z) (data : list Z) (regs : Z -> Z) : Z -> Z :=
  fun a =>
    if (reg <=? a) && (a <? reg + Z.of_nat (length data))
    then nth (Z.to_nat (a - reg)) data 0
    else regs a.

(** A device that answers the detection, stores what is written to it, the
    first byte of a write being the address of the first register, and
    reads back what it stores. *)
Definition register_device : I2CDevice (Z -> Z) :=
  {| dev_begin := fun regs => (true, regs);
     dev_write := fun bytes regs =>
       match bytes with
       | [] => (true, regs)
       | reg :: data => (true, store_burst reg data regs)
       end;
     dev_write_then_read := fun reg regs => (true, regs reg, regs) |}.

(** A driver object fresh from its constructor in front of a device whose
    registers all hold zero: the state in which [begin] is called. *)
Definition blank_registers : Machine (Z -> Z) :=
  {| obj := new_Adafruit_SI5351 0xC0; bus := fun _ => 0; trace := [] |}.

(** That machine after [begin] and [setupPLLInt(PLL_A, 36)]. *)
Definition configured_registers : Machine (Z -> Z) :=
  snd (@setupPLLInt _ register_device oor_zero SI5351_PLL_A 36
         (snd (@begin _ register_device blank_registers))).

(** The registers after a sequence of writes to that device. *)
Definition store_all (ws : list (list Z)) (regs : Z -> Z) : Z -> Z :=
  fold_left (fun regs w => snd (@dev_write _ register_device w regs)) ws regs.

(** * Facts about the floating-point operations *)

Section Digits.
Lemma digits2_pos_size (p : positive) : digits2_pos p = Pos.size p.
Proof. induction p; cbn; congruence. Qed.

Lemma digits2_pos_bounds (p : positive) :
  2 ^ (Z.pos (digits2_pos p) - 1) <= Z.pos p < 2 ^ Z.pos (digits2_pos p).
Proof.
  induction p as [p IH | p IH |]; cbn [digits2_pos].
  - rewrite Pos2Z.inj_succ, (Pos2Z.inj_xI p).
    replace (Z.succ (Z.pos (digits2_pos p)) - 1) with (Z.succ (Z.pos (digits2_pos p) - 1))
      by lia.
    rewrite !Z.pow_succ_r by lia. lia.
  - rewrite Pos2Z.inj_succ, (Pos2Z.inj_xO p).
    replace (Z.succ (Z.pos (digits2_pos p)) - 1) with (Z.succ (Z.pos (digits2_pos p) - 1))
      by lia.
    rewrite !Z.pow_succ_r by lia. lia.
  - cbn. lia.
Qed.

Lemma digits2_pos_unique (p : positive) (d : Z) :
  2 ^ (d - 1) <= Z.pos p < 2 ^ d -> Z.pos (digits2_pos p) = d.
Proof.
  intros [H1 H2]. pose proof (digits2_pos_bounds p) as [H3 H4].
  set (k := Z.pos (digits2_pos p)) in *.
  assert (0 < k) by (subst k; lia).
  assert (0 < d).
  { destruct (Z_lt_le_dec 0 d); [assumption|].
    rewrite (Z.pow_neg_r 2 (d - 1)) in H1 by lia.
    assert (2 ^ d <= 2 ^ 0) by (apply Z.pow_le_mono_r; lia).
    change (2 ^ 0) with 1 in *. lia. }
  destruct (Z_lt_le_dec k d) as [Hlt | Hge].
  - assert (2 ^ k <= 2 ^ (d - 1)) by (apply Z.pow_le_mono_r; lia). lia.
  - destruct (Z_lt_le_dec d k) as [Hlt | Hge']; [|lia].
    assert (2 ^ d <= 2 ^ (k - 1)) by (apply Z.pow_le_mono_r; lia). lia.
Qed.

Lemma iter_xO_spec (p k : positive) :
  Z.pos (Pos.iter xO p k) = Z.pos p * 2 ^ Z.pos k /\
  digits2_pos (Pos.iter xO p k) = (digits2_pos p + k)%positive.
Proof.
  induction k as [|k IH] using Pos.peano_ind.
  - cbn. split; lia.
  - rewrite Pos.iter_succ. destruct IH as [IH1 IH2]. split.
    + rewrite (Pos2Z.inj_xO (Pos.iter xO p k)), IH1, Pos2Z.inj_succ, Z.pow_succ_r by lia.
      lia.
    + cbn [digits2_pos]. rewrite IH2. lia.
Qed.
End Digits.

Section Rounding.
Variables prec emax : Z.

Lemma fexp_normal (e : Z) :
  3 - emax - prec <= e - prec -> fexp prec emax e = e - prec.
Proof. unfold fexp, emin. lia. Qed.

(** A mantissa of full width comes out of the rounding as it is. *)
Lemma binary_round_aux_canonical (s : bool) (m : positive) (e : Z) :
  Z.pos (digits2_pos m) = prec ->
  3 - emax - prec <= e <= emax - prec ->
  binary_round_aux prec emax s (Z.pos m) e loc_Exact = S754_finite s m e.
Proof.
  intros Hd He. unfold binary_round_aux, shr_fexp. cbn [Zdigits2].
  rewrite Hd, fexp_normal by lia.
  replace (prec + e - prec - e) with 0 by lia. cbn.
  rewrite Hd, fexp_normal by lia.
  replace (prec + e - prec - e) with 0 by lia. cbn.
  replace (e <=? emax - prec) with true by lia. reflexivity.
Qed.

(** An integer of at most [prec] bits converts exactly: the mantissa is
    shifted to full width. *)
Lemma binary_round_exact (s : bool) (p : positive) (e : Z) :
  let d := Z.pos (digits2_pos p) in
  d <= prec ->
  3 - emax - prec <= d + e - prec <= emax - prec ->
  exists m, binary_round prec emax s p e = S754_finite s m (d + e - prec) /\
            Z.pos (digits2_pos m) = prec /\
            Z.pos m = Z.pos p * 2 ^ (prec - d).
Proof.
  intros d Hd He. unfold binary_round. fold d. rewrite fexp_normal by lia.
  unfold shl_align.
  destruct (d + e - prec - e) as [|k|k] eqn:Hk; try lia.
  - exists p. rewrite binary_round_aux_canonical by (fold d; lia).
    replace (d + e - prec) with e by lia. replace (prec - d) with 0 by lia.
    repeat split; [fold d; lia | lia].
  - destruct (iter_xO_spec p k) as [Hv Hdig].
    exists (Pos.iter xO p k).
    rewrite binary_round_aux_canonical by (rewrite ?Hdig; fold d; lia).
    replace (prec - d) with (Z.pos k) by lia.
    repeat split; [rewrite Hdig; fold d; lia | exact Hv].
Qed.
End Rounding.

Lemma F32_of_Z_canonical (n : Z) :
  0 < n < 2 ^ 24 ->
  exists m, F32.of_Z n = S754_finite false m (Z.log2 n + 1 - 24) /\
            Z.pos (digits2_pos m) = 24 /\
            Z.pos m = n * 2 ^ (24 - (Z.log2 n + 1)).
Proof.
  intros Hn. destruct n as [|p|p]; try lia.
  assert (Hd : Z.pos (digits2_pos p) = Z.log2 (Z.pos p) + 1).
  { apply digits2_pos_unique. replace (Z.log2 (Z.pos p) + 1 - 1) with (Z.log2 (Z.pos p)) by lia.
    pose proof (Z.log2_spec (Z.pos p) ltac:(lia)). rewrite <- Z.add_1_r in *. lia. }
  assert (Z.log2 (Z.pos p) < 24) by (apply Z.log2_lt_pow2; lia).
  pose proof (Z.log2_nonneg (Z.pos p)).
  unfold F32.of_Z, binary_normalize.
  destruct (binary_round_exact F32.prec F32.emax false p 0) as (m & Hm & Hdig & Hv).
  - cbv zeta. unfold F32.prec. lia.
  - cbv zeta. unfold F32.prec, F32.emax. lia.
  - exists m. cbv zeta in Hm. rewrite Hm. rewrite Hd in *. unfold F32.prec in *.
    repeat split; [f_equal; lia | exact Hdig | exact Hv].
Qed.

Section ExactRounding.
Variables prec emax : Z.

(** Shifting out [n] zero bits loses nothing. *)
Lemma iter_pos_shr_1_zeros (n q : positive) :
  SpecFloat.iter_pos shr_1 n {| shr_m := Z.pos (Pos.iter xO q n); shr_r := false; shr_s := false |} =
    {| shr_m := Z.pos q; shr_r := false; shr_s := false |}.
Proof.
  revert q. induction n as [n IH | n IH |]; intros q; cbn [SpecFloat.iter_pos Pos.iter].
  - cbn [shr_1 orb]. rewrite !IH. reflexivity.
  - rewrite !IH. reflexivity.
  - reflexivity.
Qed.

Lemma shl_align_value (m : positive) (e e' : Z) :
  e' <= e -> Z.pos (fst (shl_align m e e')) = Z.pos m * 2 ^ (e - e').
Proof.
  intros H. unfold shl_align. destruct (e' - e) as [|k|k] eqn:Hk; try lia; cbn [fst].
  - replace (e - e') with 0 by lia. lia.
  - destruct (iter_xO_spec m k) as [-> _]. f_equal. f_equal. lia.
Qed.

(** Trailing zero bits of a mantissa can be moved into the exponent: a
    number of at most [prec] bits, given with [k] more zero bits at the
    exponent [e], rounds as the number itself does at [e + k]. *)
Lemma binary_round_shifted (sgn : bool) (s p : positive) (k e : Z) :
  0 <= k -> Z.pos s = Z.pos p * 2 ^ k ->
  Z.pos (digits2_pos p) <= prec ->
  3 - emax - prec <= Z.pos (digits2_pos p) + (e + k) - prec <= emax - prec ->
  binary_round prec emax sgn s e = binary_round prec emax sgn p (e + k).
Proof.
  intros Hk Hs Hd He. set (d := Z.pos (digits2_pos p)) in *.
  destruct (binary_round_exact prec emax sgn p (e + k)) as (q & -> & Hdq & Hq);
    [fold d; lia | fold d; lia |]. fold d in Hq |- *.
  assert (Hds : Z.pos (digits2_pos s) = d + k).
  { apply digits2_pos_unique. rewrite Hs.
    pose proof (digits2_pos_bounds p) as Hb. fold d in Hb.
    assert (0 < 2 ^ k) by (apply Z.pow_pos_nonneg; lia).
    replace (d + k - 1) with (d - 1 + k) by lia.
    rewrite !Z.pow_add_r by lia. nia. }
  unfold binary_round. rewrite Hds, fexp_normal by lia.
  unfold shl_align.
  destruct (d + k + e - prec - e) as [|j|j] eqn:Hj.
  - (* the mantissa already has full width *)
    rewrite binary_round_aux_canonical by lia.
    f_equal; [|lia]. apply Pos2Z.inj. rewrite Hs, Hq. f_equal. f_equal. lia.
  - (* [j] zero bits are shifted out *)
    assert (Hsq : s = Pos.iter xO q j).
    { apply Pos2Z.inj. destruct (iter_xO_spec q j) as [-> _].
      rewrite Hs, Hq, <- Z.mul_assoc, <- Z.pow_add_r by lia. f_equal. f_equal. lia. }
    unfold binary_round_aux, shr_fexp. cbn [Zdigits2].
    rewrite Hds, fexp_normal by lia.
    replace (d + k + e - prec - e) with (Z.pos j) by lia.
    cbn [shr_record_of_loc shr]. rewrite Hsq, iter_pos_shr_1_zeros.
    cbn [shr_m loc_of_shr_record round_nearest_even Zdigits2].
    rewrite Hdq, fexp_normal by lia.
    replace (prec + (e + Z.pos j) - prec - (e + Z.pos j)) with 0 by lia.
    cbn [shr shr_record_of_loc shr_m].
    replace (e + Z.pos j <=? emax - prec) with true by lia.
    f_equal. lia.
  - (* the mantissa is shifted left to full width *)
    destruct (iter_xO_spec s j) as [Hv Hdig].
    rewrite binary_round_aux_canonical by (rewrite ?Hdig; lia).
    f_equal; [|lia]. apply Pos2Z.inj. rewrite Hv, Hs, Hq, <- Z.mul_assoc, <- Z.pow_add_r by lia.
    f_equal. f_equal. lia.
Qed.

(** In particular for an integer given at the exponent [-k]. *)
Lemma binary_round_scaled (sgn : bool) (s p : positive) (k : Z) :
  0 <= k -> Z.pos s = Z.pos p * 2 ^ k ->
  Z.pos (digits2_pos p) <= prec ->
  3 - emax - prec <= Z.pos (digits2_pos p) - prec <= emax - prec ->
  binary_round prec emax sgn s (- k) = binary_round prec emax sgn p 0.
Proof.
  intros Hk Hs Hd He.
  rewrite (binary_round_shifted sgn s p k (- k)) by (try assumption; lia).
  f_equal. lia.
Qed.
End ExactRounding.

Section Binary32Exact.
Lemma digits2_pos_log2 (p : positive) : Z.pos (digits2_pos p) = Z.log2 (Z.pos p) + 1.
Proof.
  apply digits2_pos_unique.
  replace (Z.log2 (Z.pos p) + 1 - 1) with (Z.log2 (Z.pos p)) by lia.
  pose proof (Z.log2_spec (Z.pos p) ltac:(lia)). rewrite <- Z.add_1_r in *. lia.
Qed.

Lemma digits2_pos_le (p : positive) (b : Z) :
  0 <= b -> Z.pos p < 2 ^ b -> Z.pos (digits2_pos p) <= b.
Proof.
  intros Hb H. rewrite digits2_pos_log2.
  assert (Z.log2 (Z.pos p) < b) by (apply Z.log2_lt_pow2; lia). lia.
Qed.

(** Integers below [2^24] convert exactly. *)
Lemma F32_of_Z_pos (p : positive) :
  Z.pos p < 2 ^ 24 ->
  exists m, F32.of_Z (Z.pos p) = S754_finite false m (Z.pos (digits2_pos p) - 24) /\
            Z.pos (digits2_pos m) = 24 /\
            Z.pos m = Z.pos p * 2 ^ (24 - Z.pos (digits2_pos p)).
Proof.
  intros Hp. pose proof (digits2_pos_le p 24 ltac:(lia) Hp) as Hd.
  unfold F32.of_Z, binary_normalize.
  destruct (binary_round_exact F32.prec F32.emax false p 0) as (m & -> & Hdm & Hm);
    unfold F32.prec, F32.emax in *; try lia.
  exists m. split; [f_equal; lia|]. split; assumption.
Qed.

Lemma F32_normalize_scaled (z k : Z) :
  0 <= k -> 0 <= z < 2 ^ 24 ->
  binary_normalize 24 128 (z * 2 ^ k) (- k) false = F32.of_Z z.
Proof.
  intros Hk Hz. assert (HT : 0 < 2 ^ k) by (apply Z.pow_pos_nonneg; lia).
  destruct z as [|p|p]; try lia; [reflexivity|].
  destruct (Z.pos p * 2 ^ k) as [|s|s] eqn:Hs; try lia.
  unfold F32.of_Z, F32.prec, F32.emax, binary_normalize.
  pose proof (digits2_pos_le p 24 ltac:(lia) ltac:(lia)).
  apply binary_round_scaled; lia.
Qed.

Lemma F32_add_exact (x y : Z) :
  0 <= x -> 0 <= y -> x + y < 2 ^ 24 ->
  F32.add (F32.of_Z x) (F32.of_Z y) = F32.of_Z (x + y).
Proof.
  intros Hx Hy Hxy.
  destruct x as [|px|px]; try lia; [destruct y as [|py|py]; try lia; [reflexivity|] |].
  - destruct (F32_of_Z_pos py ltac:(lia)) as (my & Ey & _).
    change (0 + Z.pos py) with (Z.pos py). rewrite Ey. reflexivity.
  - destruct y as [|py|py]; try lia.
    + destruct (F32_of_Z_pos px ltac:(lia)) as (mx & Ex & _). rewrite Z.add_0_r, Ex.
      reflexivity.
    + destruct (F32_of_Z_pos px ltac:(lia)) as (mx & Ex & Hdx & Hmx).
      destruct (F32_of_Z_pos py ltac:(lia)) as (my & Ey & Hdy & Hmy).
      pose proof (digits2_pos_le px 24 ltac:(lia) ltac:(lia)).
      pose proof (digits2_pos_le py 24 ltac:(lia) ltac:(lia)).
      rewrite Ex, Ey. unfold F32.add, F32.prec, F32.emax, SFadd, cond_Zopp.
      set (ex := Z.pos (digits2_pos px) - 24) in *.
      set (ey := Z.pos (digits2_pos py) - 24) in *.
      rewrite !shl_align_value by (unfold ex, ey; lia). rewrite Hmx, Hmy.
      set (ez := Z.min ex ey).
      rewrite <- !Z.mul_assoc, <- !Z.pow_add_r by (unfold ez, ex, ey; lia).
      replace (24 - Z.pos (digits2_pos px) + (ex - ez)) with (- ez) by (unfold ex; lia).
      replace (24 - Z.pos (digits2_pos py) + (ey - ez)) with (- ez) by (unfold ey; lia).
      rewrite <- Z.mul_add_distr_r.
      replace ez with (- - ez) at 2 by lia.
      apply F32_normalize_scaled; unfold ez, ex, ey; lia.
Qed.

Lemma F32_sub_exact (x y : Z) :
  0 <= y <= x -> x < 2 ^ 24 ->
  F32.sub (F32.of_Z x) (F32.of_Z y) = F32.of_Z (x - y).
Proof.
  intros Hy Hx.
  destruct y as [|py|py]; try lia.
  - rewrite Z.sub_0_r. destruct x as [|px|px]; try lia; [reflexivity|].
    destruct (F32_of_Z_pos px ltac:(lia)) as (mx & Ex & _). rewrite Ex. reflexivity.
  - destruct x as [|px|px]; try lia.
    destruct (F32_of_Z_pos px ltac:(lia)) as (mx & Ex & Hdx & Hmx).
    destruct (F32_of_Z_pos py ltac:(lia)) as (my & Ey & Hdy & Hmy).
    pose proof (digits2_pos_le px 24 ltac:(lia) ltac:(lia)).
    pose proof (digits2_pos_le py 24 ltac:(lia) ltac:(lia)).
    rewrite Ex, Ey. unfold F32.sub, F32.prec, F32.emax, SFsub, cond_Zopp.
    set (ex := Z.pos (digits2_pos px) - 24) in *.
    set (ey := Z.pos (digits2_pos py) - 24) in *.
    rewrite !shl_align_value by (unfold ex, ey; lia). rewrite Hmx, Hmy.
    set (ez := Z.min ex ey).
    rewrite <- !Z.mul_assoc, <- !Z.pow_add_r by (unfold ez, ex, ey; lia).
    replace (24 - Z.pos (digits2_pos px) + (ex - ez)) with (- ez) by (unfold ex; lia).
    replace (24 - Z.pos (digits2_pos py) + (ey - ez)) with (- ez) by (unfold ey; lia).
    rewrite <- Z.mul_sub_distr_r.
    replace ez with (- - ez) at 2 by lia.
    apply F32_normalize_scaled; unfold ez, ex, ey; lia.
Qed.
End Binary32Exact.

Section Binary32ExactProduct.
Lemma digits2_pos_lower (p : positive) (b : Z) :
  0 <= b -> 2 ^ b <= Z.pos p -> b < Z.pos (digits2_pos p).
Proof.
  intros Hb H. pose proof (digits2_pos_bounds p) as [_ Hu].
  destruct (Z_lt_le_dec b (Z.pos (digits2_pos p))) as [|Hle]; [assumption|].
  assert (2 ^ Z.pos (digits2_pos p) <= 2 ^ b) by (apply Z.pow_le_mono_r; lia). lia.
Qed.

Lemma F32_mul_exact (x y : Z) :
  0 <= x < 2 ^ 24 -> 0 <= y < 2 ^ 24 -> x * y < 2 ^ 24 ->
  F32.mul (F32.of_Z x) (F32.of_Z y) = F32.of_Z (x * y).
Proof.
  intros Hx Hy Hxy.
  destruct x as [|px|px]; try lia.
  { destruct y as [|py|py]; try lia; [reflexivity|].
    destruct (F32_of_Z_pos py ltac:(lia)) as (my & -> & _). reflexivity. }
  destruct y as [|py|py]; try lia.
  { destruct (F32_of_Z_pos px ltac:(lia)) as (mx & -> & _). reflexivity. }
  destruct (F32_of_Z_pos px ltac:(lia)) as (mx & -> & Hdx & Hmx).
  destruct (F32_of_Z_pos py ltac:(lia)) as (my & -> & Hdy & Hmy).
  pose proof (digits2_pos_bounds px) as Hbx. pose proof (digits2_pos_bounds py) as Hby.
  set (dx := Z.pos (digits2_pos px)) in *. set (dy := Z.pos (digits2_pos py)) in *.
  assert (Hdx1 : 1 <= dx) by (unfold dx; lia). assert (Hdy1 : 1 <= dy) by (unfold dy; lia).
  change (Z.pos px * Z.pos py) with (Z.pos (px * py)) in *.
  (* the product has at least [dx + dy - 1] bits *)
  assert (Hlow : dx + dy - 2 < Z.pos (digits2_pos (px * py))).
  { apply digits2_pos_lower; [lia|]. rewrite Pos2Z.inj_mul.
    replace (dx + dy - 2) with ((dx - 1) + (dy - 1)) by lia.
    rewrite Z.pow_add_r by lia. apply Z.mul_le_mono_nonneg; lia. }
  pose proof (digits2_pos_le (px * py) 24 ltac:(lia) Hxy) as Hup.
  set (k := 48 - dx - dy).
  assert (Hs : Z.pos (mx * my) = Z.pos (px * py) * 2 ^ k).
  { rewrite !Pos2Z.inj_mul, Hmx, Hmy. unfold k.
    replace (48 - dx - dy) with ((24 - dx) + (24 - dy)) by lia.
    rewrite Z.pow_add_r by lia. ring. }
  assert (Hds : Z.pos (digits2_pos (mx * my)) = Z.pos (digits2_pos (px * py)) + k).
  { apply digits2_pos_unique. rewrite Hs.
    pose proof (digits2_pos_bounds (px * py)) as Hb.
    assert (0 < 2 ^ k) by (apply Z.pow_pos_nonneg; unfold k; lia).
    replace (Z.pos (digits2_pos (px * py)) + k - 1)
      with (Z.pos (digits2_pos (px * py)) - 1 + k) by lia.
    rewrite !Z.pow_add_r by (unfold k; lia). nia. }
  unfold F32.mul, F32.of_Z, F32.prec, F32.emax, SFmul, binary_normalize. cbn [xorb].
  rewrite <- (binary_round_scaled 24 128 false (mx * my) (px * py) k);
    [| unfold k; lia | exact Hs | lia | lia].
  unfold binary_round. rewrite Hds, fexp_normal by (unfold k; lia).
  unfold shl_align.
  replace (dx - 24 + (dy - 24)) with (- k) by (unfold k; lia).
  destruct (Z.pos (digits2_pos (px * py)) + k + - k - 24 - - k) as [|j|j] eqn:Hj;
    [reflexivity | reflexivity | unfold k in Hj; lia].
Qed.
End Binary32ExactProduct.

Section Conversion.
Variable oor : spec_float -> Z.

Lemma to_uint32_of_Z (z : Z) : 0 <= z < 2 ^ 24 -> to_uint32 oor (F32.of_Z z) = z.
Proof.
  intros Hz. destruct z as [|p|p]; try lia; [reflexivity|].
  destruct (F32_of_Z_pos p ltac:(lia)) as (m & -> & Hdm & Hm).
  pose proof (digits2_pos_le p 24 ltac:(lia) ltac:(lia)) as Hd.
  unfold to_uint32, SFtruncZ.
  assert (Hv : (if 0 <=? Z.pos (digits2_pos p) - 24
                then Z.pos m * 2 ^ (Z.pos (digits2_pos p) - 24)
                else Z.pos m / 2 ^ (- (Z.pos (digits2_pos p) - 24))) = Z.pos p).
  { destruct (Z.leb_spec 0 (Z.pos (digits2_pos p) - 24)) as [Hge | Hlt].
    - replace (Z.pos (digits2_pos p)) with 24 in * by lia. cbn in Hm |- *. lia.
    - rewrite Hm.
      replace (- (Z.pos (digits2_pos p) - 24)) with (24 - Z.pos (digits2_pos p)) by lia.
      apply Z.div_mul, Z.pow_nonzero; lia. }
  rewrite Hv.
  replace ((0 <=? Z.pos p) && (Z.pos p <? 2 ^ 32)) with true by lia.
  reflexivity.
Qed.
End Conversion.

Section Binary32Rounding.
Lemma shr_fexp_24 (q : positive) (e : Z) (l : location) :
  Z.pos (digits2_pos q) = 24 -> -149 <= e ->
  shr_fexp 24 128 (Z.pos q) e l = (shr_record_of_loc (Z.pos q) l, e).
Proof.
  intros Hd He. unfold shr_fexp. cbn [Zdigits2]. rewrite Hd, fexp_normal by lia.
  replace (24 + e - 24 - e) with 0 by lia. reflexivity.
Qed.

Lemma shr_fexp_25 (q : positive) (e : Z) (l : location) :
  Z.pos (digits2_pos q) = 25 -> -149 <= e ->
  shr_fexp 24 128 (Z.pos q) e l = (shr_1 (shr_record_of_loc (Z.pos q) l), e + 1).
Proof.
  intros Hd He. unfold shr_fexp. cbn [Zdigits2]. rewrite Hd, fexp_normal by lia.
  replace (25 + e - 24 - e) with 1 by lia. reflexivity.
Qed.

Lemma loc_of_shr_record_of_loc (m : Z) (l : location) :
  loc_of_shr_record (shr_record_of_loc m l) = l /\
  shr_m (shr_record_of_loc m l) = m.
Proof. destruct l as [|[]]; split; reflexivity. Qed.

(** The second normalisation step and the final test of
    [binary_round_aux], on a rounded mantissa of 24 bits or on [2^24]. *)
Lemma round_finish (s : bool) (m1 : positive) (e : Z) :
  2 ^ 23 <= Z.pos m1 <= 2 ^ 24 -> -149 <= e <= 103 ->
  (let '(mrs, e') := shr_fexp 24 128 (Z.pos m1) e loc_Exact in
   match shr_m mrs with
   | Z0 => S754_zero s
   | Z.pos m => if e' <=? 128 - 24 then S754_finite s m e' else S754_infinity s
   | _ => S754_nan
   end) =
  if Z.pos m1 <? 2 ^ 24 then S754_finite s m1 e
  else S754_finite s (2 ^ 23) (e + 1).
Proof.
  intros Hm He. destruct (Z.ltb_spec (Z.pos m1) (2 ^ 24)) as [Hlt | Hge].
  - rewrite shr_fexp_24; [| apply digits2_pos_unique; lia | lia].
    cbn. replace (e <=? 128 - 24) with true by lia. reflexivity.
  - assert (m1 = (2 ^ 24)%positive) as -> by lia.
    rewrite shr_fexp_25; [| reflexivity | lia].
    cbn. replace (e + 1 <=? 128 - 24) with true by lia. reflexivity.
Qed.

Lemma round_nearest_even_cases (m : Z) (l : location) :
  round_nearest_even m l = m \/
  (round_nearest_even m l = m + 1 /\ l <> loc_Exact).
Proof.
  destruct l as [|[]]; cbn; auto; try (right; split; [reflexivity | discriminate]).
  destruct (Z.even m); [left | right; split]; auto.
Qed.

Lemma new_location_exact (nb k : Z) : new_location nb k <> loc_Exact -> k <> 0.
Proof.
  unfold new_location, new_location_even, new_location_odd.
  intros H ->. destruct (Z.even nb); cbn in H; congruence.
Qed.
End Binary32Rounding.

Section Binary32Division.
(** Rounding a quotient: [A = my * Q + R] with [Q] of 24 or 25 bits, and
    the location computed from the remainder.  The result has a 24-bit
    mantissa [m] at exponent [e + k] with [m * 2^k] within one unit of
    [A / my]; [A] is at most [(2^24 - 1) * 2^24], the largest numerator
    of a quotient of two 24-bit mantissas. *)
Lemma binary_round_aux_quotient (A my Q R e : Z) :
  2 ^ 23 <= my -> A = my * Q + R -> 0 <= R < my -> 2 ^ 23 <= Q < 2 ^ 25 ->
  A <= (2 ^ 24 - 1) * 2 ^ 24 ->
  -149 <= e <= 102 ->
  exists (m : positive) (k : Z),
    binary_round_aux 24 128 false Q e (new_location my R) = S754_finite false m (e + k) /\
    Z.pos (digits2_pos m) = 24 /\ 0 <= k <= 1 /\
    (Z.pos m - 1) * my * 2 ^ k < A < (Z.pos m + 1) * my * 2 ^ k.
Proof.
  intros Hmy HA HR HQ HAmax He.
  destruct Q as [|q|q]; try lia.
  pose proof (new_location_exact my R) as Hloc.
  set (l := new_location my R) in *. clearbody l.
  unfold binary_round_aux.
  destruct (Z_lt_le_dec (Z.pos q) (2 ^ 24)) as [Hlt | Hge].
  - (* 24 bits: no shift before rounding *)
    rewrite shr_fexp_24; [| apply digits2_pos_unique; lia | lia].
    destruct (loc_of_shr_record_of_loc (Z.pos q) l) as [-> ->].
    destruct (round_nearest_even_cases (Z.pos q) l) as [Hr | [Hr Hl]]; rewrite Hr.
    + rewrite round_finish by lia. replace (Z.pos q <? 2 ^ 24) with true by lia.
      exists q, 0. rewrite Z.add_0_r. repeat split; try lia.
      apply digits2_pos_unique; lia.
    + specialize (Hloc Hl).
      change (Z.pos q + 1) with (Z.pos (q + 1)).
      rewrite round_finish by lia.
      destruct (Z.ltb_spec (Z.pos (q + 1)) (2 ^ 24)).
      * exists (q + 1)%positive, 0. rewrite Z.add_0_r. repeat split; try lia.
        apply digits2_pos_unique; lia.
      * exists (2 ^ 23)%positive, 1.
        assert (Hq' : Z.pos q = 2 ^ 24 - 1) by lia. rewrite Hq' in HA.
        repeat split; try lia.
  - (* 25 bits: one bit is shifted out before rounding *)
    rewrite shr_fexp_25; [| apply digits2_pos_unique; lia | lia].
    assert (Hshr : exists (p : positive) (b : bool) (l' : location),
               Z.pos q = 2 * Z.pos p + (if b then 1 else 0) /\
               shr_m (shr_1 (shr_record_of_loc (Z.pos q) l)) = Z.pos p /\
               loc_of_shr_record (shr_1 (shr_record_of_loc (Z.pos q) l)) = l' /\
               (l' <> loc_Exact -> b = true \/ l <> loc_Exact)).
    { destruct q as [p | p |]; [exists p, true | exists p, false | lia];
        destruct l as [|[]]; eexists; repeat split; cbn; auto;
        try (intros _; right; discriminate); try (intros H; congruence). }
    destruct Hshr as (p & b & l' & Hq & -> & -> & Hl').
    destruct (round_nearest_even_cases (Z.pos p) l') as [Hr | [Hr Hl]]; rewrite Hr.
    + rewrite round_finish by (destruct b; lia).
      replace (Z.pos p <? 2 ^ 24) with true by (destruct b; lia).
      exists p, 1. repeat split; try (destruct b; lia).
      apply digits2_pos_unique; destruct b; lia.
    + assert (Hpos : 0 < (if b then 1 else 0) + R).
      { destruct (Hl' Hl) as [-> | Hne]; [lia|]. specialize (Hloc Hne). destruct b; lia. }
      change (Z.pos p + 1) with (Z.pos (p + 1)).
      rewrite round_finish by (destruct b; lia).
      destruct (Z.ltb_spec (Z.pos (p + 1)) (2 ^ 24)).
      * exists (p + 1)%positive, 1. repeat split; try (destruct b; lia).
        apply digits2_pos_unique; destruct b; lia.
      * (* no carry here: the quotient would exceed the largest one *)
        exfalso.
        assert (Hp' : Z.pos p = 2 ^ 24 - 1) by (destruct b; lia).
        rewrite Hq, Hp' in HA. destruct b; nia.
Qed.
End Binary32Division.

Section Binary32Quotient.
(** Division of two positive canonical binary32 numbers. *)
Lemma SFdiv_canonical (mx my : positive) (ex ey : Z) :
  Z.pos (digits2_pos mx) = 24 -> Z.pos (digits2_pos my) = 24 ->
  -125 <= ex - ey <= 126 ->
  exists (m : positive) (k : Z),
    SFdiv 24 128 (S754_finite false mx ex) (S754_finite false my ey) =
      S754_finite false m (ex - ey - 24 + k) /\
    Z.pos (digits2_pos m) = 24 /\ 0 <= k <= 1 /\
    (Z.pos m - 1) * Z.pos my * 2 ^ k < Z.pos mx * 2 ^ 24 < (Z.pos m + 1) * Z.pos my * 2 ^ k.
Proof.
  intros Hdx Hdy He.
  pose proof (digits2_pos_bounds mx) as Hbx. rewrite Hdx in Hbx.
  pose proof (digits2_pos_bounds my) as Hby. rewrite Hdy in Hby.
  unfold SFdiv, SFdiv_core_binary. cbn [Zdigits2 xorb]. rewrite Hdx, Hdy.
  rewrite fexp_normal by lia.
  replace (Z.min (24 + ex - (24 + ey) - 24) (ex - ey)) with (ex - ey - 24) by lia.
  replace (ex - ey - (ex - ey - 24)) with 24 by lia.
  rewrite Z.shiftl_mul_pow2 by lia.
  pose proof (Z_div_mod (Z.pos mx * 2 ^ 24) (Z.pos my) ltac:(lia)) as Hdiv.
  destruct (Z.div_eucl (Z.pos mx * 2 ^ 24) (Z.pos my)) as [Q R].
  destruct Hdiv as [HA HR].
  apply binary_round_aux_quotient; try lia.
  change (2 ^ 24 - 1) with 16777215 in *. change (2 ^ 24) with 16777216 in *.
  change (2 ^ (24 - 1)) with 8388608 in *.
  change (2 ^ 23) with 8388608. change (2 ^ 25) with 33554432.
  split; nia.
Qed.

(** The single-precision quotient of two integers below [2^24]: a
    24-bit mantissa [m] at an exponent [e <= 0], within one unit in the
    last place of the exact quotient. *)
Lemma F32_div_of_Z (n d : Z) :
  0 < n < 2 ^ 24 -> 0 < d < 2 ^ 24 ->
  exists (m : positive) (e : Z),
    F32.div (F32.of_Z n) (F32.of_Z d) = S754_finite false m e /\
    Z.pos (digits2_pos m) = 24 /\ -47 <= e <= 0 /\
    (Z.pos m - 1) * d < n * 2 ^ (- e) < (Z.pos m + 1) * d.
Proof.
  intros Hn Hd.
  destruct (F32_of_Z_canonical n Hn) as (mx & -> & Hdx & Hvx).
  destruct (F32_of_Z_canonical d Hd) as (my & -> & Hdy & Hvy).
  assert (0 <= Z.log2 n < 24) by (split; [apply Z.log2_nonneg | apply Z.log2_lt_pow2; lia]).
  assert (0 <= Z.log2 d < 24) by (split; [apply Z.log2_nonneg | apply Z.log2_lt_pow2; lia]).
  set (dn := Z.log2 n + 1) in *. set (dd := Z.log2 d + 1) in *.
  destruct (SFdiv_canonical mx my (dn - 24) (dd - 24) Hdx Hdy ltac:(lia))
    as (m & k & Hq & Hdm & Hk & Hbr).
  exists m, (dn - 24 - (dd - 24) - 24 + k). unfold F32.div, F32.prec, F32.emax. rewrite Hq.
  split; [reflexivity|]. split; [exact Hdm|].
  pose proof (digits2_pos_bounds m) as Hbm. rewrite Hdm in Hbm.
  rewrite Hvx, Hvy in Hbr.
  (* the exponent is at most 0: otherwise the mantissa would exceed the quotient *)
  set (a := 24 - dn) in *. set (c := 24 - dd) in *.
  assert (Ha : 0 <= a <= 23) by lia. assert (Hc : 0 <= c <= 23) by lia.
  assert (He : dn - 24 - (dd - 24) - 24 + k = c - a - 24 + k) by lia.
  rewrite He. clear He.
  assert (Hpa : 0 < 2 ^ a) by (apply Z.pow_pos_nonneg; lia).
  assert (Hpc : 0 < 2 ^ c) by (apply Z.pow_pos_nonneg; lia).
  assert (Hpk : 0 < 2 ^ k) by (apply Z.pow_pos_nonneg; lia).
  split; [lia|].
  assert (Hpow : 2 ^ a * 2 ^ 24 = 2 ^ (- (c - a - 24 + k)) * (2 ^ c * 2 ^ k)).
  { rewrite <- !Z.pow_add_r by lia. f_equal. lia. }
  set (t := 2 ^ (- (c - a - 24 + k))) in *.
  assert (Hck : 0 < 2 ^ c * 2 ^ k) by lia.
  set (u := 2 ^ c * 2 ^ k) in *.
  assert (E1 : (Z.pos m - 1) * (d * 2 ^ c) * 2 ^ k = ((Z.pos m - 1) * d) * u)
    by (subst u; ring).
  assert (E2 : (Z.pos m + 1) * (d * 2 ^ c) * 2 ^ k = ((Z.pos m + 1) * d) * u)
    by (subst u; ring).
  assert (E3 : n * 2 ^ a * 2 ^ 24 = (n * t) * u)
    by (rewrite <- Z.mul_assoc, Hpow; ring).
  rewrite E1, E2, E3 in Hbr. destruct Hbr as [Hlo Hhi].
  apply Z.mul_lt_mono_pos_r in Hlo; [|exact Hck].
  apply Z.mul_lt_mono_pos_r in Hhi; [|exact Hck].
  split; assumption.
Qed.
End Binary32Quotient.

Section Scaling.
(** Multiplying a binary32 number by 128 adds 7 to its exponent. *)
Lemma F32_mul_128 (m : positive) (e : Z) :
  Z.pos (digits2_pos m) = 24 -> -149 <= e <= 90 ->
  F32.mul (F32.of_Z 128) (S754_finite false m e) = S754_finite false m (e + 7).
Proof.
  intros Hd He.
  change (F32.of_Z 128) with (S754_finite false (2 ^ 23) (-16)).
  unfold F32.mul, SFmul, F32.prec, F32.emax. cbn [xorb].
  let t := eval vm_compute in (2 ^ 23 * m)%positive in
    change (2 ^ 23 * m)%positive with t.
  unfold binary_round_aux, shr_fexp.
  match goal with
  | |- context [Zdigits2 (Z.pos ?p)] =>
      assert (Hdig : Zdigits2 (Z.pos p) = 47)
        by (cbn; injection Hd as ->; reflexivity)
  end.
  rewrite Hdig, fexp_normal by lia.
  replace (47 + (-16 + e) - 24 - (-16 + e)) with 23 by lia.
  cbn -[Z.add Z.sub Z.leb fexp].
  rewrite Hd, fexp_normal by lia.
  replace (24 + (-16 + e + 23) - 24 - (-16 + e + 23)) with 0 by lia.
  cbn -[Z.add Z.sub Z.leb].
  replace (-16 + e + 23 <=? 128 - 24) with true by lia.
  f_equal. lia.
Qed.
End Scaling.

Section FloorOfRatio.
(** For a proper fraction [n / d] the value the source takes for
    [floor(128 * n / d)] is a float holding the exact floor or the
    integer above it. *)
Lemma floor_128_ratio_proper (n d : Z) :
  0 < n < d -> d < 2 ^ 24 ->
  floor_128_ratio n d = F32.of_Z (code_floor n d) /\
  128 * n / d <= code_floor n d <= 128 * n / d + 1.
Proof.
  intros Hn Hd.
  destruct (F32_div_of_Z n d ltac:(lia) ltac:(lia)) as (m & e & Hq & Hdm & He & Hbr).
  pose proof (digits2_pos_bounds m) as Hbm. rewrite Hdm in Hbm.
  change (2 ^ (24 - 1)) with (2 ^ 23) in Hbm.
  (* the quotient is below one, so its exponent is at most -23 *)
  assert (Hpe : 0 < 2 ^ (- e)) by (apply Z.pow_pos_nonneg; lia).
  assert (Hm1 : Z.pos m - 1 < 2 ^ (- e)).
  { apply (Zmult_lt_reg_r _ _ d); [lia|].
    apply Z.lt_trans with (n * 2 ^ (- e)); [lia|].
    rewrite (Z.mul_comm (2 ^ (- e)) d). apply Zmult_lt_compat_r; lia. }
  assert (He' : e <= -23).
  { destruct (Z_le_gt_dec e (-23)); [assumption|].
    assert (2 ^ (- e) <= 2 ^ 22) by (apply Z.pow_le_mono_r; lia). lia. }
  unfold floor_128_ratio, code_floor. rewrite Hq, F32_mul_128 by lia.
  set (t := - (e + 7)). assert (Ht : 16 <= t) by (subst t; lia).
  split; [reflexivity|].
  unfold SFfloorZ. replace (0 <=? e + 7) with false by lia. fold t.
  { assert (HT : 0 < 2 ^ t) by (apply Z.pow_pos_nonneg; lia).
    assert (Hsplit : 2 ^ (- e) = 128 * 2 ^ t).
    { change 128 with (2 ^ 7). rewrite <- Z.pow_add_r by lia. f_equal. lia. }
    rewrite Hsplit in Hbr. destruct Hbr as [Hlo Hhi].
    pose proof (Z_div_mod_eq_full (Z.pos m) (2 ^ t)) as Hm.
    pose proof (Z.mod_pos_bound (Z.pos m) (2 ^ t) HT) as Hr.
    set (F := Z.pos m / 2 ^ t) in *. set (T := 2 ^ t) in *.
    split.
    + (* exact floor <= F *)
      apply Z.lt_succ_r. apply Z.div_lt_upper_bound; [lia|].
      apply (Zmult_lt_reg_r _ _ T); [exact HT|].
      apply Z.lt_le_trans with ((Z.pos m + 1) * d); [lia|].
      replace (d * Z.succ F * T) with ((T * F + T) * d) by lia.
      apply Z.mul_le_mono_nonneg_r; lia.
    + (* F <= exact floor + 1 *)
      assert (F - 1 <= 128 * n / d); [|lia].
      apply Z.div_le_lower_bound; [lia|].
      apply Z.lt_le_incl. apply (Zmult_lt_reg_r _ _ T); [exact HT|].
      apply Z.le_lt_trans with ((Z.pos m - 1) * d); [|lia].
      replace (d * (F - 1) * T) with ((T * F - T) * d) by lia.
      apply Z.mul_le_mono_nonneg_r; lia. }
Qed.
End FloorOfRatio.

Section ShiftedOut.
(** What [n] right shifts leave of the integer [M]: the quotient by
    [2^n], and in the round and sticky bits the place of the remainder
    with respect to the half. *)
Lemma shr_1_keeps (M n : Z) (mrs : shr_record) :
  0 <= n -> 0 <= M ->
  shr_m mrs = M / 2 ^ n ->
  (match shr_r mrs, shr_s mrs with
   | false, false => M mod 2 ^ n = 0
   | false, true => 0 < 2 * (M mod 2 ^ n) < 2 ^ n
   | true, false => 2 * (M mod 2 ^ n) = 2 ^ n
   | true, true => 2 ^ n < 2 * (M mod 2 ^ n)
   end) ->
  shr_m (shr_1 mrs) = M / 2 ^ (n + 1) /\
  (match shr_r (shr_1 mrs), shr_s (shr_1 mrs) with
   | false, false => M mod 2 ^ (n + 1) = 0
   | false, true => 0 < 2 * (M mod 2 ^ (n + 1)) < 2 ^ (n + 1)
   | true, false => 2 * (M mod 2 ^ (n + 1)) = 2 ^ (n + 1)
   | true, true => 2 ^ (n + 1) < 2 * (M mod 2 ^ (n + 1))
   end).
Proof.
  intros Hn HM Hm Hrs.
  assert (HT : 0 < 2 ^ n) by (apply Z.pow_pos_nonneg; lia).
  assert (Hpow : 2 ^ (n + 1) = 2 ^ n * 2) by (rewrite Z.pow_add_r by lia; reflexivity).
  assert (Hq : M / 2 ^ (n + 1) = M / 2 ^ n / 2)
    by (rewrite Hpow, Z.div_div by lia; reflexivity).
  assert (Hr : M mod 2 ^ (n + 1) = M mod 2 ^ n + 2 ^ n * ((M / 2 ^ n) mod 2))
    by (rewrite Hpow; apply Z.rem_mul_r; lia).
  pose proof (Z.mod_pos_bound M (2 ^ n) HT) as HR.
  rewrite Hq, Hr, Hpow. clear Hq Hr Hpow.
  set (R := M mod 2 ^ n) in *. set (T := 2 ^ n) in *.
  destruct mrs as [m r s]. cbn [shr_m shr_r shr_s] in *. rewrite <- Hm.
  assert (Hm0 : 0 <= m) by (rewrite Hm; apply Z.div_pos; lia).
  destruct m as [|[p|p|]|p]; try lia; cbn [shr_1 shr_m shr_r shr_s].
  - (* zero *)
    split; [reflexivity|]. change (0 mod 2) with 0.
    destruct r, s; cbn [orb]; lia.
  - (* odd *)
    split; [rewrite Pos2Z.inj_xI; apply Z.div_unique with 1; lia|].
    replace (Z.pos p~1 mod 2) with 1
      by (rewrite Pos2Z.inj_xI; apply Z.mod_unique with (Z.pos p); lia).
    destruct r, s; cbn [orb]; lia.
  - (* even *)
    split; [rewrite Pos2Z.inj_xO; apply Z.div_unique with 0; lia|].
    replace (Z.pos p~0 mod 2) with 0
      by (rewrite Pos2Z.inj_xO; apply Z.mod_unique with (Z.pos p); lia).
    destruct r, s; cbn [orb]; lia.
  - (* one *)
    split; [reflexivity|]. change (1 mod 2) with 1.
    destruct r, s; cbn [orb]; lia.
Qed.

Lemma iter_shr_1_keeps (M : Z) (p : positive) :
  0 <= M ->
  forall (n : Z) (mrs : shr_record),
    0 <= n ->
    shr_m mrs = M / 2 ^ n ->
    (match shr_r mrs, shr_s mrs with
     | false, false => M mod 2 ^ n = 0
     | false, true => 0 < 2 * (M mod 2 ^ n) < 2 ^ n
     | true, false => 2 * (M mod 2 ^ n) = 2 ^ n
     | true, true => 2 ^ n < 2 * (M mod 2 ^ n)
     end) ->
    let mrs' := SpecFloat.iter_pos shr_1 p mrs in
    shr_m mrs' = M / 2 ^ (n + Z.pos p) /\
    (match shr_r mrs', shr_s mrs' with
     | false, false => M mod 2 ^ (n + Z.pos p) = 0
     | false, true => 0 < 2 * (M mod 2 ^ (n + Z.pos p)) < 2 ^ (n + Z.pos p)
     | true, false => 2 * (M mod 2 ^ (n + Z.pos p)) = 2 ^ (n + Z.pos p)
     | true, true => 2 ^ (n + Z.pos p) < 2 * (M mod 2 ^ (n + Z.pos p))
     end).
Proof.
  intros HM. induction p as [p IH | p IH |]; intros n mrs Hn Hm Hrs; cbv zeta;
    cbn [SpecFloat.iter_pos].
  - destruct (shr_1_keeps M n mrs Hn HM Hm Hrs) as [H1 H2].
    destruct (IH (n + 1) _ ltac:(lia) H1 H2) as [H3 H4].
    destruct (IH (n + 1 + Z.pos p) _ ltac:(lia) H3 H4) as [H5 H6].
    replace (n + Z.pos p~1) with (n + 1 + Z.pos p + Z.pos p) by lia. split; assumption.
  - destruct (IH n _ Hn Hm Hrs) as [H3 H4].
    destruct (IH (n + Z.pos p) _ ltac:(lia) H3 H4) as [H5 H6].
    replace (n + Z.pos p~0) with (n + Z.pos p + Z.pos p) by lia. split; assumption.
  - apply shr_1_keeps; assumption.
Qed.
End ShiftedOut.

Section Binary32Nearest.
(** Rounding an integer of [24 + n] bits to binary32: the result is a
    24-bit mantissa [m] at the exponent [e + k], [k] being [n] or (when
    the rounding carries into a 25th bit) [n + 1], and [m * 2^k] is
    within half of [2^n] of the integer. *)
Lemma binary_round_aux_nearest (M : positive) (n e : Z) :
  1 <= n -> Z.pos (digits2_pos M) = 24 + n -> -149 <= e -> e + n <= 102 ->
  exists (m : positive) (k : Z),
    binary_round_aux 24 128 false (Z.pos M) e loc_Exact = S754_finite false m (e + k) /\
    Z.pos (digits2_pos m) = 24 /\ n <= k <= n + 1 /\
    - 2 ^ n <= 2 * (Z.pos m * 2 ^ k - Z.pos M) <= 2 ^ n.
Proof.
  intros Hn Hd He1 He2.
  pose proof (digits2_pos_bounds M) as HbM. rewrite Hd in HbM.
  replace (24 + n - 1) with (23 + n) in HbM by lia.
  rewrite !Z.pow_add_r in HbM by lia.
  assert (HT : 0 < 2 ^ n) by (apply Z.pow_pos_nonneg; lia).
  unfold binary_round_aux, shr_fexp at 1. cbn [Zdigits2].
  rewrite Hd, fexp_normal by lia.
  replace (24 + n + e - 24 - e) with n by lia.
  destruct n as [|pn|pn]; try lia. cbn [shr shr_record_of_loc].
  destruct (iter_shr_1_keeps (Z.pos M) pn ltac:(lia) 0
              {| shr_m := Z.pos M; shr_r := false; shr_s := false |} ltac:(lia))
    as [Hq Hloc];
    [cbn [shr_m]; rewrite Z.div_1_r; reflexivity
    | cbn [shr_r shr_s]; change (2 ^ 0) with 1; apply Z.mod_1_r |].
  rewrite Z.add_0_l in Hq, Hloc.
  set (mrs := SpecFloat.iter_pos shr_1 pn _) in *. clearbody mrs.
  pose proof (Z_div_mod_eq_full (Z.pos M) (2 ^ Z.pos pn)) as HM.
  pose proof (Z.mod_pos_bound (Z.pos M) (2 ^ Z.pos pn) HT) as HR.
  set (T := 2 ^ Z.pos pn) in *. set (R := Z.pos M mod T) in *.
  destruct mrs as [q r s]. cbn [shr_m shr_r shr_s] in *. rewrite <- Hq in HM.
  assert (Hqr : 2 ^ 23 <= q < 2 ^ 24) by nia.
  destruct q as [|q|q]; try lia.
  assert (Hround : exists m1 : positive,
             round_nearest_even (Z.pos q)
               (loc_of_shr_record {| shr_m := Z.pos q; shr_r := r; shr_s := s |})
               = Z.pos m1 /\
             2 ^ 23 <= Z.pos m1 <= 2 ^ 24 /\
             - T <= 2 * (Z.pos m1 * T - Z.pos M) <= T).
  { destruct r, s; cbn [loc_of_shr_record round_nearest_even].
    - exists (q + 1)%positive. split; [reflexivity|]. split; [lia|nia].
    - destruct (Z.even (Z.pos q)).
      + exists q. split; [reflexivity|]. split; [lia|nia].
      + exists (q + 1)%positive. split; [reflexivity|]. split; [lia|nia].
    - exists q. split; [reflexivity|]. split; [lia|nia].
    - exists q. split; [reflexivity|]. split; [lia|nia]. }
  destruct Hround as (m1 & -> & Hm1 & Hnear).
  rewrite round_finish by lia.
  destruct (Z.ltb_spec (Z.pos m1) (2 ^ 24)) as [Hlt | Hge].
  - exists m1, (Z.pos pn). split; [reflexivity|].
    split; [apply digits2_pos_unique; lia|]. split; [lia|]. fold T. exact Hnear.
  - exists (2 ^ 23)%positive, (Z.pos pn + 1). split; [f_equal; lia|].
    split; [reflexivity|]. split; [lia|].
    rewrite Z.pow_add_r by lia. fold T.
    assert (Z.pos m1 = 2 ^ 24) as Hm1' by lia. rewrite Hm1' in Hnear.
    change (Z.pos (2 ^ 23)) with (2 ^ 23). change (2 ^ 1) with 2.
    change (2 ^ 24) with (2 ^ 23 * 2) in Hnear. lia.
Qed.
End Binary32Nearest.

Section IntegersInBinary32.
Variable oor : spec_float -> Z.

(** The integer part of a finite float holding an integer. *)
Lemma SFtruncZ_integer (s : bool) (m : positive) (e X : Z) :
  -24 <= e -> Z.pos m * 2 ^ (e + 24) = X * 2 ^ 24 ->
  SFtruncZ (S754_finite s m e) = if s then - X else X.
Proof.
  intros He Hv. unfold SFtruncZ.
  assert (Ha : (if 0 <=? e then Z.pos m * 2 ^ e else Z.pos m / 2 ^ (- e)) = X).
  { destruct (Z.leb_spec 0 e) as [Hge | Hlt].
    - rewrite Z.pow_add_r in Hv by lia. nia.
    - assert (HT : 0 < 2 ^ (- e)) by (apply Z.pow_pos_nonneg; lia).
      assert (Hs : 2 ^ 24 = 2 ^ (e + 24) * 2 ^ (- e))
        by (rewrite <- Z.pow_add_r by lia; f_equal; lia).
      assert (HU : 0 < 2 ^ (e + 24)) by (apply Z.pow_pos_nonneg; lia).
      assert (Hm : Z.pos m = X * 2 ^ (- e)) by (rewrite Hs in Hv; nia).
      rewrite Hm. apply Z.div_mul. lia. }
  rewrite Ha. reflexivity.
Qed.

Lemma SFtruncZ_float_is (x : spec_float) (X : Z) : float_is x X -> SFtruncZ x = X.
Proof.
  destruct x as [s | s | | [|] m e]; cbn [float_is]; try tauto;
    [intros ->; reflexivity |].
  intros [He Hv]. exact (SFtruncZ_integer false m e X ltac:(lia) Hv).
Qed.

Lemma to_uint32_float_is (x : spec_float) (X : Z) :
  float_is x X -> 0 <= X < 2 ^ 32 -> to_uint32 oor x = X.
Proof.
  intros Hx HX. pose proof (SFtruncZ_float_is x X Hx) as Ht.
  destruct x as [s | s | | [|] m e]; cbn [float_is] in Hx; try tauto.
  unfold to_uint32. rewrite Ht.
  replace ((0 <=? X) && (X <? 2 ^ 32)) with true by lia. reflexivity.
Qed.

(** A mantissa and exponent denoting an integer below [2^24] round to
    that integer, whatever trailing zero bits the mantissa is given
    with. *)
Lemma binary_round_integer (sgn : bool) (s : positive) (e X : Z) :
  0 < X < 2 ^ 24 -> -24 <= e <= 100 -> Z.pos s * 2 ^ (e + 24) = X * 2 ^ 24 ->
  exists (m : positive) (e' : Z),
    binary_round 24 128 sgn s e = S754_finite sgn m e' /\
    -24 <= e' <= 100 /\ Z.pos m * 2 ^ (e' + 24) = X * 2 ^ 24.
Proof.
  intros HX He Hv.
  assert (HU : 0 < 2 ^ (e + 24)) by (apply Z.pow_pos_nonneg; lia).
  destruct (Z_lt_le_dec e 0) as [Hneg | Hpos].
  - (* the mantissa is the integer followed by [-e] zero bits *)
    destruct X as [|c|c]; try lia.
    assert (Hs : Z.pos s = Z.pos c * 2 ^ (- e)).
    { assert (HT : 0 < 2 ^ (- e)) by (apply Z.pow_pos_nonneg; lia).
      assert (Hsp : 2 ^ 24 = 2 ^ (e + 24) * 2 ^ (- e))
        by (rewrite <- Z.pow_add_r by lia; f_equal; lia).
      rewrite Hsp in Hv. nia. }
    pose proof (digits2_pos_le c 24 ltac:(lia) ltac:(lia)) as Hd.
    pose proof (digits2_pos_bounds c) as Hb.
    rewrite (binary_round_shifted 24 128 sgn s c (- e) e) by (try assumption; lia).
    replace (e + - e) with 0 by lia.
    destruct (binary_round_exact 24 128 sgn c 0) as (m & -> & Hdm & Hm); [lia | lia |].
    exists m, (Z.pos (digits2_pos c) + 0 - 24). split; [reflexivity|]. split; [lia|].
    rewrite Hm, <- Z.mul_assoc, <- Z.pow_add_r by lia. f_equal. f_equal. lia.
  - (* the mantissa is at most the integer *)
    assert (HE : 0 < 2 ^ e) by (apply Z.pow_pos_nonneg; lia).
    assert (Hs : Z.pos s * 2 ^ e = X) by (rewrite Z.pow_add_r in Hv by lia; nia).
    pose proof (digits2_pos_le s 24 ltac:(lia) ltac:(nia)) as Hd.
    destruct (binary_round_exact 24 128 sgn s e) as (m & -> & Hdm & Hm); [lia | lia |].
    exists m, (Z.pos (digits2_pos s) + e - 24). split; [reflexivity|]. split; [lia|].
    rewrite Hm, <- Z.mul_assoc, <- Z.pow_add_r, <- Hs, <- Z.mul_assoc, <- Z.pow_add_r by lia.
    f_equal. f_equal. lia.
Qed.

(** Integers of at most 24 bits followed by zero bits convert
    exactly. *)
Lemma float_is_of_Z_scaled (n k : Z) :
  0 <= n < 2 ^ 24 -> 0 <= k <= 70 -> float_is (F32.of_Z (n * 2 ^ k)) (n * 2 ^ k).
Proof.
  intros Hn Hk. assert (HT : 0 < 2 ^ k) by (apply Z.pow_pos_nonneg; lia).
  destruct n as [|p|p]; try lia; [reflexivity|].
  destruct (Z.pos p * 2 ^ k) as [|s|s] eqn:Hs; try lia.
  pose proof (digits2_pos_le p 24 ltac:(lia) ltac:(lia)) as Hd.
  pose proof (digits2_pos_bounds p) as Hb.
  unfold F32.of_Z, F32.prec, F32.emax, binary_normalize.
  rewrite (binary_round_shifted 24 128 false s p k 0) by (try assumption; lia).
  destruct (binary_round_exact 24 128 false p (0 + k)) as (m & -> & Hdm & Hm); [lia | lia |].
  cbn [float_is]. split; [lia|].
  rewrite Hm, <- Hs, <- !Z.mul_assoc, <- !Z.pow_add_r by lia. f_equal. f_equal. lia.
Qed.

Lemma float_is_of_Z (n : Z) : 0 <= n < 2 ^ 24 -> float_is (F32.of_Z n) n.
Proof.
  intros Hn. pose proof (float_is_of_Z_scaled n 0 Hn ltac:(lia)) as H.
  change (2 ^ 0) with 1 in H. rewrite Z.mul_1_r in H. exact H.
Qed.

(** The difference of two floats holding integers less than [2^24]
    apart is exact. *)
Lemma F32_sub_integers (x y : spec_float) (A B : Z) :
  float_is x A -> float_is y B -> - 2 ^ 24 < A - B < 2 ^ 24 ->
  SFtruncZ (F32.sub x y) = A - B /\
  (B <= A -> to_uint32 oor (F32.sub x y) = A - B).
Proof.
  intros Hx Hy Hd.
  destruct x as [sx | sx | | [|] mx ex]; cbn [float_is] in Hx; try tauto;
    destruct y as [sy | sy | | [|] my ey]; cbn [float_is] in Hy; try tauto.
  - (* 0 - 0 *)
    subst A B. destruct sx, sy; split; reflexivity.
  - (* 0 - y *)
    subst A. destruct Hy as [He Hv]. cbn [F32.sub SFsub negb].
    assert (HB : 0 < B) by nia.
    split; [rewrite (SFtruncZ_integer true my ey B) by (try assumption; lia); lia | lia].
  - (* x - 0 *)
    subst B. rewrite Z.sub_0_r. cbn [F32.sub SFsub]. destruct Hx as [He Hv].
    assert (HA : 0 < A) by nia.
    split; [exact (SFtruncZ_integer false mx ex A ltac:(lia) Hv)|].
    intros _. apply to_uint32_float_is; [cbn [float_is]; split; assumption | lia].
  - (* x - y *)
    destruct Hx as [Hex Hvx], Hy as [Hey Hvy].
    unfold F32.sub, F32.prec, F32.emax, SFsub, cond_Zopp.
    set (ez := Z.min ex ey).
    rewrite !shl_align_value by (unfold ez; lia).
    set (D := Z.pos mx * 2 ^ (ex - ez) - Z.pos my * 2 ^ (ey - ez)).
    assert (HD : D * 2 ^ (ez + 24) = (A - B) * 2 ^ 24).
    { unfold D. rewrite Z.mul_sub_distr_r, <- !Z.mul_assoc, <- !Z.pow_add_r by (unfold ez; lia).
      replace (ex - ez + (ez + 24)) with (ex + 24) by lia.
      replace (ey - ez + (ez + 24)) with (ey + 24) by lia. lia. }
    assert (HU : 0 < 2 ^ (ez + 24)) by (apply Z.pow_pos_nonneg; unfold ez; lia).
    clearbody D. unfold binary_normalize.
    destruct D as [|d|d].
    + assert (A - B = 0) as -> by nia. split; reflexivity.
    + assert (HAB : 0 < A - B) by nia.
      destruct (binary_round_integer false d ez (A - B)) as (m & e' & -> & He' & Hv);
        [lia | unfold ez; lia | exact HD |].
      split; [exact (SFtruncZ_integer false m e' (A - B) ltac:(lia) Hv)|].
      intros _. apply to_uint32_float_is; [cbn [float_is]; split; assumption | lia].
    + assert (HAB : 0 < B - A) by nia.
      destruct (binary_round_integer true d ez (B - A)) as (m & e' & -> & He' & Hv);
        [lia | unfold ez; lia | rewrite <- Pos2Z.opp_pos in HD; nia |].
      split; [rewrite (SFtruncZ_integer true m e' (B - A)) by (try assumption; lia); lia | lia].
Qed.
End IntegersInBinary32.

Section Binary32Product.
(** The single-precision product of two integers whose exact product
    needs more than 24 bits: an integer [B], a multiple of the unit in
    the last place [2^n], within half that unit of the product. *)
Lemma F32_mul_integers (x y : Z) :
  0 < x < 2 ^ 24 -> 0 < y < 2 ^ 24 -> 2 ^ 24 <= x * y ->
  exists B n : Z,
    float_is (F32.mul (F32.of_Z x) (F32.of_Z y)) B /\
    n = Z.log2 (x * y) - 23 /\ 1 <= n /\ B mod 2 ^ n = 0 /\
    - 2 ^ n <= 2 * (B - x * y) <= 2 ^ n.
Proof.
  intros Hx Hy Hxy.
  destruct x as [|px|px]; try lia. destruct y as [|py|py]; try lia.
  destruct (F32_of_Z_pos px ltac:(lia)) as (mx & -> & Hdx & Hmx).
  destruct (F32_of_Z_pos py ltac:(lia)) as (my & -> & Hdy & Hmy).
  pose proof (digits2_pos_bounds px) as Hbx. pose proof (digits2_pos_bounds py) as Hby.
  pose proof (digits2_pos_le px 24 ltac:(lia) ltac:(lia)) as Hlx.
  pose proof (digits2_pos_le py 24 ltac:(lia) ltac:(lia)) as Hly.
  set (dx := Z.pos (digits2_pos px)) in *. set (dy := Z.pos (digits2_pos py)) in *.
  assert (Hdx1 : 1 <= dx) by (unfold dx; lia). assert (Hdy1 : 1 <= dy) by (unfold dy; lia).
  change (Z.pos px * Z.pos py) with (Z.pos (px * py)) in *.
  pose proof (digits2_pos_lower (px * py) 24 ltac:(lia) Hxy) as Hlow.
  pose proof (digits2_pos_log2 (px * py)) as Hlog.
  assert (Hup : Z.pos (digits2_pos (px * py)) <= dx + dy).
  { apply digits2_pos_le; [lia|]. rewrite Pos2Z.inj_mul, Z.pow_add_r by lia.
    apply Z.mul_lt_mono_nonneg; lia. }
  set (dz := Z.pos (digits2_pos (px * py))) in *.
  set (j := 48 - dx - dy).
  assert (Hj : 0 <= j) by (unfold j; lia).
  assert (HJ : 0 < 2 ^ j) by (apply Z.pow_pos_nonneg; lia).
  assert (Hs : Z.pos (mx * my) = Z.pos (px * py) * 2 ^ j).
  { rewrite !Pos2Z.inj_mul, Hmx, Hmy. unfold j.
    replace (48 - dx - dy) with ((24 - dx) + (24 - dy)) by lia.
    rewrite Z.pow_add_r by lia. ring. }
  assert (Hds : Z.pos (digits2_pos (mx * my)) = 24 + (dz + j - 24)).
  { apply digits2_pos_unique. rewrite Hs.
    pose proof (digits2_pos_bounds (px * py)) as Hb. fold dz in Hb.
    replace (24 + (dz + j - 24) - 1) with (dz - 1 + j) by lia.
    replace (24 + (dz + j - 24)) with (dz + j) by lia.
    rewrite !Z.pow_add_r by lia. nia. }
  destruct (binary_round_aux_nearest (mx * my) (dz + j - 24) (dx - 24 + (dy - 24)))
    as (m & k & Hr & Hdm & Hk & Hnear); [lia | exact Hds | lia | unfold j; lia |].
  unfold F32.mul, F32.prec, F32.emax, SFmul. cbn [xorb]. rewrite Hr.
  set (e' := dx - 24 + (dy - 24) + k).
  assert (He' : dz - 24 <= e' <= dz - 23) by (unfold e', j in *; lia).
  assert (Hkj : k = e' + j) by (unfold e', j; lia).
  set (n := dz - 24) in *.
  assert (HN : 0 < 2 ^ n) by (apply Z.pow_pos_nonneg; lia).
  exists (Z.pos m * 2 ^ e'), n.
  split; [cbn [float_is]; split; [lia|];
          rewrite <- !Z.mul_assoc, <- !Z.pow_add_r by lia; reflexivity |].
  split; [lia|]. split; [lia|]. split.
  - replace e' with ((e' - n) + n) by lia. rewrite Z.pow_add_r, Z.mul_assoc by lia.
    apply Z.mod_mul. lia.
  - rewrite Hs, Hkj in Hnear. replace (n + j - 24 + 24) with (n + j) in Hnear by lia.
    replace (dz + j - 24) with (n + j) in Hnear by lia.
    rewrite !Z.pow_add_r in Hnear by lia.
    set (V := Z.pos m * 2 ^ e') in *. set (z := Z.pos (px * py)) in *.
    set (N := 2 ^ n) in *. set (J := 2 ^ j) in *.
    assert (H1 : - (N * J) <= (2 * (V - z)) * J <= N * J) by lia.
    destruct H1 as [H1 H2]. split.
    + apply (Zmult_le_reg_r _ _ J); lia.
    + apply (Zmult_le_reg_r _ _ J); lia.
Qed.
End Binary32Product.

Section FractionalFields.
Variable oor : spec_float -> Z.

Lemma in_zrange (lo : Z) (n : nat) (z : Z) :
  lo <= z < lo + Z.of_nat n -> In z (zrange lo n).
Proof.
  intros H. unfold zrange. apply in_map_iff. exists (Z.to_nat (z - lo)).
  split; [lia|]. apply in_seq. lia.
Qed.

(** The single-precision product [denom * F] in [fractional_P2], for
    [F] up to 128: an integer [B] within 4 of the exact product, equal
    to it below [2^24], and on the same side of every multiple of 128
    as the exact product. *)
Lemma product_in_P2 (denom F : Z) :
  0 < denom < 2 ^ 20 -> 0 <= F <= 128 ->
  exists B : Z,
    float_is (F32.mul (F32.of_Z denom) (F32.of_Z F)) B /\
    -4 <= B - denom * F <= 4 /\
    (denom * F < 2 ^ 24 -> B = denom * F) /\
    (forall num, denom * F <= 128 * num -> B <= 128 * num) /\
    (forall num, 128 * num <= denom * F -> 128 * num <= B).
Proof.
  intros Hd HF.
  destruct (Z_lt_le_dec (denom * F) (2 ^ 24)) as [Hsmall | Hbig].
  - exists (denom * F). split; [|split; [lia | split; [reflexivity | split; intros; lia]]].
    rewrite F32_mul_exact by nia. apply float_is_of_Z. nia.
  - destruct (F32_mul_integers denom F) as (B & n & HB & Hn & Hn1 & Hmod & Hnear);
      [lia | nia | exact Hbig |].
    assert (Hlog : Z.log2 (denom * F) < 27) by (apply Z.log2_lt_pow2; nia).
    set (z := denom * F) in *.
    exists B. split; [exact HB|].
    assert (Hcases : n = 1 \/ n = 2 \/ n = 3) by lia.
    destruct Hcases as [-> | [-> | ->]];
      [change (2 ^ 1) with 2 in * | change (2 ^ 2) with 4 in * | change (2 ^ 3) with 8 in *];
      apply Z.div_exact in Hmod; try lia;
      (split; [lia | split; [lia | split; intros num Hle; lia]]).
Qed.

(** The value handed to the conversion for P2, on a proper fraction.
    With [F] the floor the source computes and [B] the rounded product
    [denom * F]: the difference [128 * num - B] is computed exactly, so
    P2 is that difference whenever it is not negative. *)
Lemma fractional_P2_value (num denom : Z) :
  0 < num < denom -> denom < 2 ^ 20 ->
  let F := code_floor num denom in
  exists B : Z,
    SFtruncZ (fractional_P2 num denom) = 128 * num - B /\
    (B <= 128 * num -> to_uint32 oor (fractional_P2 num denom) = 128 * num - B) /\
    -4 <= B - denom * F <= 4 /\
    (denom * F < 2 ^ 24 -> B = denom * F) /\
    (denom * F <= 128 * num -> B <= 128 * num) /\
    (128 * num <= denom * F -> 128 * num <= B).
Proof.
  intros Hn Hd. cbv zeta.
  destruct (floor_128_ratio_proper num denom Hn ltac:(lia)) as (HF & HK).
  assert (HK' : 0 <= 128 * num / denom <= 127).
  { split; [apply Z.div_pos; lia|].
    apply Z.lt_succ_r. apply Z.div_lt_upper_bound; lia. }
  pose proof (Z_div_mod_eq_full (128 * num) denom) as Hdm.
  pose proof (Z.mod_pos_bound (128 * num) denom ltac:(lia)) as Hmod.
  set (F := code_floor num denom) in *.
  destruct (product_in_P2 denom F ltac:(lia) ltac:(lia)) as (B & HB & Hnear & Hex & Hle & Hge).
  assert (HA : float_is (F32.of_Z (u32 (128 * num))) (128 * num)).
  { unfold u32. rewrite Z.mod_small by lia.
    rewrite (Z.mul_comm 128 num). change 128 with (2 ^ 7). apply float_is_of_Z_scaled; lia. }
  assert (Hdist : - 2 ^ 24 < 128 * num - B < 2 ^ 24) by nia.
  unfold fractional_P2. rewrite HF.
  destruct (F32_sub_integers oor _ _ _ _ HA HB Hdist) as [Ht Hu].
  exists B. split; [exact Ht|]. split; [exact Hu|]. split; [exact Hnear|].
  split; [exact Hex|]. split; [apply Hle | apply Hge].
Qed.

(** Fractional mode on a proper fraction.  With [F] the floor the source
    computes from the single-precision quotient, which is the exact
    floor or one more: P1 is [128 * a + F - 512] and P3 is the
    denominator.  When [F] is the exact floor, P2 is within 4 of the
    remainder [128 * num mod denom], and equal to it as long as
    [128 * num] is below [2^24]; when [F] is one more, P2 is 0 or the
    value converted is negative. *)
Lemma fractional_fields_proper (a num denom : Z) :
  4 <= a <= 2048 -> 0 < num < denom -> denom < 2 ^ 20 ->
  let F := code_floor num denom in
  let '(P1, P2, P3) := fractional_fields oor a num denom in
  128 * num / denom <= F <= 128 * num / denom + 1 /\
  P1 = 128 * a + F - 512 /\ P3 = denom /\
  (F = 128 * num / denom ->
     0 <= P2 /\ -4 <= P2 - (128 * num) mod denom <= 4 /\
     SFtruncZ (fractional_P2 num denom) = P2 /\
     (128 * num < 2 ^ 24 -> P2 = (128 * num) mod denom)) /\
  (F = 128 * num / denom + 1 ->
     P2 = 0 \/ SFtruncZ (fractional_P2 num denom) < 0).
Proof.
  intros Ha Hn Hd. cbv zeta.
  destruct (floor_128_ratio_proper num denom Hn ltac:(lia)) as (HF & HK).
  assert (HK' : 0 <= 128 * num / denom <= 127).
  { split; [apply Z.div_pos; lia|].
    apply Z.lt_succ_r. apply Z.div_lt_upper_bound; lia. }
  pose proof (Z_div_mod_eq_full (128 * num) denom) as Hdm.
  pose proof (Z.mod_pos_bound (128 * num) denom ltac:(lia)) as Hmod.
  destruct (fractional_P2_value num denom Hn Hd) as (B & Ht & Hu & Hnear & Hex & Hle & Hge).
  unfold fractional_fields, fractional_P1. rewrite HF.
  set (F := code_floor num denom) in *.
  split; [exact HK|]. split; [|split; [reflexivity|split]].
  - rewrite F32_add_exact, F32_sub_exact by lia. apply to_uint32_of_Z. lia.
  - intros HFK. rewrite HFK in *.
    assert (HBA : B <= 128 * num) by (apply Hle; lia).
    rewrite (Hu HBA), Ht. split; [lia|]. split; [lia|]. split; [reflexivity|].
    intros Hsmall. rewrite Hex by lia. lia.
  - intros HFK. rewrite HFK in *.
    assert (HBA : 128 * num <= B) by (apply Hge; lia).
    destruct (Z.eq_dec B (128 * num)) as [-> | Hne].
    + left. rewrite Hu by lia. lia.
    + right. rewrite Ht. lia.
Qed.
End FractionalFields.

Section IntegerBranch.
Variable oor : spec_float -> Z.

(** The fractional formulas of the source evaluated at numerator 0 give
    the fields of the integer branch, which are also those of the
    formulas in the spec's words. *)
Lemma fractional_fields_at_zero (a denom : Z) :
  4 <= a <= 2048 -> 0 < denom < 2 ^ 24 ->
  fractional_fields oor a 0 denom = (128 * a - 512, 0, denom) /\
  spec_fractional_fields a 0 denom = (128 * a - 512, 0, denom) /\
  setupPLL_fields oor a 0 denom = (128 * a - 512, 0, denom).
Proof.
  intros Ha Hd. split; [|split].
  - assert (HF : floor_128_ratio 0 denom = F32.of_Z 0).
    { destruct (F32_of_Z_canonical denom Hd) as (m & Hm & _).
      unfold floor_128_ratio. rewrite Hm. reflexivity. }
    unfold fractional_fields, fractional_P1, fractional_P2. rewrite HF.
    change (u32 (128 * 0)) with 0.
    rewrite F32_add_exact, F32_sub_exact, F32_mul_exact by lia.
    rewrite Z.mul_0_r, F32_sub_exact by lia.
    rewrite !to_uint32_of_Z by lia. f_equal. f_equal. lia.
  - unfold spec_fractional_fields. rewrite Z.mul_0_r, Z.div_0_l by lia.
    f_equal. f_equal; lia.
  - unfold setupPLL_fields. cbn [Z.eqb]. unfold u32. rewrite Z.mod_small by lia.
    reflexivity.
Qed.
End IntegerBranch.

(** * Reasoning about statements *)

Section StmtLaws.
Context {Bus : Type} {device : I2CDevice Bus}.

Lemma bind_ASSERT {B : Type} (c : Machine Bus -> bool) (e : err_t)
    (k : unit -> Stmt Bus B) (m : Machine Bus) :
  bind (ASSERT c e) k m = if c m then k tt m else (inl e, m).
Proof. unfold bind, ASSERT. destruct (c m); reflexivity. Qed.

Lemma bind_gets {A B : Type} (f : Machine Bus -> A) (k : A -> Stmt Bus B)
    (m : Machine Bus) :
  bind (gets f) k m = k (f m) m.
Proof. reflexivity. Qed.

Lemma bind_modify {B : Type} (f : Machine Bus -> Machine Bus)
    (k : unit -> Stmt Bus B) (m : Machine Bus) :
  bind (modify f) k m = k tt (f m).
Proof. reflexivity. Qed.

Lemma bind_call {A B : Type} (f : Machine Bus -> A * Machine Bus)
    (k : A -> Stmt Bus B) (m : Machine Bus) :
  bind (call f) k m = k (fst (f m)) (snd (f m)).
Proof. unfold bind, call. destruct (f m); reflexivity. Qed.

Lemma i2c_write_eq (bytes : list Z) (m : Machine Bus) :
  i2c_write bytes m =
    (if fst (dev_write bytes (bus m)) then ERROR_NONE else ERROR_I2C_TRANSACTION,
     after_write bytes m).
Proof. unfold i2c_write, after_write. destruct (dev_write bytes (bus m)); reflexivity. Qed.

Lemma read8_eq (reg : Z) (m : Machine Bus) :
  read8 reg m =
    ((if fst (fst (dev_write_then_read (u8 reg) (bus m)))
      then ERROR_NONE else ERROR_I2C_TRANSACTION,
      u8 (snd (fst (dev_write_then_read (u8 reg) (bus m))))),
     after_read (u8 reg) m).
Proof.
  unfold read8, after_read.
  destruct (dev_write_then_read (u8 reg) (bus m)) as [[ok v] b]; reflexivity.
Qed.

Lemma bind_ASSERT_STATUS {B : Type} (f : Fn Bus) (k : unit -> Stmt Bus B)
    (m : Machine Bus) :
  bind (ASSERT_STATUS f) k m =
    match fst (f m) with
    | ERROR_NONE => k tt (snd (f m))
    | e => (inl e, snd (f m))
    end.
Proof.
  unfold ASSERT_STATUS, bind, call, ret, Return.
  destruct (f m) as [[] m']; reflexivity.
Qed.

Lemma bind_write {B : Type} (bytes : list Z) (k : unit -> Stmt Bus B)
    (m : Machine Bus) :
  bind (ASSERT_STATUS (i2c_write bytes)) k m =
    if fst (dev_write bytes (bus m)) then k tt (after_write bytes m)
    else (inl ERROR_I2C_TRANSACTION, after_write bytes m).
Proof.
  rewrite bind_ASSERT_STATUS, i2c_write_eq. cbn [fst snd].
  destruct (fst (dev_write bytes (bus m))); reflexivity.
Qed.

Lemma keeps_obj_ASSERT (c : Machine Bus -> bool) (e : err_t) :
  keeps_obj (ASSERT c e).
Proof. intros m. unfold ASSERT. destruct (c m); reflexivity. Qed.

Lemma keeps_obj_write (bytes : list Z) : keeps_obj (ASSERT_STATUS (i2c_write bytes)).
Proof.
  intros m. unfold ASSERT_STATUS. rewrite bind_call, i2c_write_eq. cbn [fst snd].
  destruct (fst (dev_write bytes (bus m))); reflexivity.
Qed.

Lemma error_keeps_obj_bind {A B : Type} (s : Stmt Bus A) (k : A -> Stmt Bus B) :
  keeps_obj s -> (forall a, error_keeps_obj (k a)) -> error_keeps_obj (bind s k).
Proof.
  intros Hs Hk m e. unfold bind. specialize (Hs m).
  destruct (s m) as [[e' | a] m'] eqn:E; cbn [fst snd] in *.
  - intros _ _. exact Hs.
  - intros H1 H2. rewrite (Hk a m' e H1 H2). exact Hs.
Qed.

Lemma body_error_keeps_obj (s : Stmt Bus unit) (m : Machine Bus) :
  error_keeps_obj s -> fst (body s m) <> ERROR_NONE -> obj (snd (body s m)) = obj m.
Proof.
  intros Hs. unfold body. specialize (Hs m).
  destruct (s m) as [[e | []] m']; cbn [fst snd] in *.
  - intros H. apply (Hs e); [reflexivity | exact H].
  - congruence.
Qed.

Lemma obj_after_writes (ws : list (list Z)) (m : Machine Bus) :
  obj (after_writes ws m) = obj m.
Proof.
  revert m. induction ws as [|w ws IH]; intros m; [reflexivity|].
  unfold after_writes in *. cbn [fold_left]. rewrite IH. reflexivity.
Qed.

Lemma trace_after_writes (ws : list (list Z)) (m : Machine Bus) :
  trace (after_writes ws m) = rev (map EvWrite ws) ++ trace m.
Proof.
  revert m. induction ws as [|w ws IH]; intros m; [reflexivity|].
  unfold after_writes in *. cbn [fold_left map rev]. rewrite IH.
  rewrite <- app_assoc. reflexivity.
Qed.
End StmtLaws.

(** * The PLL stage *)

Section PLL.
Context {Bus : Type} {device : I2CDevice Bus}.
Variable oor : spec_float -> Z.

(** With valid arguments and an acknowledging bus, [setupPLL] issues its
    nine writes, stores the PLL state and returns success. *)
Lemma setupPLL_success (pll : si5351PLL_t) (mult num denom : Z) (m : Machine Bus) :
  initialised (config m) = true ->
  14 < mult < 91 -> 0 < denom <= 0xFFFFF -> num <= 0xFFFFF ->
  (forall bytes b, fst (dev_write bytes b) = true) ->
  setupPLL oor pll mult num denom m =
    (ERROR_NONE,
     let '(P1, P2, P3) := setupPLL_fields oor mult num denom in
     let m' := after_writes (setupPLL_writes pll P1 P2 P3) m in
     with_config (set_pll pll (fvco_floor oor (crystalFreq (config m)) mult num denom)
                          (config m')) m').
Proof.
  intros Hinit Hmult Hdenom Hnum Hack.
  unfold setupPLL, body.
  rewrite !bind_ASSERT, Hinit.
  replace ((14 <? mult) && (mult <? 91)) with true by lia.
  replace (0 <? denom) with true by lia.
  replace (num <=? 0xFFFFF) with true by lia.
  replace (denom <=? 0xFFFFF) with true by lia.
  destruct (setupPLL_fields oor mult num denom) as [[P1 P2] P3].
  unfold write8. rewrite !bind_write, !Hack.
  destruct pll; reflexivity.
Qed.

Lemma setupPLL_rejects_mult (pll : si5351PLL_t) (mult num denom : Z) (m : Machine Bus) :
  initialised (config m) = true ->
  mult <= 14 \/ 91 <= mult ->
  setupPLL oor pll mult num denom m = (ERROR_INVALIDPARAMETER, m).
Proof.
  intros Hinit Hmult. unfold setupPLL, body.
  rewrite !bind_ASSERT, Hinit.
  replace ((14 <? mult) && (mult <? 91)) with false by lia.
  reflexivity.
Qed.
End PLL.

(** * The Multisynth stage *)

Section Multisynth.
Context {Bus : Type} {device : I2CDevice Bus}.
Variable oor : spec_float -> Z.

Lemma clk_register_write (output clk : Z) (m : Machine Bus) :
  0 <= output <= 2 ->
  (if output =? 0 then ASSERT_STATUS (write8 SI5351_REGISTER_16_CLK0_CONTROL clk)
   else if output =? 1 then ASSERT_STATUS (write8 SI5351_REGISTER_17_CLK1_CONTROL clk)
   else if output =? 2 then ASSERT_STATUS (write8 SI5351_REGISTER_18_CLK2_CONTROL clk)
   else ret tt) =
  ASSERT_STATUS (i2c_write [u8 (16 + output); u8 clk]).
Proof.
  intros H. assert (output = 0 \/ output = 1 \/ output = 2) as [-> | [-> | ->]] by lia;
    reflexivity.
Qed.

(** The machine in which [setupMultisynth] ends once its validation has
    passed: the burst is sent, and the clock control register is written
    if the burst was acknowledged. *)
Lemma setupMultisynth_valid (output : Z) (pllSource : si5351PLL_t)
    (div num denom : Z) (m : Machine Bus) :
  initialised (config m) = true ->
  0 <= output <= 2 -> 3 < div < 2049 -> 0 < denom <= 0xFFFFF -> num <= 0xFFFFF ->
  pll_configured pllSource (config m) = true ->
  let '(P1, P2, P3) := setupMultisynth_fields oor div num denom in
  let burst := multisynth_sendBuffer output (get_lastRdivValue output (obj m)) P1 P2 P3 in
  let clk := [u8 (16 + output); u8 (clkControlReg pllSource num)] in
  setupMultisynth oor output pllSource div num denom m =
    if fst (dev_write burst (bus m)) then
      (if fst (dev_write clk (bus (after_write burst m)))
       then ERROR_NONE else ERROR_I2C_TRANSACTION,
       after_write clk (after_write burst m))
    else (ERROR_I2C_TRANSACTION, after_write burst m).
Proof.
  intros Hinit Hout Hdiv Hdenom Hnum Hpll.
  destruct (setupMultisynth_fields oor div num denom) as [[P1 P2] P3] eqn:HP.
  cbv zeta. unfold setupMultisynth, body.
  rewrite !bind_ASSERT, Hinit.
  replace (output <? 3) with true by lia.
  replace (3 <? div) with true by lia.
  replace (div <? 2049) with true by lia.
  replace (0 <? denom) with true by lia.
  replace (num <=? 0xFFFFF) with true by lia.
  replace (denom <=? 0xFFFFF) with true by lia.
  assert (Hchk : forall k : unit -> Stmt Bus unit,
    bind match pllSource with
         | SI5351_PLL_A => ASSERT (fun m => plla_configured (config m)) ERROR_INVALIDPARAMETER
         | SI5351_PLL_B => ASSERT (fun m => pllb_configured (config m)) ERROR_INVALIDPARAMETER
         end k m = k tt m).
  { intros k. destruct pllSource; rewrite bind_ASSERT; cbn in Hpll; rewrite Hpll;
      reflexivity. }
  rewrite Hchk, HP, bind_gets. unfold writeN. rewrite bind_write.
  destruct (fst (dev_write _ (bus m))); [|reflexivity].
  rewrite (clk_register_write output _ m Hout), bind_write.
  destruct (fst (dev_write _ _)); reflexivity.
Qed.

(** C5. On an initialised instance, [setupMultisynth] naming a PLL whose
    configured flag is false returns [ERROR_INVALIDPARAMETER] and leaves
    the machine as it was: no bus transaction is issued, whatever the
    channel and the other arguments. *)
Theorem setupMultisynth_needs_configured_pll (output : Z) (pllSource : si5351PLL_t)
    (div num denom : Z) (m : Machine Bus) :
  initialised (config m) = true ->
  pll_configured pllSource (config m) = false ->
  setupMultisynth oor output pllSource div num denom m = (ERROR_INVALIDPARAMETER, m).
Proof.
  intros Hinit Hpll. unfold setupMultisynth, body.
  rewrite !bind_ASSERT, Hinit.
  destruct (output <? 3); [|reflexivity].
  destruct (3 <? div); [|reflexivity].
  destruct (div <? 2049); [|reflexivity].
  destruct (0 <? denom); [|reflexivity].
  destruct (num <=? 0xFFFFF); [|reflexivity].
  destruct (denom <=? 0xFFFFF); [|reflexivity].
  destruct pllSource; rewrite bind_ASSERT; cbn in Hpll; rewrite Hpll; reflexivity.
Qed.

Lemma setupMultisynth_rejects_div (output : Z) (pllSource : si5351PLL_t)
    (div num denom : Z) (m : Machine Bus) :
  initialised (config m) = true ->
  div <= 3 \/ 2049 <= div ->
  setupMultisynth oor output pllSource div num denom m = (ERROR_INVALIDPARAMETER, m).
Proof.
  intros Hinit Hdiv. unfold setupMultisynth, body.
  rewrite !bind_ASSERT, Hinit.
  destruct (output <? 3); [|reflexivity].
  destruct (3 <? div) eqn:E1; [|reflexivity].
  destruct (div <? 2049) eqn:E2; [|reflexivity].
  lia.
Qed.

(** C4. On an initialised instance with the other arguments valid.
    [setupPLL]: the multipliers 14 and 91 are refused with
    [ERROR_INVALIDPARAMETER] before any bus transaction; the boundary
    values 15 and 90 are accepted, whether or not a PLL has been
    configured before: on a bus that acknowledges its writes the call
    returns [ERROR_NONE], having issued its nine writes and stored the
    PLL state.  [setupMultisynth]: the dividers 3 and 2049 are refused
    with [ERROR_INVALIDPARAMETER] before any bus transaction; the
    boundary values 4 and 2048 are accepted once the source PLL is
    configured: the call returns [ERROR_NONE], having sent the burst and
    written the clock control register. *)
Theorem boundary_values (output : Z) (pll : si5351PLL_t) (num denom : Z)
    (m : Machine Bus) :
  initialised (config m) = true ->
  0 <= output <= 2 -> 0 < denom <= 0xFFFFF -> num <= 0xFFFFF ->
  (forall bytes b, fst (dev_write bytes b) = true) ->
  let pll_done mult :=
    let '(P1, P2, P3) := setupPLL_fields oor mult num denom in
    let m' := after_writes (setupPLL_writes pll P1 P2 P3) m in
    with_config (set_pll pll (fvco_floor oor (crystalFreq (config m)) mult num denom)
                         (config m')) m' in
  let multisynth_done div :=
    let '(P1, P2, P3) := setupMultisynth_fields oor div num denom in
    after_write [u8 (16 + output); u8 (clkControlReg pll num)]
      (after_write
         (multisynth_sendBuffer output (get_lastRdivValue output (obj m)) P1 P2 P3) m) in
  (setupPLL oor pll 14 num denom m = (ERROR_INVALIDPARAMETER, m) /\
   setupPLL oor pll 91 num denom m = (ERROR_INVALIDPARAMETER, m) /\
   setupPLL oor pll 15 num denom m = (ERROR_NONE, pll_done 15) /\
   setupPLL oor pll 90 num denom m = (ERROR_NONE, pll_done 90)) /\
  (setupMultisynth oor output pll 3 num denom m = (ERROR_INVALIDPARAMETER, m) /\
   setupMultisynth oor output pll 2049 num denom m = (ERROR_INVALIDPARAMETER, m) /\
   (pll_configured pll (config m) = true ->
    setupMultisynth oor output pll 4 num denom m = (ERROR_NONE, multisynth_done 4) /\
    setupMultisynth oor output pll 2048 num denom m = (ERROR_NONE, multisynth_done 2048))).
Proof.
  intros Hinit Hout Hdenom Hnum Hack. cbv zeta. split.
  - split; [apply setupPLL_rejects_mult; [assumption | lia]|].
    split; [apply setupPLL_rejects_mult; [assumption | lia]|].
    split; apply setupPLL_success; assumption || lia.
  - split; [apply setupMultisynth_rejects_div; [assumption | lia]|].
    split; [apply setupMultisynth_rejects_div; [assumption | lia]|].
    intros Hpll. split.
    + pose proof (setupMultisynth_valid output pll 4 num denom m Hinit Hout
                    ltac:(lia) Hdenom Hnum Hpll) as H.
      destruct (setupMultisynth_fields oor 4 num denom) as [[P1 P2] P3].
      cbv zeta in H. rewrite H, !Hack. reflexivity.
    + pose proof (setupMultisynth_valid output pll 2048 num denom m Hinit Hout
                    ltac:(lia) Hdenom Hnum Hpll) as H.
      destruct (setupMultisynth_fields oor 2048 num denom) as [[P1 P2] P3].
      cbv zeta in H. rewrite H, !Hack. reflexivity.
Qed.
End Multisynth.

(** * Initialisation and the operations that depend on it *)

Section Initialisation.
Context {Bus : Type} {device : I2CDevice Bus}.
Variable oor : spec_float -> Z.






Lemma enableSpreadSpectrum_eq (enabled : bool) (m : Machine Bus) :
  let reg := SI5351_REGISTER_149_SPREAD_SPECTRUM_PARAMETERS in
  let rd := fst (dev_write_then_read (u8 reg) (bus m)) in
  let regval := if enabled then Z.lor (u8 (snd rd)) 0x80 else Z.land (u8 (snd rd)) 0x7F in
  enableSpreadSpectrum enabled m =
    if fst rd then
      (if fst (dev_write [u8 reg; u8 regval] (bus (after_read (u8 reg) m)))
       then ERROR_NONE else ERROR_I2C_TRANSACTION,
       after_write [u8 reg; u8 regval] (after_read (u8 reg) m))
    else (ERROR_I2C_TRANSACTION, after_read (u8 reg) m).
Proof.
  cbv zeta. unfold enableSpreadSpectrum, body. rewrite bind_call.
  rewrite read8_eq. cbn [fst snd].
  destruct (fst (fst (dev_write_then_read _ (bus m)))); [|reflexivity].
  unfold write8. rewrite bind_write.
  destruct (fst (dev_write _ _)); reflexivity.
Qed.

Lemma enableSpreadSpectrum_keeps_obj (enabled : bool) (m : Machine Bus) :
  obj (snd (enableSpreadSpectrum enabled m)) = obj m.
Proof.
  pose proof (enableSpreadSpectrum_eq enabled m) as H. cbv zeta in H. rewrite H.
  destruct (fst (fst _)); [destruct (fst (dev_write _ _))|]; reflexivity.
Qed.

Lemma enableSpreadSpectrum_status (enabled : bool) (m : Machine Bus) :
  fst (enableSpreadSpectrum enabled m) = ERROR_NONE \/
  fst (enableSpreadSpectrum enabled m) = ERROR_I2C_TRANSACTION.
Proof.
  pose proof (enableSpreadSpectrum_eq enabled m) as H. cbv zeta in H. rewrite H.
  destruct (fst (fst _)); [destruct (fst (dev_write _ _))|]; auto.
Qed.

End Initialisation.

(** * The R divider *)

Section RDivider.
Context {Bus : Type} {device : I2CDevice Bus}.
Variable oor : spec_float -> Z.

Lemma setupRdiv_eq (output div : Z) (m : Machine Bus) :
  output < 3 ->
  let Rreg := rdiv_register output in
  let rd := fst (dev_write_then_read (u8 Rreg) (bus m)) in
  let divider := u8 (Z.shiftl (Z.land (u8 div) 0x07) 4) in
  let regval := Z.lor (Z.land (u8 (snd rd)) 0x0F) divider in
  let m1 := with_obj (set_lastRdivValue output divider (obj m)) (after_read (u8 Rreg) m) in
  setupRdiv output div m =
    (if fst (dev_write [u8 Rreg; u8 regval] (bus m1))
     then ERROR_NONE else ERROR_I2C_TRANSACTION,
     after_write [u8 Rreg; u8 regval] m1).
Proof.
  intros Hout. cbv zeta. unfold setupRdiv, body.
  rewrite bind_ASSERT. replace (output <? 3) with true by lia.
  rewrite bind_call, read8_eq. cbn [fst snd].
  rewrite bind_modify, bind_call. unfold write8. rewrite i2c_write_eq.
  reflexivity.
Qed.

Lemma rdiv_field_range (div : Z) :
  0 <= div <= 7 -> u8 (Z.shiftl (Z.land (u8 div) 0x07) 4) = div * 16.
Proof.
  intros H.
  assert (div = 0 \/ div = 1 \/ div = 2 \/ div = 3 \/ div = 4 \/ div = 5 \/
          div = 6 \/ div = 7) as Hc by lia.
  repeat (destruct Hc as [-> | Hc]; [reflexivity|]). subst. reflexivity.
Qed.

Lemma P1_high_bits (P1 : Z) :
  Z.shiftr (Z.land P1 0x30000) 16 = Z.shiftr P1 16 mod 4.
Proof.
  rewrite Z.shiftr_land. change (Z.shiftr 0x30000 16) with (Z.ones 2).
  rewrite Z.land_ones by lia. reflexivity.
Qed.

Lemma third_byte_layout (P1 div : Z) :
  0 <= div <= 7 ->
  let b := u8 (Z.lor (Z.shiftr (Z.land P1 0x30000) 16) (div * 16)) in
  b = div * 16 + Z.shiftr P1 16 mod 4 /\
  Z.shiftr b 4 = div /\
  Z.land b 0x0F = Z.shiftr P1 16 mod 4.
Proof.
  intros H. cbv zeta. rewrite P1_high_bits.
  pose proof (Z.mod_pos_bound (Z.shiftr P1 16) 4 ltac:(lia)) as Hb.
  set (h := Z.shiftr P1 16 mod 4) in *.
  assert (h = 0 \/ h = 1 \/ h = 2 \/ h = 3) as Hh by lia.
  assert (div = 0 \/ div = 1 \/ div = 2 \/ div = 3 \/ div = 4 \/ div = 5 \/
          div = 6 \/ div = 7) as Hc by lia.
  clearbody h.
  repeat (destruct Hc as [-> | Hc]);
    repeat (destruct Hh as [-> | Hh]); subst; repeat split; reflexivity.
Qed.

(** C7 (amended). After [setupRdiv] on a channel, a [setupMultisynth] on
    the same channel that passes validation sends a burst of the start
    address and eight register bytes whose third register byte carries
    the R divider's 3-bit code in bits 6:4 (the high nibble) and bits
    17:16 of P1 in bits 1:0 (the low nibble): neither field disturbs the
    other. *)
Theorem multisynth_burst_keeps_rdiv (output rdiv : Z) (pllSource : si5351PLL_t)
    (div num denom : Z) (m : Machine Bus) :
  initialised (config m) = true ->
  length (lastRdivValue (obj m)) = 3%nat ->
  0 <= output <= 2 -> 0 <= rdiv <= 7 ->
  3 < div < 2049 -> 0 < denom <= 0xFFFFF -> num <= 0xFFFFF ->
  pll_configured pllSource (config m) = true ->
  let m1 := snd (setupRdiv output rdiv m) in
  let m2 := snd (setupMultisynth oor output pllSource div num denom m1) in
  let '(P1, P2, P3) := setupMultisynth_fields oor div num denom in
  let burst := multisynth_sendBuffer output (rdiv * 16) P1 P2 P3 in
  get_lastRdivValue output (obj m1) = rdiv * 16 /\
  (exists later, trace m2 = later ++ EvWrite burst :: trace m1) /\
  length burst = 9%nat /\
  burst_byte 3 burst = rdiv * 16 + Z.shiftr P1 16 mod 4 /\
  Z.shiftr (burst_byte 3 burst) 4 = rdiv /\
  Z.land (burst_byte 3 burst) 0x0F = Z.shiftr P1 16 mod 4.
Proof.
  intros Hinit Hlen Hout Hrdiv Hdiv Hdenom Hnum Hpll. cbv zeta.
  pose proof (setupRdiv_eq output rdiv m ltac:(lia)) as HR. cbv zeta in HR.
  rewrite HR. cbn [snd]. clear HR.
  rewrite rdiv_field_range by assumption.
  set (m1 := after_write _ _).
  assert (Hget : get_lastRdivValue output (obj m1) = rdiv * 16).
  { subst m1. cbn. unfold get_lastRdivValue, set_lastRdivValue. cbn.
    rewrite list_lookup_insert_eq by (rewrite Hlen; lia). reflexivity. }
  assert (Hcfg : config m1 = config m) by reflexivity.
  pose proof (setupMultisynth_valid oor output pllSource div num denom m1
                ltac:(rewrite Hcfg; exact Hinit) Hout Hdiv Hdenom Hnum
                ltac:(rewrite Hcfg; exact Hpll)) as HM.
  destruct (setupMultisynth_fields oor div num denom) as [[P1 P2] P3].
  cbv zeta in HM. rewrite Hget in HM. rewrite HM. clear HM.
  destruct (third_byte_layout P1 rdiv Hrdiv) as (Hb & Hhi & Hlo).
  split; [exact Hget|]. split.
  - destruct (fst (dev_write _ (bus m1))); cbn [snd].
    + eexists [_]. reflexivity.
    + exists []. reflexivity.
  - repeat split; assumption.
Qed.
End RDivider.

(** * Evaluations at concrete inputs *)

Ltac split_all := repeat match goal with |- _ /\ _ => split end.

Example begun_machine_state :
  obj begun_machine =
    {| m_si5351Config :=
         {| initialised := true; crystalFreq := 25000000; crystalLoad := 0xC0;
            crystalPPM := 30;
            plla_configured := false; plla_freq := 0;
            pllb_configured := false; pllb_freq := 0 |};
       lastRdivValue := [0; 0; 0] |}.
Proof. reflexivity. Qed.

(** The end-to-end scenario of the spec: 25 MHz crystal, multiplier 36,
    then divider 6 on channel 0. *)
Example scenario_900MHz_150MHz :
  plla_freq (config ready_machine) = 900000000 /\
  setupMultisynth_fields oor_zero 6 0 1 = (256, 0, 1) /\
  @setupMultisynth unit ack_device oor_zero 0 SI5351_PLL_A 6 0 1 ready_machine =
    (ERROR_NONE,
     {| obj := obj ready_machine; bus := tt;
        trace := EvWrite [16; 0x4F] :: EvWrite [42; 0; 1; 0; 1; 0; 0; 0; 0]
                   :: trace ready_machine |}).
Proof. split_all; vm_compute; reflexivity. Qed.

(** C1 (failing input). On a begun instance with the 25 MHz crystal and an
    acknowledging bus, [setupPLL(PLL_A, 43, 0, 1)] returns success, computes
    P1 = 128*43 - 512, P2 = 0, P3 = 1 and sets the configured flag, but
    stores 1075000064 as the frequency: the product 25000000 * 43 =
    1075000000 needs 25 significant bits and is rounded by the
    single-precision multiplication. *)
Theorem setupPLL_43_stores_rounded_frequency (oor : spec_float -> Z) :
  let r := @setupPLL unit ack_device oor SI5351_PLL_A 43 0 1 begun_machine in
  fst r = ERROR_NONE /\
  setupPLL_fields oor 43 0 1 = (128 * 43 - 512, 0, 1) /\
  plla_configured (config (snd r)) = true /\
  plla_freq (config (snd r)) = 1075000064 /\
  crystalFreq (config begun_machine) * 43 = 1075000000.
Proof. cbv zeta. split_all; vm_compute; reflexivity. Qed.

(** C2 (failing input). For multiplier 15, numerator 1040383 and
    denominator 1048575 the single-precision quotient is exactly 127/128,
    so the code takes 127 where floor(128*num/denom) is 126: P1 is 1535
    instead of 1534, and P2, the difference of 133169024 and the
    single-precision product of 1048575 and 127 (133169025 rounded to
    133169024), is 0 instead of 1048574. *)
Theorem setupPLL_fields_quotient_rounds_up (oor : spec_float -> Z) :
  F32.div (F32.of_Z 1040383) (F32.of_Z 1048575) = S754_finite false (127 * 2 ^ 17) (-24) /\
  code_floor 1040383 1048575 = 127 /\ 128 * 1040383 / 1048575 = 126 /\
  F32.mul (F32.of_Z 1048575) (F32.of_Z 127) = F32.of_Z (128 * 1040383) /\
  setupPLL_fields oor 15 1040383 1048575 = (1535, 0, 1048575) /\
  spec_fractional_fields 15 1040383 1048575 = (1534, 1048574, 1048575).
Proof. split_all; vm_compute; reflexivity. Qed.

(** A fractional input on which the value converted for P2 is negative:
    for numerator 399394 and denominator 786499 the code's floor is 65,
    one above the exact 64, and the product 786499 * 65 = 51122435 rounds
    to 51122436, four above 128 * 399394.  The conversion of -4 to
    [uint32_t] has no defined result; P2 is what the board makes of it. *)
Example P2_conversion_of_negative_value (oor : spec_float -> Z) :
  code_floor 399394 786499 = 65 /\ 128 * 399394 / 786499 = 64 /\
  fractional_P2 399394 786499 = S754_finite true (2 ^ 23) (-21) /\
  setupPLL_fields oor 15 399394 786499 =
    (1473, u32 (oor (S754_finite true (2 ^ 23) (-21))), 786499) /\
  setupPLL_fields oor_ones 15 399394 786499 = (1473, 4294967295, 786499).
Proof.
  split; [vm_compute; reflexivity|]. split; [vm_compute; reflexivity|].
  split; [vm_compute; reflexivity|]. split; [reflexivity|].
  vm_compute. reflexivity.
Qed.

(** C3 (failing input). For divider 8, numerator 2 and denominator 1 the
    closed form of [setupMultisynth] yields P2 = 128 where the general
    formulas, those of the source's own fractional branch and those of the
    spec, yield P2 = 0; P1 and P3 agree. *)
Theorem setupMultisynth_closed_form_P2_differs (oor : spec_float -> Z) :
  setupMultisynth_fields oor 8 2 1 = (768, 128, 1) /\
  fractional_fields oor 8 2 1 = (768, 0, 1) /\
  spec_fractional_fields 8 2 1 = (768, 0, 1).
Proof. split_all; vm_compute; reflexivity. Qed.


(** C7 (counterexample). After [setupRdiv(0, 1)] and
    [setupMultisynth(0, PLL_A, 8, 0, 1)] the third register byte of the
    burst is 0x10: its low nibble is 0, which is neither the stored field
    [lastRdivValue[0] = 0x10] nor the 3-bit code 1; the field sits in the
    high nibble. *)
Lemma burst_low_nibble_is_not_rdiv :
  let m1 := snd (@setupRdiv unit ack_device 0 1 ready_machine) in
  let m2 := snd (@setupMultisynth unit ack_device oor_zero 0 SI5351_PLL_A 8 0 1 m1) in
  fst (@setupRdiv unit ack_device 0 1 ready_machine) = ERROR_NONE /\
  get_lastRdivValue 0 (obj m1) = 0x10 /\
  trace m2 = EvWrite [16; 0x4F] :: EvWrite [42; 0; 1; 0x10; 2; 0; 0; 0; 0] :: trace m1 /\
  Z.land 0x10 0x0F <> 0x10 /\ Z.land 0x10 0x0F <> 1.
Proof. cbv zeta. split_all; vm_compute; congruence. Qed.

(** C9 (counterexample). Numerator 1048575 over denominator 1 lies in the
    documented domains; with divider 4 the Multisynth fields are
    P1 = 134217600 and P2 = 134217472, beyond 18 and 20 bits, and with
    multiplier 15 the PLL field P1 is 134219008. *)
Lemma fields_overflow_at_denominator_one :
  0 <= 1048575 <= 1048575 /\ 1 <= 1 <= 1048575 /\
  setupMultisynth_fields oor_zero 4 1048575 1 = (134217600, 134217472, 1) /\
  setupPLL_fields oor_zero 15 1048575 1 = (134219008, 0, 1) /\
  ~ (134217600 < 2 ^ 18) /\ ~ (134217472 < 2 ^ 20) /\ ~ (134219008 < 2 ^ 18).
Proof. split_all; try (vm_compute; reflexivity); lia. Qed.

(** * Widths of the packed fields *)

Section Widths.
Variable oor : spec_float -> Z.

(** The three largest denominators, for which a remainder of
    [2^20 - 4] or more is possible: on every numerator with such a
    remainder, the code's floor is not the exact one or the value
    converted for P2 is below [2^20]. *)
Lemma top_denominators_table :
  forallb (fun d =>
    forallb (fun r =>
      forallb (fun K =>
                 let x := K * d + r in
                 negb (x mod 128 =? 0) || negb (code_floor (x / 128) d =? K) ||
                 (SFtruncZ (fractional_P2 (x / 128) d) <? 2 ^ 20))
              (zrange 0 128))
      (zrange 1048572 3))
    (zrange 1048573 3) = true.
Proof. vm_compute. reflexivity. Qed.

(** On a proper fraction on which the code's floor is the exact one, the
    value converted for P2 is below [2^20]. *)
Lemma fractional_P2_below (num denom : Z) :
  0 < num < denom -> denom <= 1048575 ->
  code_floor num denom = 128 * num / denom ->
  0 <= SFtruncZ (fractional_P2 num denom) < 2 ^ 20.
Proof.
  intros Hn Hd HF.
  pose proof (fractional_fields_proper oor 4 num denom ltac:(lia) Hn ltac:(lia)) as H.
  cbv zeta in H. destruct (fractional_fields oor 4 num denom) as [[P1 P2] P3].
  destruct H as (HK & _ & _ & HP2 & _).
  destruct (HP2 HF) as (H0 & Hnear & -> & _).
  pose proof (Z_div_mod_eq_full (128 * num) denom) as Hdm.
  pose proof (Z.mod_pos_bound (128 * num) denom ltac:(lia)) as Hmod.
  assert (HK' : 0 <= 128 * num / denom <= 127).
  { split; [apply Z.div_pos; lia|].
    apply Z.lt_succ_r. apply Z.div_lt_upper_bound; lia. }
  split; [exact H0|].
  set (r := (128 * num) mod denom) in *. set (K := 128 * num / denom) in *.
  destruct (Z_lt_le_dec r 1048572) as [Hr | Hr]; [lia|].
  (* the denominator is one of the three largest *)
  assert (Hin1 : In denom (zrange 1048573 3))
    by (apply in_zrange; change (Z.of_nat 3) with 3; lia).
  assert (Hin2 : In r (zrange 1048572 3))
    by (apply in_zrange; change (Z.of_nat 3) with 3; lia).
  assert (Hin3 : In K (zrange 0 128))
    by (apply in_zrange; change (Z.of_nat 128) with 128; lia).
  pose proof top_denominators_table as T. rewrite forallb_forall in T.
  specialize (T denom Hin1). rewrite forallb_forall in T.
  specialize (T r Hin2). rewrite forallb_forall in T.
  specialize (T K Hin3). cbv zeta in T.
  replace (K * denom + r) with (num * 128) in T by lia.
  rewrite Z.mod_mul, Z.div_mul in T by lia.
  rewrite HF, !Z.eqb_refl in T. cbn [negb orb] in T.
  apply Z.ltb_lt in T. destruct (HP2 HF) as (_ & _ & Ht & _). rewrite Ht in T. exact T.
Qed.

(** C9 (amended). For every input within the documented domains P3 is
    below [2^20]; in integer mode (numerator 0) P1 is below [2^18] and P2
    is 0; in fractional mode on a proper fraction (numerator below the
    denominator) P1 is below [2^18], and P2 is below [2^20] whenever the
    single-precision value handed to the conversion is not negative,
    which is the case when the floor taken from the single-precision
    quotient is the exact floor(128 * numerator / denominator).  This
    holds for the fields of [setupPLL] (multiplier 15..90) and of
    [setupMultisynth] (divider 4..2048). *)
Theorem packed_field_widths (a num denom : Z) :
  0 <= num <= 1048575 -> 1 <= denom <= 1048575 ->
  (15 <= a <= 90 ->
   let '(P1, P2, P3) := setupPLL_fields oor a num denom in
   0 <= P3 < 2 ^ 20 /\
   (num = 0 -> 0 <= P1 < 2 ^ 18 /\ P2 = 0) /\
   (0 < num < denom ->
    0 <= P1 < 2 ^ 18 /\
    (0 <= SFtruncZ (fractional_P2 num denom) -> 0 <= P2 < 2 ^ 20) /\
    (code_floor num denom = 128 * num / denom ->
     0 <= SFtruncZ (fractional_P2 num denom)))) /\
  (4 <= a <= 2048 ->
   let '(P1, P2, P3) := setupMultisynth_fields oor a num denom in
   0 <= P3 < 2 ^ 20 /\
   (num = 0 -> 0 <= P1 < 2 ^ 18 /\ P2 = 0) /\
   (0 < num < denom ->
    0 <= P1 < 2 ^ 18 /\
    (0 <= SFtruncZ (fractional_P2 num denom) -> 0 <= P2 < 2 ^ 20) /\
    (code_floor num denom = 128 * num / denom ->
     0 <= SFtruncZ (fractional_P2 num denom)))).
Proof.
  intros Hnum Hdenom.
  assert (Hfrac : forall a, 4 <= a <= 2048 -> 0 < num < denom ->
            let '(P1, P2, P3) := fractional_fields oor a num denom in
            0 <= P3 < 2 ^ 20 /\
            (num = 0 -> 0 <= P1 < 2 ^ 18 /\ P2 = 0) /\
            (0 < num < denom ->
             0 <= P1 < 2 ^ 18 /\
             (0 <= SFtruncZ (fractional_P2 num denom) -> 0 <= P2 < 2 ^ 20) /\
             (code_floor num denom = 128 * num / denom ->
              0 <= SFtruncZ (fractional_P2 num denom)))).
  { intros b Hb Hlt.
    pose proof (fractional_P2_below num denom Hlt ltac:(lia)) as Hbelow.
    pose proof (fractional_fields_proper oor b num denom Hb Hlt ltac:(lia)) as H.
    cbv zeta in H. destruct (fractional_fields oor b num denom) as [[P1 P2] P3].
    destruct H as (HK & -> & -> & HP2 & HP2').
    assert (HK' : 0 <= 128 * num / denom <= 127).
    { split; [apply Z.div_pos; lia|].
      apply Z.lt_succ_r. apply Z.div_lt_upper_bound; lia. }
    split; [lia|]. split; [lia|]. intros _. split; [lia|]. split.
    - intros Hpos.
      destruct (Z.eq_dec (code_floor num denom) (128 * num / denom)) as [HF | HF].
      + destruct (HP2 HF) as (_ & _ & Ht & _). rewrite <- Ht. apply Hbelow, HF.
      + destruct (HP2' ltac:(lia)) as [-> | Hneg]; lia.
    - intros HF. apply Hbelow, HF. }
  split; intros Ha.
  - unfold setupPLL_fields. destruct (Z.eqb_spec num 0) as [-> | Hnz].
    + unfold u32. rewrite Z.mod_small by lia.
      split; [lia|]. split; [intros _; lia | lia].
    + destruct (Z_lt_le_dec num denom) as [Hlt | Hge].
      * apply Hfrac; lia.
      * unfold fractional_fields. split; [lia|]. split; lia.
  - unfold setupMultisynth_fields. destruct (Z.eqb_spec num 0) as [-> | Hnz].
    + unfold u32. rewrite Z.mod_small by lia.
      split; [lia|]. split; [intros _; lia | lia].
    + destruct (Z.eqb_spec denom 1) as [-> | Hd1]; [split; [lia|]; split; lia|].
      destruct (Z_lt_le_dec num denom) as [Hlt | Hge].
      * apply Hfrac; lia.
      * unfold fractional_fields. split; [lia|]. split; lia.
Qed.
End Widths.

(** * Integer mode of the PLL stage *)

Section IntegerMode.
Context {Bus : Type} {device : I2CDevice Bus}.
Variable oor : spec_float -> Z.

Lemma fvco_floor_table :
  forallb (fun mult =>
             (fvco_floor oor SI5351_CRYSTAL_FREQ_25MHZ mult 0 1 =?
                SFfloorZ (F32.of_Z (SI5351_CRYSTAL_FREQ_25MHZ * mult))) &&
             ((42 <? mult) ||
              (fvco_floor oor SI5351_CRYSTAL_FREQ_25MHZ mult 0 1 =?
                 SI5351_CRYSTAL_FREQ_25MHZ * mult)))
          (zrange 15 76) = true.
Proof. vm_compute. reflexivity. Qed.

(** What [setupPLL] does in integer mode, for every multiplier: success,
    the three fields, the nine writes, the configured flag, and as stored
    frequency the product of crystal frequency and multiplier rounded to
    single precision, which is the product itself up to multiplier 42. *)
Lemma setupPLL_integer_mode (pll : si5351PLL_t) (mult : Z) (m : Machine Bus) :
  initialised (config m) = true ->
  crystalFreq (config m) = SI5351_CRYSTAL_FREQ_25MHZ ->
  15 <= mult <= 90 ->
  (forall bytes b, fst (dev_write bytes b) = true) ->
  let r := setupPLL oor pll mult 0 1 m in
  fst r = ERROR_NONE /\
  setupPLL_fields oor mult 0 1 = (128 * mult - 512, 0, 1) /\
  trace (snd r) =
    rev (map EvWrite (setupPLL_writes pll (128 * mult - 512) 0 1)) ++ trace m /\
  pll_configured pll (config (snd r)) = true /\
  pll_freq pll (config (snd r)) = SFfloorZ (F32.of_Z (SI5351_CRYSTAL_FREQ_25MHZ * mult)) /\
  (mult <= 42 -> pll_freq pll (config (snd r)) = SI5351_CRYSTAL_FREQ_25MHZ * mult).
Proof.
  intros Hinit Hxtal Hmult Hack. cbv zeta.
  rewrite setupPLL_success by (assumption || lia).
  assert (HP : setupPLL_fields oor mult 0 1 = (128 * mult - 512, 0, 1)).
  { unfold setupPLL_fields. cbn [Z.eqb]. unfold u32. rewrite Z.mod_small by lia.
    reflexivity. }
  rewrite HP. cbn [fst snd].
  pose proof fvco_floor_table as T. rewrite forallb_forall in T.
  specialize (T mult (in_zrange 15 76 mult ltac:(lia))).
  apply andb_prop in T as [T1 T2]. apply Z.eqb_eq in T1.
  split; [reflexivity|]. split; [reflexivity|].
  split; [unfold with_config, with_obj; cbn [trace]; apply trace_after_writes|].
  rewrite Hxtal.
  split; [destruct pll; reflexivity|].
  split; [destruct pll; exact T1|].
  intros H42. apply orb_prop in T2 as [T2 | T2]; [lia|].
  apply Z.eqb_eq in T2. destruct pll; exact T2.
Qed.
End IntegerMode.

(** * The theorems at concrete inputs *)

(** The first [setupPLL] after [begin], no PLL being configured yet, at
    the two boundary multipliers. *)
Example first_setupPLL_after_begin :
  pll_configured SI5351_PLL_A (config begun_machine) = false /\
  pll_configured SI5351_PLL_B (config begun_machine) = false /\
  fst (@setupPLL unit ack_device oor_zero SI5351_PLL_A 15 0 1 begun_machine) = ERROR_NONE /\
  fst (@setupPLL unit ack_device oor_zero SI5351_PLL_B 90 0 1 begun_machine) = ERROR_NONE /\
  plla_freq (config (snd (@setupPLL unit ack_device oor_zero SI5351_PLL_A 15 0 1
                            begun_machine))) = 375000000.
Proof. split_all; vm_compute; reflexivity. Qed.

Lemma boundary_values_witness :
  initialised (config ready_machine) = true /\
  (forall bytes b, fst (@dev_write unit ack_device bytes b) = true) /\
  pll_configured SI5351_PLL_A (config ready_machine) = true /\
  (@setupPLL unit ack_device oor_zero SI5351_PLL_A 14 0 1 ready_machine =
     (ERROR_INVALIDPARAMETER, ready_machine) /\
   @setupPLL unit ack_device oor_zero SI5351_PLL_A 91 0 1 ready_machine =
     (ERROR_INVALIDPARAMETER, ready_machine) /\
   fst (@setupPLL unit ack_device oor_zero SI5351_PLL_A 15 0 1 ready_machine) = ERROR_NONE /\
   plla_freq (config (snd (@setupPLL unit ack_device oor_zero SI5351_PLL_A 15 0 1
                             ready_machine))) = 375000000 /\
   fst (@setupPLL unit ack_device oor_zero SI5351_PLL_A 90 0 1 ready_machine) = ERROR_NONE) /\
  (@setupMultisynth unit ack_device oor_zero 0 SI5351_PLL_A 3 0 1 ready_machine =
     (ERROR_INVALIDPARAMETER, ready_machine) /\
   @setupMultisynth unit ack_device oor_zero 0 SI5351_PLL_A 2049 0 1 ready_machine =
     (ERROR_INVALIDPARAMETER, ready_machine) /\
   @setupMultisynth unit ack_device oor_zero 0 SI5351_PLL_A 4 0 1 ready_machine =
     (ERROR_NONE,
      {| obj := obj ready_machine; bus := tt;
         trace := EvWrite [16; 0x4F] :: EvWrite [42; 0; 1; 0; 0; 0; 0; 0; 0]
                    :: trace ready_machine |}) /\
   fst (@setupMultisynth unit ack_device oor_zero 0 SI5351_PLL_A 2048 0 1 ready_machine) =
     ERROR_NONE).
Proof.
  split; [reflexivity|]. split; [intros bytes b; reflexivity|]. split; [reflexivity|].
  pose proof (@boundary_values unit ack_device oor_zero 0 SI5351_PLL_A 0 1 ready_machine
                eq_refl ltac:(lia) ltac:(lia) ltac:(lia) (fun bytes b => eq_refl)) as H.
  cbv zeta in H. destruct H as ((H1 & H2 & H3 & H4) & (H5 & H6 & H7)).
  destruct (H7 eq_refl) as [H8 H9].
  split.
  - split; [exact H1|]. split; [exact H2|].
    split; [rewrite H3; reflexivity|]. split; [rewrite H3; reflexivity|].
    rewrite H4. reflexivity.
  - split; [exact H5|]. split; [exact H6|].
    split; [rewrite H8; reflexivity|]. rewrite H9. reflexivity.
Defined.

Lemma setupMultisynth_needs_configured_pll_witness :
  initialised (config begun_machine) = true /\
  pll_configured SI5351_PLL_B (config begun_machine) = false /\
  @setupMultisynth unit ack_device oor_zero 0 SI5351_PLL_B 8 0 1 begun_machine =
    (ERROR_INVALIDPARAMETER, begun_machine).
Proof.
  split; [reflexivity|]. split; [reflexivity|].
  apply (@setupMultisynth_needs_configured_pll unit ack_device oor_zero
           0 SI5351_PLL_B 8 0 1 begun_machine); reflexivity.
Defined.


Lemma multisynth_burst_keeps_rdiv_witness :
  initialised (config ready_machine) = true /\
  length (lastRdivValue (obj ready_machine)) = 3%nat /\
  pll_configured SI5351_PLL_A (config ready_machine) = true /\
  get_lastRdivValue 0 (obj (snd (@setupRdiv unit ack_device 0 1 ready_machine))) = 1 * 16 /\
  Z.shiftr (burst_byte 3 (multisynth_sendBuffer 0 (1 * 16) 512 0 1)) 4 = 1.
Proof.
  split; [reflexivity|]. split; [reflexivity|]. split; [reflexivity|].
  pose proof (@multisynth_burst_keeps_rdiv unit ack_device oor_zero 0 1 SI5351_PLL_A
                8 0 1 ready_machine eq_refl eq_refl
                ltac:(lia) ltac:(lia) ltac:(lia) ltac:(lia) ltac:(lia) eq_refl) as H.
  cbv zeta in H.
  change (setupMultisynth_fields oor_zero 8 0 1) with (512, 0, 1) in H.
  destruct H as (H1 & _ & _ & _ & H2 & _).
  split; [exact H1 | exact H2].
Defined.

Lemma packed_field_widths_witness :
  0 <= 1 <= 1048575 /\ 1 <= 3 <= 1048575 /\ 15 <= 36 <= 90 /\ 0 < 1 < 3 /\
  0 <= SFtruncZ (fractional_P2 1 3) /\
  (let '(P1, P2, P3) := setupPLL_fields oor_zero 36 1 3 in
   0 <= P3 < 2 ^ 20 /\ 0 <= P1 < 2 ^ 18 /\ 0 <= P2 < 2 ^ 20).
Proof.
  split; [lia|]. split; [lia|]. split; [lia|]. split; [lia|].
  split; [vm_compute; discriminate|].
  pose proof (proj1 (packed_field_widths oor_zero 36 1 3 ltac:(lia) ltac:(lia))
                ltac:(lia)) as H.
  destruct (setupPLL_fields oor_zero 36 1 3) as [[P1 P2] P3].
  destruct H as (H3 & _ & Hfrac).
  destruct (Hfrac ltac:(lia)) as (H1 & H2 & _).
  split; [exact H3|]. split; [exact H1|].
  apply H2. vm_compute. discriminate.
Defined.

(** * Further laws of statements *)

Section MoreStmtLaws.
Context {Bus : Type} {device : I2CDevice Bus}.

Lemma keeps_obj_bind {A B : Type} (s : Stmt Bus A) (k : A -> Stmt Bus B) :
  keeps_obj s -> (forall a, keeps_obj (k a)) -> keeps_obj (bind s k).
Proof.
  intros Hs Hk m. unfold bind. specialize (Hs m).
  destruct (s m) as [[e | a] m']; cbn [fst snd] in *; [exact Hs|].
  rewrite (Hk a m'). exact Hs.
Qed.

Lemma keeps_obj_Return {A : Type} (e : err_t) : keeps_obj (@Return Bus A e).
Proof. intros m. reflexivity. Qed.

Lemma keeps_obj_ret {A : Type} (a : A) : keeps_obj (@ret Bus A a).
Proof. intros m. reflexivity. Qed.

Lemma keeps_obj_gets {A : Type} (f : Machine Bus -> A) : keeps_obj (gets f).
Proof. intros m. reflexivity. Qed.

Lemma keeps_obj_body (s : Stmt Bus unit) (m : Machine Bus) :
  keeps_obj s -> obj (snd (body s m)) = obj m.
Proof.
  intros Hs. unfold body. specialize (Hs m).
  destruct (s m) as [[e | []] m']; exact Hs.
Qed.

Lemma keeps_obj_write_all (ws : list (list Z)) : keeps_obj (write_all ws).
Proof.
  induction ws as [|w ws IH]; cbn [write_all].
  - apply keeps_obj_ret.
  - apply keeps_obj_bind; [apply keeps_obj_write | intros _; exact IH].
Qed.

Lemma write_table_write_all (rows : list (Z * Z)) (m : Machine Bus) :
  write_table rows m = write_all (table_writes rows) m.
Proof.
  revert m. induction rows as [|[reg value] rows IH]; intros m; [reflexivity|].
  cbn [write_table table_writes map write_all fst snd]. unfold write8.
  rewrite !bind_write. destruct (fst (dev_write _ _)); [apply IH | reflexivity].
Qed.

Lemma bind_ext {A B : Type} (s s' : Stmt Bus A) (k : A -> Stmt Bus B) (m : Machine Bus) :
  s m = s' m -> bind s k m = bind s' k m.
Proof. intros H. unfold bind. rewrite H. reflexivity. Qed.

Lemma bind_assoc {A B C : Type} (s : Stmt Bus A) (f : A -> Stmt Bus B)
    (g : B -> Stmt Bus C) (m : Machine Bus) :
  bind (bind s f) g m = bind s (fun a => bind (f a) g) m.
Proof. unfold bind. destruct (s m) as [[e | a] m']; reflexivity. Qed.

Lemma bind_write_all_cons {B : Type} (w : list Z) (ws : list (list Z))
    (k : unit -> Stmt Bus B) (m : Machine Bus) :
  bind (write_all (w :: ws)) k m =
    bind (ASSERT_STATUS (i2c_write w)) (fun _ => bind (write_all ws) k) m.
Proof.
  cbn [write_all]. apply bind_assoc.
Qed.

Lemma bind_write_all_nil {B : Type} (k : unit -> Stmt Bus B) (m : Machine Bus) :
  bind (write_all []) k m = k tt m.
Proof. reflexivity. Qed.

(** What a sequence of checked writes does: the writes go out in order
    up to and including the first one that fails, which ends the
    function with [ERROR_I2C_TRANSACTION]; the driver object is not
    touched. *)
Lemma write_all_spec (ws : list (list Z)) (m : Machine Bus) :
  exists k : nat,
    (k <= length ws)%nat /\
    snd (write_all ws m) = after_writes (firstn k ws) m /\
    ((fst (write_all ws m) = inr tt /\ k = length ws) \/
     (fst (write_all ws m) = inl ERROR_I2C_TRANSACTION /\ (0 < k)%nat)).
Proof.
  revert m. induction ws as [|w ws IH]; intros m.
  - exists 0%nat. repeat split; auto.
  - cbn [write_all]. rewrite bind_write.
    destruct (fst (dev_write w (bus m))) eqn:Hw.
    + destruct (IH (after_write w m)) as (k & Hk & Hm & Hres).
      exists (S k). cbn [length firstn]. split; [lia|]. split; [exact Hm|].
      destruct Hres as [[H1 H2] | [H1 H2]]; [left | right]; split; auto; lia.
    + exists 1%nat. cbn [length firstn]. split; [lia|]. split; [reflexivity|].
      right. split; [reflexivity | lia].
Qed.

(** The same in terms of the first write the device refuses. *)
Lemma write_all_first_refused (ws : list (list Z)) (m : Machine Bus) :
  write_all ws m =
    match first_refused ws (bus m) with
    | None => (inr tt, after_writes ws m)
    | Some k => (inl ERROR_I2C_TRANSACTION, after_writes (firstn (S k) ws) m)
    end.
Proof.
  revert m. induction ws as [|w ws IH]; intros m; [reflexivity|].
  cbn [write_all first_refused]. rewrite bind_write.
  destruct (fst (dev_write w (bus m))) eqn:Hw; [|reflexivity].
  rewrite IH. cbn [after_write bus].
  destruct (first_refused ws (snd (dev_write w (bus m)))); reflexivity.
Qed.

(** What [first_refused] finds: the device refuses the write at that
    position and has acknowledged every write before it. *)
Lemma first_refused_spec (ws : list (list Z)) (m : Machine Bus) :
  match first_refused ws (bus m) with
  | None =>
      forall i, (i < length ws)%nat ->
        fst (dev_write (nth i ws []) (bus (after_writes (firstn i ws) m))) = true
  | Some k =>
      (k < length ws)%nat /\
      fst (dev_write (nth k ws []) (bus (after_writes (firstn k ws) m))) = false /\
      forall i, (i < k)%nat ->
        fst (dev_write (nth i ws []) (bus (after_writes (firstn i ws) m))) = true
  end.
Proof.
  revert m. induction ws as [|w ws IH]; intros m; cbn [first_refused].
  - intros i Hi. cbn in Hi. lia.
  - destruct (fst (dev_write w (bus m))) eqn:Hw.
    + specialize (IH (after_write w m)). cbn [after_write bus] in IH.
      destruct (first_refused ws (snd (dev_write w (bus m)))) as [k|]; cbn [option_map].
      * destruct IH as (Hk & Hr & Ha). split; [cbn [length]; lia|].
        split; [exact Hr|]. intros [|i] Hi; [exact Hw | apply Ha; lia].
      * intros [|i] Hi; [exact Hw | apply IH; cbn [length] in Hi; lia].
    + split; [cbn [length]; lia|]. split; [exact Hw|]. intros i Hi. lia.
Qed.

Lemma bind_write_all_result {B : Type} (ws : list (list Z)) (k : unit -> Stmt Bus B)
    (m : Machine Bus) :
  bind (write_all ws) k m =
    match fst (write_all ws m) with
    | inl e => (inl e, snd (write_all ws m))
    | inr _ => k tt (snd (write_all ws m))
    end.
Proof. unfold bind. destruct (write_all ws m) as [[e | []] m']; reflexivity. Qed.
End MoreStmtLaws.

(** * The functions in terms of their write sequences *)

Section WriteSequences.
Context {Bus : Type} {device : I2CDevice Bus}.
Variable oor : spec_float -> Z.

Lemma bind_ext_k {A B : Type} (s : Stmt Bus A) (k k' : A -> Stmt Bus B)
    (m : Machine Bus) :
  (forall a m', k a m' = k' a m') -> bind s k m = bind s k' m.
Proof. intros H. unfold bind. destruct (s m) as [[e | a] m']; [reflexivity | apply H]. Qed.

Lemma bind_write_all_app {B : Type} (ws1 ws2 : list (list Z)) (k : unit -> Stmt Bus B)
    (m : Machine Bus) :
  bind (write_all (ws1 ++ ws2)) k m =
    bind (write_all ws1) (fun _ => bind (write_all ws2) k) m.
Proof.
  revert m. induction ws1 as [|w ws1 IH]; intros m; [reflexivity|].
  cbn [app]. rewrite !bind_write_all_cons. apply bind_ext_k. intros _ m'. apply IH.
Qed.

Lemma body_write_all (ws : list (list Z)) (last : Machine Bus -> Machine Bus)
    (m : Machine Bus) :
  body (bind (write_all ws) (fun _ => bind (modify last) (fun _ => Return ERROR_NONE))) m =
    finish ws last m.
Proof.
  unfold body, finish. rewrite bind_write_all_result.
  destruct (write_all ws m) as [[e | []] m']; reflexivity.
Qed.

Lemma body_ext (s s' : Stmt Bus unit) (m : Machine Bus) :
  s m = s' m -> body s m = body s' m.
Proof. intros H. unfold body. rewrite H. reflexivity. Qed.

Ltac pass H := rewrite bind_ASSERT; cbv beta; rewrite H; cbv iota.

Ltac peel_writes :=
  repeat (rewrite (bind_write_all_cons _ _ _ _); apply bind_ext_k; intros _ ?).

Lemma setupPLL_eq (pll : si5351PLL_t) (mult num denom : Z) (m : Machine Bus) :
  setupPLL oor pll mult num denom m =
    let '(P1, P2, P3) := setupPLL_fields oor mult num denom in
    if initialised (config m) then
      if setupPLL_args_ok mult num denom then
        finish (setupPLL_writes pll P1 P2 P3)
          (fun m' => with_config
                       (set_pll pll (fvco_floor oor (crystalFreq (config m')) mult num denom)
                                (config m')) m') m
      else (ERROR_INVALIDPARAMETER, m)
    else (ERROR_DEVICENOTINITIALISED, m).
Proof.
  unfold setupPLL_args_ok.
  destruct (setupPLL_fields oor mult num denom) as [[P1 P2] P3] eqn:HP.
  destruct (initialised (config m)) eqn:Hinit;
    [| unfold setupPLL, body; pass Hinit; reflexivity].
  destruct ((14 <? mult) && (mult <? 91)) eqn:H1;
    [| unfold setupPLL, body; pass Hinit; pass H1; reflexivity].
  destruct (0 <? denom) eqn:H2;
    [| unfold setupPLL, body; pass Hinit; pass H1; pass H2; reflexivity].
  destruct (num <=? 0xFFFFF) eqn:H3;
    [| unfold setupPLL, body; pass Hinit; pass H1; pass H2; pass H3; reflexivity].
  destruct (denom <=? 0xFFFFF) eqn:H4;
    [| unfold setupPLL, body; pass Hinit; pass H1; pass H2; pass H3; pass H4;
       reflexivity].
  cbn [andb]. rewrite <- body_write_all. unfold setupPLL. apply body_ext.
  pass Hinit; pass H1; pass H2; pass H3; pass H4. rewrite HP.
  unfold setupPLL_writes, write8.
  symmetry. peel_writes. destruct pll; reflexivity.
Qed.
End WriteSequences.

(** * Bytes and fields *)

Section Bytes.
Lemma land_shifted_ones (P k w : Z) :
  0 <= k -> 0 <= w ->
  Z.land P (Z.shiftl (Z.ones w) k) = Z.shiftl (Z.land (Z.shiftr P k) (Z.ones w)) k.
Proof.
  intros Hk Hw. apply Z.bits_inj'. intros n Hn. rewrite Z.land_spec.
  destruct (Z_lt_le_dec n k) as [Hlt | Hge].
  - rewrite !Z.shiftl_spec_low by lia. apply andb_false_r.
  - rewrite !Z.shiftl_spec by lia. rewrite Z.land_spec, Z.shiftr_spec by lia.
    replace (n - k + k) with n by lia. reflexivity.
Qed.

(** The field of [w] bits at position [k], moved down to position [s]. *)
Lemma field_byte (P k w s : Z) :
  0 <= s <= k -> 0 <= w ->
  Z.shiftr (Z.land P (Z.shiftl (Z.ones w) k)) s = (P / 2 ^ k) mod 2 ^ w * 2 ^ (k - s).
Proof.
  intros Hs Hw. rewrite land_shifted_ones by lia.
  rewrite Z.shiftr_shiftl_l by lia. rewrite Z.shiftl_mul_pow2 by lia.
  rewrite Z.land_ones by lia. rewrite Z.shiftr_div_pow2 by lia. reflexivity.
Qed.

Lemma lor_disjoint (h l n : Z) :
  0 <= n -> 0 <= l < 2 ^ n -> Z.lor (h * 2 ^ n) l = h * 2 ^ n + l.
Proof.
  intros Hn Hl. rewrite <- Z.shiftl_mul_pow2 by lia.
  assert (Hland : Z.land (Z.shiftl h n) l = 0).
  { apply Z.bits_inj'. intros i Hi. rewrite Z.land_spec, Z.bits_0.
    destruct (Z_lt_le_dec i n) as [Hlt | Hge].
    - rewrite Z.shiftl_spec_low by lia. reflexivity.
    - rewrite <- (Z.mod_small l (2 ^ n)) by lia.
      rewrite Z.mod_pow2_bits_high by lia. apply andb_false_r. }
  rewrite <- Z.lxor_lor by exact Hland. symmetry. apply Z.add_nocarry_lxor. exact Hland.
Qed.

(** The eight parameter bytes, as quotients and remainders of the
    fields. *)
Lemma parameter_bytes (P1 P2 P3 : Z) :
  u8 (Z.shiftr (Z.land P3 0xFF00) 8) = (P3 / 256) mod 256 /\
  u8 (Z.land P3 0xFF) = P3 mod 256 /\
  u8 (Z.shiftr (Z.land P1 0x30000) 16) = (P1 / 65536) mod 4 /\
  u8 (Z.shiftr (Z.land P1 0xFF00) 8) = (P1 / 256) mod 256 /\
  u8 (Z.land P1 0xFF) = P1 mod 256 /\
  u8 (Z.lor (Z.shiftr (Z.land P3 0xF0000) 12) (Z.shiftr (Z.land P2 0xF0000) 16)) =
    (P3 / 65536) mod 16 * 16 + (P2 / 65536) mod 16 /\
  u8 (Z.shiftr (Z.land P2 0xFF00) 8) = (P2 / 256) mod 256 /\
  u8 (Z.land P2 0xFF) = P2 mod 256.
Proof.
  assert (Hmid : forall P, u8 (Z.shiftr (Z.land P 0xFF00) 8) = (P / 256) mod 256).
  { intros P. change 0xFF00 with (Z.shiftl (Z.ones 8) 8).
    rewrite field_byte by lia. change (2 ^ (8 - 8)) with 1. rewrite Z.mul_1_r.
    unfold u8. change (2 ^ 8) with 256. apply Z.mod_mod. lia. }
  assert (Hlow : forall P, u8 (Z.land P 0xFF) = P mod 256).
  { intros P. change 0xFF with (Z.ones 8). rewrite Z.land_ones by lia.
    unfold u8. apply Z.mod_mod. lia. }
  assert (Hhi : forall P, Z.shiftr (Z.land P 0xF0000) 16 = (P / 65536) mod 16).
  { intros P. change 0xF0000 with (Z.shiftl (Z.ones 4) 16).
    rewrite field_byte by lia. change (2 ^ (16 - 16)) with 1. rewrite Z.mul_1_r.
    reflexivity. }
  repeat match goal with |- _ /\ _ => split end; auto.
  - change 0x30000 with (Z.shiftl (Z.ones 2) 16).
    rewrite field_byte by lia. change (2 ^ (16 - 16)) with 1. rewrite Z.mul_1_r.
    unfold u8. change (2 ^ 16) with 65536. change (2 ^ 2) with 4.
    pose proof (Z.mod_pos_bound (P1 / 65536) 4 ltac:(lia)). apply Z.mod_small. lia.
  - rewrite Hhi. change 0xF0000 with (Z.shiftl (Z.ones 4) 16).
    rewrite field_byte by lia. change (2 ^ (16 - 12)) with (2 ^ 4).
    change (2 ^ 16) with 65536.
    pose proof (Z.mod_pos_bound (P3 / 65536) 16 ltac:(lia)).
    pose proof (Z.mod_pos_bound (P2 / 65536) 16 ltac:(lia)).
    change (2 ^ 4) with 16 in *.
    rewrite (lor_disjoint _ _ 4) by (change (2 ^ 4) with 16; lia).
    change (2 ^ 4) with 16. unfold u8. apply Z.mod_small. lia.
Qed.

Lemma fields_from_bytes (P w : Z) :
  0 <= P < 65536 * w -> 0 < w ->
  (P / 65536) mod w * 65536 + (P / 256) mod 256 * 256 + P mod 256 = P.
Proof.
  intros HP Hw.
  assert (P / 65536 < w) by (apply Z.div_lt_upper_bound; lia).
  assert (0 <= P / 65536) by (apply Z.div_pos; lia).
  rewrite (Z.mod_small (P / 65536) w) by lia.
  pose proof (Z_div_mod_eq_full P 256).
  pose proof (Z_div_mod_eq_full (P / 256) 256).
  rewrite Z.div_div in * by lia. change (256 * 256) with 65536 in *. lia.
Qed.

(** What the masks keep of a field: its low [16 + log2 w] bits. *)
Lemma truncated_field (P w : Z) :
  0 < w ->
  (P / 65536) mod w * 65536 + (P / 256) mod 256 * 256 + P mod 256 = P mod (65536 * w).
Proof.
  intros Hw.
  pose proof (Z.mod_pos_bound (P / 65536) w Hw).
  pose proof (Z.mod_pos_bound (P / 256) 256 ltac:(lia)).
  pose proof (Z.mod_pos_bound P 256 ltac:(lia)).
  pose proof (Z_div_mod_eq_full P 256).
  pose proof (Z_div_mod_eq_full (P / 256) 256) as H256.
  pose proof (Z_div_mod_eq_full (P / 65536) w) as Hw'.
  rewrite Z.div_div in H256 by lia. change (256 * 256) with 65536 in H256.
  apply (Z.mod_unique P (65536 * w) (P / 65536 / w)); [lia|]. lia.
Qed.
End Bytes.

(** * Further properties of the PLL stage *)

Section MorePLL.
Context {Bus : Type} {device : I2CDevice Bus}.
Variable oor : spec_float -> Z.

Lemma finish_cases (ws : list (list Z)) (last : Machine Bus -> Machine Bus)
    (m : Machine Bus) :
  exists k : nat,
    (k <= length ws)%nat /\
    ((finish ws last m = (ERROR_NONE, last (after_writes ws m)) /\ k = length ws) \/
     (finish ws last m = (ERROR_I2C_TRANSACTION, after_writes (firstn k ws) m) /\
      (0 < k)%nat)).
Proof.
  destruct (write_all_spec ws m) as (k & Hk & Hm & [[Hr Hl] | [Hr Hl]]);
    exists k; (split; [exact Hk|]); unfold finish; rewrite Hr, Hm.
  - left. subst k. rewrite firstn_all. auto.
  - right. auto.
Qed.

(** How a function that performs a sequence of checked writes ends: at
    the first write the device refuses, with [ERROR_I2C_TRANSACTION] and
    nothing issued after it, or, all writes acknowledged, with its final
    step and [ERROR_NONE]. *)
Lemma finish_first_refused (ws : list (list Z)) (last : Machine Bus -> Machine Bus)
    (m : Machine Bus) :
  finish ws last m =
    match first_refused ws (bus m) with
    | None => (ERROR_NONE, last (after_writes ws m))
    | Some k => (ERROR_I2C_TRANSACTION, after_writes (firstn (S k) ws) m)
    end.
Proof.
  unfold finish. rewrite write_all_first_refused.
  destruct (first_refused ws (bus m)); reflexivity.
Qed.

Lemma first_refused_bound (ws : list (list Z)) (b : Bus) (k : nat) :
  first_refused ws b = Some k -> (k < length ws)%nat.
Proof.
  revert b k. induction ws as [|w ws IH]; intros b k; cbn [first_refused]; [discriminate|].
  destruct (fst (dev_write w b)).
  - destruct (first_refused ws (snd (dev_write w b))) as [j|] eqn:E; cbn [option_map];
      [|discriminate].
    intros [= <-]. specialize (IH _ _ E). cbn [length]. lia.
  - intros [= <-]. cbn [length]. lia.
Qed.

(** C10. Whenever [setupPLL] returns an error, be it a failed
    precondition or a bus write that the device refuses, the driver
    object, and with it the configured flag and the stored frequency of
    both PLLs, is as it was before the call.  The call succeeds exactly
    when the instance is initialised, the arguments are valid and the
    device acknowledges each of the nine writes (the eight parameter
    writes and the PLL reset); a refusal of the write at position [k]
    ends the call with [ERROR_I2C_TRANSACTION] after the writes up to
    that one, the stored state untouched.  Only on success are the flag
    and the frequency of the selected PLL stored, all nine writes being
    in the log by then. *)
Theorem setupPLL_error_keeps_state (pll : si5351PLL_t) (mult num denom : Z)
    (m : Machine Bus) :
  let r := setupPLL oor pll mult num denom m in
  let '(P1, P2, P3) := setupPLL_fields oor mult num denom in
  let ws := setupPLL_writes pll P1 P2 P3 in
  (fst r <> ERROR_NONE -> obj (snd r) = obj m) /\
  (fst r = ERROR_NONE <->
     initialised (config m) = true /\ setupPLL_args_ok mult num denom = true /\
     first_refused ws (bus m) = None) /\
  (initialised (config m) = true -> setupPLL_args_ok mult num denom = true ->
   forall k, first_refused ws (bus m) = Some k ->
     r = (ERROR_I2C_TRANSACTION, after_writes (firstn (S k) ws) m)) /\
  (fst r = ERROR_NONE ->
   snd r =
     with_config (set_pll pll (fvco_floor oor (crystalFreq (config m)) mult num denom)
                          (config m)) (after_writes ws m) /\
   trace (snd r) = rev (map EvWrite ws) ++ trace m).
Proof.
  cbv zeta. rewrite setupPLL_eq.
  destruct (setupPLL_fields oor mult num denom) as [[P1 P2] P3].
  destruct (initialised (config m));
    [| cbn [fst snd]; split; [reflexivity|];
       split; [split; [discriminate | intros (H & _); discriminate]|];
       split; [discriminate | discriminate]].
  destruct (setupPLL_args_ok mult num denom);
    [| cbn [fst snd]; split; [reflexivity|];
       split; [split; [discriminate | intros (_ & H & _); discriminate]|];
       split; [discriminate | discriminate]].
  rewrite finish_first_refused.
  destruct (first_refused (setupPLL_writes pll P1 P2 P3) (bus m)) as [k|] eqn:E;
    cbn [fst snd].
  - split; [intros _; apply obj_after_writes|].
    split; [split; [discriminate | intros (_ & _ & H); discriminate]|].
    split; [intros _ _ k' [= <-]; reflexivity | discriminate].
  - split; [congruence|]. split; [split; auto|].
    split; [intros _ _ k'; discriminate|]. intros _.
    assert (Hc : config (after_writes (setupPLL_writes pll P1 P2 P3) m) = config m)
      by (unfold config; rewrite obj_after_writes; reflexivity).
    rewrite Hc. split; [reflexivity|].
    unfold with_config, with_obj. cbn [trace]. apply trace_after_writes.
Qed.

(** X1. [setupPLL] validates before it touches the bus: it returns
    [ERROR_DEVICENOTINITIALISED] exactly when the instance is not
    initialised and [ERROR_INVALIDPARAMETER] exactly when it is
    initialised and an argument is out of range (multiplier outside
    15..90, denominator 0 or above 0xFFFFF, numerator above 0xFFFFF);
    in both cases the machine is untouched, no transaction having been
    issued.  Otherwise it returns [ERROR_NONE] or
    [ERROR_I2C_TRANSACTION]. *)
Theorem setupPLL_validates_before_bus (pll : si5351PLL_t) (mult num denom : Z)
    (m : Machine Bus) :
  let r := setupPLL oor pll mult num denom m in
  (fst r = ERROR_DEVICENOTINITIALISED <-> initialised (config m) = false) /\
  (fst r = ERROR_INVALIDPARAMETER <->
     initialised (config m) = true /\ setupPLL_args_ok mult num denom = false) /\
  (fst r = ERROR_DEVICENOTINITIALISED \/ fst r = ERROR_INVALIDPARAMETER -> snd r = m) /\
  (initialised (config m) = true -> setupPLL_args_ok mult num denom = true ->
   fst r = ERROR_NONE \/ fst r = ERROR_I2C_TRANSACTION).
Proof.
  cbv zeta. rewrite setupPLL_eq.
  destruct (setupPLL_fields oor mult num denom) as [[P1 P2] P3].
  destruct (initialised (config m)); [|cbn; intuition congruence].
  destruct (setupPLL_args_ok mult num denom); [|cbn; intuition congruence].
  match goal with |- context [finish ?ws ?l m] =>
    destruct (finish_cases ws l m) as (k & _ & [[-> _] | [-> _]]) end;
    cbn [fst snd]; intuition congruence.
Qed.

(** X2. Once its validation has passed, [setupPLL] issues its register
    writes in program order and stops at the first one the device
    refuses.  If the write at position [k] (from 0) is the first refused,
    the call returns [ERROR_I2C_TRANSACTION] and has issued the writes at
    positions 0 to [k] and nothing else; if none is refused, it has
    issued all nine and returns [ERROR_NONE].  So when the ninth write is
    refused all nine are in the log and the call fails.  The registers
    addressed are the eight of the PLL's own window (26..33 for PLL A,
    34..41 for PLL B) followed by the reset register 177. *)
Theorem setupPLL_writes_in_order (pll : si5351PLL_t) (mult num denom : Z)
    (m : Machine Bus) :
  initialised (config m) = true -> setupPLL_args_ok mult num denom = true ->
  let r := setupPLL oor pll mult num denom m in
  let '(P1, P2, P3) := setupPLL_fields oor mult num denom in
  let ws := setupPLL_writes pll P1 P2 P3 in
  length ws = 9%nat /\
  write_registers ws =
    map (fun i => pll_baseaddr pll + i) [0; 1; 2; 3; 4; 5; 6; 7] ++ [177] /\
  match first_refused ws (bus m) with
  | None =>
      fst r = ERROR_NONE /\ trace (snd r) = rev (map EvWrite ws) ++ trace m
  | Some k =>
      (k < 9)%nat /\
      r = (ERROR_I2C_TRANSACTION, after_writes (firstn (S k) ws) m) /\
      trace (snd r) = rev (map EvWrite (firstn (S k) ws)) ++ trace m
  end.
Proof.
  intros Hinit Hargs. cbv zeta. rewrite setupPLL_eq, Hinit, Hargs.
  destruct (setupPLL_fields oor mult num denom) as [[P1 P2] P3].
  split; [reflexivity|]. split; [destruct pll; reflexivity|].
  rewrite finish_first_refused.
  destruct (first_refused (setupPLL_writes pll P1 P2 P3) (bus m)) as [k|] eqn:E;
    cbn [fst snd].
  - split; [exact (first_refused_bound _ _ _ E)|]. split; [reflexivity|].
    apply trace_after_writes.
  - split; [reflexivity|].
    unfold with_config, with_obj. cbn [trace]. apply trace_after_writes.
Qed.

(** X3. [setupPLL] changes nothing of the driver object but the
    configured flag and the frequency of the PLL it is called for: the
    initialised flag, the crystal settings, the other PLL's flag and
    frequency and the stored R-divider fields are as before, whatever the
    outcome; on success the selected PLL is marked configured. *)
Theorem setupPLL_frame (pll : si5351PLL_t) (mult num denom : Z) (m : Machine Bus) :
  let r := setupPLL oor pll mult num denom m in
  let c := config m in
  let c' := config (snd r) in
  initialised c' = initialised c /\
  crystalFreq c' = crystalFreq c /\ crystalLoad c' = crystalLoad c /\
  crystalPPM c' = crystalPPM c /\
  lastRdivValue (obj (snd r)) = lastRdivValue (obj m) /\
  match pll with
  | SI5351_PLL_A =>
      pllb_configured c' = pllb_configured c /\ pllb_freq c' = pllb_freq c
  | SI5351_PLL_B =>
      plla_configured c' = plla_configured c /\ plla_freq c' = plla_freq c
  end /\
  (fst r = ERROR_NONE ->
   pll_configured pll c' = true /\
   pll_freq pll c' = fvco_floor oor (crystalFreq c) mult num denom).
Proof.
  cbv zeta. rewrite setupPLL_eq.
  destruct (setupPLL_fields oor mult num denom) as [[P1 P2] P3].
  destruct (initialised (config m)) eqn:Hinit;
    [| cbn [fst snd]; destruct pll; repeat split; auto; discriminate].
  destruct (setupPLL_args_ok mult num denom);
    [| cbn [fst snd]; destruct pll; repeat split; auto; discriminate].
  match goal with |- context [finish ?ws ?l m] =>
    destruct (finish_cases ws l m) as (k & Hk & [[-> Hl] | [-> Hl]]) end;
    cbn [fst snd]; unfold config, with_config, with_obj; cbn [obj];
    rewrite ?obj_after_writes.
  - destruct pll; repeat split; try reflexivity; exact Hinit.
  - destruct pll; repeat split; try reflexivity; try exact Hinit; discriminate.
Qed.

(** X4. What the eight parameter bytes of [setupPLL] carry.  Read back by
    the register layout they give the low 18 bits of P1 and the low 20
    bits of P2 and of P3, whatever the three words are: higher bits are
    masked away without notice.  So the layout loses nothing of fields
    that fit their widths. *)
Theorem setupPLL_bytes_round_trip (pll : si5351PLL_t) (P1 P2 P3 : Z) :
  let bytes := firstn 8 (write_values (setupPLL_writes pll P1 P2 P3)) in
  decode_fields bytes = (P1 mod 2 ^ 18, P2 mod 2 ^ 20, P3 mod 2 ^ 20) /\
  (0 <= P1 < 2 ^ 18 -> 0 <= P2 < 2 ^ 20 -> 0 <= P3 < 2 ^ 20 ->
   decode_fields bytes = (P1, P2, P3)).
Proof.
  cbv zeta.
  assert (E : decode_fields (firstn 8 (write_values (setupPLL_writes pll P1 P2 P3))) =
              (P1 mod 2 ^ 18, P2 mod 2 ^ 20, P3 mod 2 ^ 20)).
  { destruct (parameter_bytes P1 P2 P3) as (E0 & E1 & E2 & E3 & E4 & E5 & E6 & E7).
    unfold setupPLL_writes, write_values. cbn [map nth firstn decode_fields].
    rewrite E0, E1, E2, E3, E4, E5, E6, E7.
    pose proof (Z.mod_pos_bound (P3 / 65536) 16 ltac:(lia)).
    pose proof (Z.mod_pos_bound (P2 / 65536) 16 ltac:(lia)).
    rewrite Z.mod_mod by lia.
    set (h3 := (P3 / 65536) mod 16) in *. set (h2 := (P2 / 65536) mod 16) in *.
    rewrite <- (Z.mod_unique (h3 * 16 + h2) 16 h3 h2) by lia.
    rewrite <- (Z.div_unique (h3 * 16 + h2) 16 h3 h2) by lia.
    subst h3 h2.
    rewrite (truncated_field P1 4), (truncated_field P2 16), (truncated_field P3 16)
      by lia.
    reflexivity. }
  split; [exact E|]. intros H1 H2 H3. rewrite E, !Z.mod_small by assumption.
  reflexivity.
Qed.
End MorePLL.

(** * The other functions in terms of their write sequences *)

Section MoreEquations.
Context {Bus : Type} {device : I2CDevice Bus}.
Variable oor : spec_float -> Z.

Lemma bind_ext_obj {A B : Type} (s : Stmt Bus A) (k k' : A -> Stmt Bus B)
    (m : Machine Bus) :
  keeps_obj s -> (forall a m', obj m' = obj m -> k a m' = k' a m') ->
  bind s k m = bind s k' m.
Proof.
  intros Hs H. unfold bind. specialize (Hs m).
  destruct (s m) as [[e | a] m']; [reflexivity | apply H; exact Hs].
Qed.

Lemma body_write_all_then (ws : list (list Z)) (k : Stmt Bus unit)
    (last : Machine Bus -> Machine Bus) (m : Machine Bus) :
  (forall m', k m' = (inl ERROR_NONE, last m')) ->
  body (bind (write_all ws) (fun _ => k)) m = finish ws last m.
Proof.
  intros Hk. unfold body, finish. rewrite bind_write_all_result.
  destruct (write_all ws m) as [[e | []] m']; cbn [fst snd]; [reflexivity|].
  rewrite Hk. reflexivity.
Qed.

Lemma i2c_begin_eq (m : Machine Bus) :
  i2c_begin m = (fst (dev_begin (bus m)), after_begin m).
Proof. unfold i2c_begin, after_begin. destruct (dev_begin (bus m)); reflexivity. Qed.

Ltac pass H := rewrite bind_ASSERT; cbv beta; rewrite H; cbv iota.

Ltac peel_writes :=
  repeat (rewrite (bind_write_all_cons _ _ _ _); apply bind_ext_k; intros _ ?).

Lemma begin_eq (m : Machine Bus) :
  begin m =
    if fst (dev_begin (bus m)) then
      finish (begin_writes (crystalLoad (config m))) begin_finish (after_begin m)
    else (ERROR_I2C_DEVICENOTFOUND, after_begin m).
Proof.
  destruct (fst (dev_begin (bus m))) eqn:Hb.
  - rewrite <- (body_write_all_then _
                  (bind (call (enableSpreadSpectrum false))
                     (fun _ =>
                        bind (modify (fun m => with_config (set_plla false 0 (config m)) m))
                          (fun _ =>
                             bind (modify (fun m => with_config (set_pllb false 0 (config m)) m))
                               (fun _ =>
                                  bind (modify (fun m => with_config
                                                  (set_initialised true (config m)) m))
                                    (fun _ => Return ERROR_NONE))))))
      by (intros m'; rewrite bind_call; reflexivity).
    unfold begin, body. rewrite bind_call, i2c_begin_eq. cbn [fst snd]. rewrite Hb.
    change (bind (ret tt) ?k ?m0) with (k tt m0). cbv beta.
    match goal with |- match ?a with _ => _ end = match ?b with _ => _ end =>
      replace a with b; [reflexivity|] end.
    unfold begin_writes.
    assert (Hobj : obj (after_begin m) = obj m) by reflexivity.
    revert Hobj. generalize (after_begin m). intros m0 H0.
    do 9 (rewrite (bind_write_all_cons _ _ _ _); apply bind_ext_obj;
          [apply keeps_obj_write | intros _ ? ?]).
    rewrite bind_gets. cbv beta.
    repeat match goal with H : obj _ = obj _ |- _ => unfold config; rewrite H; clear H end.
    fold (config m).
    rewrite (bind_write_all_cons _ _ _ _). apply bind_ext_k. intros _ ?. reflexivity.
  - unfold begin, body. rewrite bind_call, i2c_begin_eq. cbn [fst snd]. rewrite Hb.
    reflexivity.
Qed.

Lemma setClockBuilderData_eq (table : list (Z * Z)) (m : Machine Bus) :
  setClockBuilderData table m =
    if initialised (config m) then
      finish (setClockBuilderData_writes table) (fun m' => m') m
    else (ERROR_DEVICENOTINITIALISED, m).
Proof.
  destruct (initialised (config m)) eqn:Hinit;
    [| unfold setClockBuilderData, body; pass Hinit; reflexivity].
  rewrite <- (body_write_all_then _ (Return ERROR_NONE)) by reflexivity.
  unfold setClockBuilderData. apply body_ext. pass Hinit.
  unfold setClockBuilderData_writes, write8. symmetry.
  rewrite (bind_write_all_cons _ _ _ _). apply bind_ext_k. intros _ m1.
  rewrite bind_write_all_app. unfold bind at 1 3. rewrite write_table_write_all.
  destruct (write_all (table_writes table) m1) as [[e | []] m2]; [reflexivity|].
  peel_writes. reflexivity.
Qed.

Lemma enableOutputs_eq (enabled : bool) (m : Machine Bus) :
  enableOutputs enabled m =
    if initialised (config m) then
      finish [[u8 SI5351_REGISTER_3_OUTPUT_ENABLE_CONTROL;
               u8 (if enabled then 0x00 else 0xFF)]] (fun m' => m') m
    else (ERROR_DEVICENOTINITIALISED, m).
Proof.
  destruct (initialised (config m)) eqn:Hinit;
    [| unfold enableOutputs, body; pass Hinit; reflexivity].
  rewrite <- (body_write_all_then _ (Return ERROR_NONE)) by reflexivity.
  unfold enableOutputs. apply body_ext. pass Hinit. symmetry.
  rewrite (bind_write_all_cons _ _ _ _). apply bind_ext_k. intros _ ?. reflexivity.
Qed.

Lemma clk_control_write_all {B : Type} (output clk : Z) (k : unit -> Stmt Bus B)
    (m : Machine Bus) :
  bind (if output =? 0 then ASSERT_STATUS (write8 SI5351_REGISTER_16_CLK0_CONTROL clk)
        else if output =? 1 then ASSERT_STATUS (write8 SI5351_REGISTER_17_CLK1_CONTROL clk)
        else if output =? 2 then ASSERT_STATUS (write8 SI5351_REGISTER_18_CLK2_CONTROL clk)
        else ret tt) k m =
    bind (write_all (clk_control_writes output clk)) k m.
Proof.
  unfold clk_control_writes.
  destruct (output =? 0); [|destruct (output =? 1); [|destruct (output =? 2)]];
    try reflexivity;
    rewrite (bind_write_all_cons _ _ _ _); apply bind_ext_k; intros [] ?; reflexivity.
Qed.

Lemma setupMultisynth_eq (output : Z) (pllSource : si5351PLL_t) (div num denom : Z)
    (m : Machine Bus) :
  setupMultisynth oor output pllSource div num denom m =
    let '(P1, P2, P3) := setupMultisynth_fields oor div num denom in
    if initialised (config m) then
      if setupMultisynth_args_ok output div num denom
         && pll_configured pllSource (config m) then
        finish (setupMultisynth_writes output (get_lastRdivValue output (obj m))
                  pllSource num P1 P2 P3) (fun m' => m') m
      else (ERROR_INVALIDPARAMETER, m)
    else (ERROR_DEVICENOTINITIALISED, m).
Proof.
  unfold setupMultisynth_args_ok.
  destruct (setupMultisynth_fields oor div num denom) as [[P1 P2] P3] eqn:HP.
  destruct (initialised (config m)) eqn:Hinit;
    [| unfold setupMultisynth, body; pass Hinit; reflexivity].
  destruct (output <? 3) eqn:H1;
    [| unfold setupMultisynth, body; pass Hinit; pass H1; reflexivity].
  destruct (3 <? div) eqn:H2;
    [| unfold setupMultisynth, body; pass Hinit; pass H1; pass H2; reflexivity].
  destruct (div <? 2049) eqn:H3;
    [| unfold setupMultisynth, body; pass Hinit; pass H1; pass H2; pass H3; reflexivity].
  destruct (0 <? denom) eqn:H4;
    [| unfold setupMultisynth, body; pass Hinit; pass H1; pass H2; pass H3; pass H4;
       reflexivity].
  destruct (num <=? 0xFFFFF) eqn:H5;
    [| unfold setupMultisynth, body; pass Hinit; pass H1; pass H2; pass H3; pass H4;
       pass H5; reflexivity].
  destruct (denom <=? 0xFFFFF) eqn:H6;
    [| unfold setupMultisynth, body; pass Hinit; pass H1; pass H2; pass H3; pass H4;
       pass H5; pass H6; reflexivity].
  cbn [andb].
  destruct (pll_configured pllSource (config m)) eqn:H7.
  - rewrite <- (body_write_all_then _ (Return ERROR_NONE)) by reflexivity.
    unfold setupMultisynth. apply body_ext.
    pass Hinit; pass H1; pass H2; pass H3; pass H4; pass H5; pass H6.
    assert (Hpll : forall (B : Type) (k : unit -> Stmt Bus B),
               bind (match pllSource with
                     | SI5351_PLL_A =>
                         ASSERT (fun m => plla_configured (config m)) ERROR_INVALIDPARAMETER
                     | SI5351_PLL_B =>
                         ASSERT (fun m => pllb_configured (config m)) ERROR_INVALIDPARAMETER
                     end) k m = k tt m).
    { intros B k. destruct pllSource; cbn [pll_configured] in H7; pass H7; reflexivity. }
    rewrite Hpll, HP, bind_gets. cbv beta.
    unfold setupMultisynth_writes, writeN. symmetry.
    rewrite (bind_write_all_cons _ _ _ _). apply bind_ext_k. intros _ m1.
    symmetry. apply clk_control_write_all.
  - unfold setupMultisynth, body.
    pass Hinit; pass H1; pass H2; pass H3; pass H4; pass H5; pass H6.
    destruct pllSource; cbn [pll_configured] in H7; pass H7; reflexivity.
Qed.

Lemma setupRdiv_rejects (output div : Z) (m : Machine Bus) :
  3 <= output -> setupRdiv output div m = (ERROR_INVALIDPARAMETER, m).
Proof.
  intros H. unfold setupRdiv, body. rewrite bind_ASSERT.
  replace (output <? 3) with false by lia. reflexivity.
Qed.
End MoreEquations.

(** * Further properties of the Multisynth stage *)

Section MoreMultisynth.
Context {Bus : Type} {device : I2CDevice Bus}.
Variable oor : spec_float -> Z.

Lemma finish_id_cases (ws : list (list Z)) (m : Machine Bus) :
  let r := finish ws (fun m' => m') m in
  obj (snd r) = obj m /\
  exists k : nat,
    (k <= length ws)%nat /\
    trace (snd r) = rev (map EvWrite (firstn k ws)) ++ trace m /\
    ((fst r = ERROR_NONE /\ k = length ws) \/
     (fst r = ERROR_I2C_TRANSACTION /\ (0 < k)%nat)).
Proof.
  cbv zeta.
  destruct (finish_cases ws (fun m' => m') m) as (k & Hk & [[-> Hl] | [-> Hl]]);
    cbn [fst snd]; rewrite ?obj_after_writes; (split; [reflexivity|]).
  - exists (length ws). rewrite firstn_all, trace_after_writes. auto.
  - exists k. rewrite trace_after_writes. auto.
Qed.

(** X5. [setupMultisynth] validates before it touches the bus.  It
    returns [ERROR_DEVICENOTINITIALISED] exactly when the instance is not
    initialised, and [ERROR_INVALIDPARAMETER] exactly when it is
    initialised and either an argument is out of range (channel above 2,
    divider outside 4..2048, denominator 0 or above 0xFFFFF, numerator
    above 0xFFFFF) or the source PLL has not been configured; in both
    cases no transaction is issued and the machine is untouched.
    Whatever the outcome, the driver object is as before: the function
    only reads the configuration and the stored R-divider field. *)
Theorem setupMultisynth_validates_before_bus (output : Z) (pllSource : si5351PLL_t)
    (div num denom : Z) (m : Machine Bus) :
  let r := setupMultisynth oor output pllSource div num denom m in
  (fst r = ERROR_DEVICENOTINITIALISED <-> initialised (config m) = false) /\
  (fst r = ERROR_INVALIDPARAMETER <->
     initialised (config m) = true /\
     (setupMultisynth_args_ok output div num denom = false \/
      pll_configured pllSource (config m) = false)) /\
  (fst r = ERROR_DEVICENOTINITIALISED \/ fst r = ERROR_INVALIDPARAMETER -> snd r = m) /\
  obj (snd r) = obj m.
Proof.
  cbv zeta. rewrite setupMultisynth_eq.
  destruct (setupMultisynth_fields oor div num denom) as [[P1 P2] P3].
  destruct (initialised (config m)); [|cbn; intuition congruence].
  destruct (setupMultisynth_args_ok output div num denom);
    [|cbn; intuition congruence].
  destruct (pll_configured pllSource (config m)); [|cbn; intuition congruence].
  cbn [andb].
  match goal with |- context [finish ?ws _ m] =>
    destruct (finish_id_cases ws m) as (Hobj & k & _ & _ & [[Hs _] | [Hs _]]) end;
    rewrite Hs; intuition congruence.
Qed.

(** X6. Once its validation has passed, [setupMultisynth] issues two
    transactions in this order: one burst of nine bytes, which starts at
    the first parameter register of the channel (42, 50 or 58) and
    carries the R-divider field last stored for that channel, and one
    write to the clock control register of the channel (16, 17 or 18).
    When the burst is not acknowledged the control register is not
    written, and the function returns [ERROR_I2C_TRANSACTION]. *)
Theorem setupMultisynth_writes_in_order (output : Z) (pllSource : si5351PLL_t)
    (div num denom : Z) (m : Machine Bus) :
  initialised (config m) = true ->
  0 <= output -> setupMultisynth_args_ok output div num denom = true ->
  pll_configured pllSource (config m) = true ->
  let r := setupMultisynth oor output pllSource div num denom m in
  let '(P1, P2, P3) := setupMultisynth_fields oor div num denom in
  let burst := multisynth_sendBuffer output (get_lastRdivValue output (obj m)) P1 P2 P3 in
  let clk := [16 + output; clkControlReg pllSource num] in
  length burst = 9%nat /\ nth 0 burst 0 = 42 + 8 * output /\
  (fst (dev_write burst (bus m)) = false ->
   r = (ERROR_I2C_TRANSACTION, after_write burst m)) /\
  (fst (dev_write burst (bus m)) = true ->
   snd r = after_write clk (after_write burst m) /\
   fst r = if fst (dev_write clk (bus (after_write burst m)))
           then ERROR_NONE else ERROR_I2C_TRANSACTION).
Proof.
  intros Hinit Hout Hargs Hpll. cbv zeta.
  rewrite setupMultisynth_eq, Hinit, Hargs, Hpll.
  destruct (setupMultisynth_fields oor div num denom) as [[P1 P2] P3].
  cbn [andb].
  assert (Hc : output = 0 \/ output = 1 \/ output = 2).
  { unfold setupMultisynth_args_ok in Hargs.
    destruct (output <? 3) eqn:E; [lia | discriminate]. }
  assert (Hclk : clk_control_writes output (clkControlReg pllSource num) =
                 [[16 + output; clkControlReg pllSource num]]).
  { destruct Hc as [-> | [-> | ->]]; destruct pllSource; destruct (num =? 0) eqn:E;
      unfold clk_control_writes, clkControlReg; rewrite E; reflexivity. }
  split; [reflexivity|].
  split; [destruct Hc as [-> | [-> | ->]]; reflexivity|].
  unfold setupMultisynth_writes, finish. rewrite Hclk. cbn [write_all].
  rewrite !bind_write.
  destruct (fst (dev_write (multisynth_sendBuffer _ _ _ _ _) (bus m)));
    (split; [intros H | intros H]); try discriminate; try reflexivity.
  destruct (fst (dev_write _ (bus (after_write _ m)))); split; reflexivity.
Qed.

(** X7. The byte [setupMultisynth] writes to the clock control register:
    its low four bits are all set (8 mA drive strength, the Multisynth as
    clock source), bit 4 (inversion) and bit 7 (power down) are clear,
    bit 5 is set exactly when PLL B is the source, and bit 6 (integer
    mode) exactly when the numerator is 0. *)
Theorem clkControlReg_bits (pllSource : si5351PLL_t) (num : Z) :
  let c := clkControlReg pllSource num in
  0 <= c < 256 /\
  Z.land c 0x0F = 0x0F /\
  Z.testbit c 4 = false /\
  Z.testbit c 5 = (if pllSource is SI5351_PLL_B then true else false) /\
  Z.testbit c 6 = (num =? 0) /\
  Z.testbit c 7 = false.
Proof.
  cbv zeta. unfold clkControlReg.
  destruct pllSource; destruct (num =? 0);
    (split; [vm_compute; split; [discriminate | reflexivity] | split_all; reflexivity]).
Qed.

(** X8. What the burst of [setupMultisynth] carries.  Read back by the
    register layout its eight register bytes give the low 18 bits of P1
    and the low 20 bits of P2 and of P3, whatever the three words are, so
    nothing is lost of fields that fit their widths; and the 3-bit
    R-divider code is recovered from bits 6:4 of the third register
    byte, whose bit 7 is clear. *)
Theorem multisynth_burst_round_trip (output rdiv P1 P2 P3 : Z) :
  0 <= rdiv <= 7 ->
  let burst := multisynth_sendBuffer output (rdiv * 16) P1 P2 P3 in
  decode_fields (tl burst) = (P1 mod 2 ^ 18, P2 mod 2 ^ 20, P3 mod 2 ^ 20) /\
  (0 <= P1 < 2 ^ 18 -> 0 <= P2 < 2 ^ 20 -> 0 <= P3 < 2 ^ 20 ->
   decode_fields (tl burst) = (P1, P2, P3)) /\
  burst_byte 3 burst / 16 = rdiv /\
  burst_byte 3 burst < 128.
Proof.
  intros Hr. cbv zeta.
  destruct (parameter_bytes P1 P2 P3) as (E0 & E1 & E2 & E3 & E4 & E5 & E6 & E7).
  destruct (third_byte_layout P1 rdiv Hr) as (Eb & _ & _). cbv zeta in Eb.
  unfold multisynth_sendBuffer, burst_byte. cbn [tl nth decode_fields].
  rewrite E0, E1, E3, E4, E5, E6, E7, Eb.
  rewrite Z.shiftr_div_pow2 by lia. change (2 ^ 16) with 65536.
  pose proof (Z.mod_pos_bound (P1 / 65536) 4 ltac:(lia)).
  pose proof (Z.mod_pos_bound (P3 / 65536) 16 ltac:(lia)).
  pose proof (Z.mod_pos_bound (P2 / 65536) 16 ltac:(lia)).
  set (h1 := (P1 / 65536) mod 4) in *.
  set (h3 := (P3 / 65536) mod 16) in *. set (h2 := (P2 / 65536) mod 16) in *.
  rewrite <- (Z.mod_unique (rdiv * 16 + h1) 4 (rdiv * 4) h1) by lia.
  rewrite <- (Z.mod_unique (h3 * 16 + h2) 16 h3 h2) by lia.
  rewrite <- (Z.div_unique (h3 * 16 + h2) 16 h3 h2) by lia.
  rewrite <- (Z.div_unique (rdiv * 16 + h1) 16 rdiv h1) by lia.
  subst h1 h2 h3.
  rewrite (truncated_field P1 4), (truncated_field P2 16), (truncated_field P3 16)
    by lia.
  split; [reflexivity|]. split; [|split; lia].
  intros R1 R2 R3. change (65536 * 4) with (2 ^ 18). change (65536 * 16) with (2 ^ 20).
  rewrite !Z.mod_small by assumption. reflexivity.
Qed.
End MoreMultisynth.

(** * Read-modify-write of a register *)

Section ReadModifyWrite.
Context {Bus : Type} {device : I2CDevice Bus}.

Lemma u8_range (z : Z) : 0 <= u8 z < 256.
Proof. unfold u8. apply Z.mod_pos_bound. lia. Qed.

Lemma rdiv_field_eq (div : Z) : rdiv_field div = div mod 8 * 16.
Proof.
  unfold rdiv_field, u8. change 0x07 with (Z.ones 3).
  rewrite Z.land_ones, Z.shiftl_mul_pow2 by lia.
  change (2 ^ 8) with 256. change (2 ^ 3) with 8. change (2 ^ 4) with 16.
  rewrite (Z.mod_mod_divide div 256 8) by (exists 32; reflexivity).
  pose proof (Z.mod_pos_bound div 8 ltac:(lia)). apply Z.mod_small. lia.
Qed.

Lemma merge_low_nibble (b r : Z) :
  0 <= b -> Z.lor (Z.land b 0x0F) (r * 16) = r * 16 + b mod 16.
Proof.
  intros Hb. change 0x0F with (Z.ones 4). rewrite Z.land_ones by lia.
  rewrite Z.lor_comm. change 16 with (2 ^ 4) at 1 2.
  apply lor_disjoint; [lia | apply Z.mod_pos_bound; lia].
Qed.

Lemma set_top_bit (b : Z) : 0 <= b < 256 -> Z.lor b 0x80 = 128 + b mod 128.
Proof.
  intros Hb. pose proof (Z_div_mod_eq_full b 128) as E.
  pose proof (Z.mod_pos_bound b 128 ltac:(lia)) as Hl.
  assert (Hq : b / 128 = 0 \/ b / 128 = 1).
  { assert (0 <= b / 128) by (apply Z.div_pos; lia).
    assert (b / 128 < 2) by (apply Z.div_lt_upper_bound; lia). lia. }
  assert (Hd : Z.lor 128 (b mod 128) = 128 + b mod 128).
  { apply (lor_disjoint 1 (b mod 128) 7); [lia | exact Hl]. }
  destruct Hq as [Hq | Hq]; rewrite Hq in E.
  - replace b with (b mod 128) at 1 by lia. rewrite Z.lor_comm. exact Hd.
  - replace b with (128 + b mod 128) at 1 by lia.
    rewrite <- Hd at 1. rewrite (Z.lor_comm 128 (b mod 128)), <- Z.lor_assoc, Z.lor_diag.
    rewrite Z.lor_comm. exact Hd.
Qed.

Lemma clear_top_bit (b : Z) : 0 <= b -> Z.land b 0x7F = b mod 128.
Proof. intros Hb. change 0x7F with (Z.ones 7). apply Z.land_ones. lia. Qed.

Lemma spread_spectrum_byte (enabled : bool) (b : Z) :
  0 <= b < 256 ->
  u8 (if enabled then Z.lor b 0x80 else Z.land b 0x7F) =
    (if enabled then 128 else 0) + b mod 128.
Proof.
  intros Hb. pose proof (Z.mod_pos_bound b 128 ltac:(lia)).
  destruct enabled; [rewrite set_top_bit by lia | rewrite clear_top_bit by lia];
    unfold u8; apply Z.mod_small; lia.
Qed.

Lemma rdiv_register_eq (output : Z) :
  0 <= output < 3 -> u8 (rdiv_register output) = 44 + 8 * output.
Proof.
  intros H. assert (output = 0 \/ output = 1 \/ output = 2) as [-> | [-> | ->]] by lia;
    reflexivity.
Qed.

(** X9. [setupRdiv] rejects a channel above 2 without touching the bus
    or the object.  For a channel 0..2 it reads the third parameter
    register of the channel (44, 52 or 60) and writes it back with the
    low nibble as read, bits 6:4 set to the low three bits of the divider
    code and bit 7 clear.  The same field is stored for the channel,
    before the write and whether or not the write is acknowledged; the
    fields of the other channels and the configuration are unchanged.
    The status returned is that of the write alone. *)
Theorem setupRdiv_read_modify_write (output div : Z) (m : Machine Bus) :
  0 <= output ->
  let r := setupRdiv output div m in
  let reg := 44 + 8 * output in
  let b := u8 (snd (fst (dev_write_then_read reg (bus m)))) in
  let v := div mod 8 * 16 + b mod 16 in
  (3 <= output -> r = (ERROR_INVALIDPARAMETER, m)) /\
  (output < 3 ->
   config (snd r) = config m /\
   lastRdivValue (obj (snd r)) =
     <[Z.to_nat output := div mod 8 * 16]> (lastRdivValue (obj m)) /\
   trace (snd r) = EvWrite [reg; v] :: EvRead reg :: trace m /\
   v < 128 /\
   (fst r = ERROR_NONE <->
    fst (dev_write [reg; v] (snd (dev_write_then_read reg (bus m)))) = true) /\
   (fst r = ERROR_NONE \/ fst r = ERROR_I2C_TRANSACTION)).
Proof.
  intros Hout. cbv zeta. split; [apply setupRdiv_rejects|]. intros Hlt.
  pose proof (setupRdiv_eq output div m Hlt) as E. cbv zeta in E. rewrite E. clear E.
  fold (rdiv_field div). rewrite rdiv_field_eq, rdiv_register_eq by lia.
  set (b := u8 (snd (fst (dev_write_then_read (44 + 8 * output) (bus m))))).
  pose proof (u8_range (snd (fst (dev_write_then_read (44 + 8 * output) (bus m))))) as Hb.
  fold b in Hb.
  rewrite merge_low_nibble by lia.
  pose proof (Z.mod_pos_bound div 8 ltac:(lia)) as Hd.
  pose proof (Z.mod_pos_bound b 16 ltac:(lia)) as Hn.
  assert (Hu : forall z, 0 <= z < 256 -> u8 z = z)
    by (intros z Hz; unfold u8; apply Z.mod_small; exact Hz).
  rewrite (Hu (div mod 8 * 16 + b mod 16)) by lia.
  cbn [fst snd]. unfold after_read, with_obj. cbn [bus].
  split; [reflexivity|]. split; [reflexivity|]. split; [reflexivity|].
  split; [lia|].
  destruct (fst (dev_write _ _)); split; auto; split; congruence.
Qed.

(** X10. [enableSpreadSpectrum] reads register 149 and, only when the
    read succeeded, writes it back with bit 7 set or cleared as asked and
    the low seven bits as read; a failed read ends the function with
    [ERROR_I2C_TRANSACTION] and no write.  The driver object is never
    changed, and the function does not look at the initialised flag. *)
Theorem enableSpreadSpectrum_read_modify_write (enabled : bool) (m : Machine Bus) :
  let r := enableSpreadSpectrum enabled m in
  let rd := fst (dev_write_then_read 149 (bus m)) in
  let v := (if enabled then 128 else 0) + u8 (snd rd) mod 128 in
  obj (snd r) = obj m /\
  (fst rd = false -> r = (ERROR_I2C_TRANSACTION, after_read 149 m)) /\
  (fst rd = true ->
   snd r = after_write [149; v] (after_read 149 m) /\
   fst r = if fst (dev_write [149; v] (bus (after_read 149 m)))
           then ERROR_NONE else ERROR_I2C_TRANSACTION).
Proof.
  cbv zeta. split; [apply enableSpreadSpectrum_keeps_obj|].
  pose proof (enableSpreadSpectrum_eq enabled m) as E. cbv zeta in E. rewrite E. clear E.
  change (u8 SI5351_REGISTER_149_SPREAD_SPECTRUM_PARAMETERS) with 149.
  set (rd := fst (dev_write_then_read 149 (bus m))).
  pose proof (u8_range (snd rd)) as Hb.
  rewrite (spread_spectrum_byte enabled (u8 (snd rd)) Hb).
  destruct (fst rd); split; intros H; try discriminate; try reflexivity.
  split; reflexivity.
Qed.
End ReadModifyWrite.

(** * Statuses that are dropped *)

Section DroppedStatus.
(** [begin] on a device whose reads fail: the ten writes go through, the
    read of [enableSpreadSpectrum] fails, and [begin] succeeds all the
    same. *)
Lemma begin_on_deaf_device (leftover : Z) :
  @begin unit (deaf_device leftover) power_on =
    (ERROR_NONE,
     {| obj := obj begun_machine; bus := tt;
        trace := EvRead 149 :: rev (map EvWrite (begin_writes 0xC0)) ++ [EvBegin] |}).
Proof. reflexivity. Qed.

(** C8 (failing input). On a device whose read transaction fails while
    its writes are acknowledged, after a [begin] that returned
    [ERROR_NONE]: [setupRdiv(0, SI5351_R_DIV_2)] returns [ERROR_NONE]
    although its read of register 44 failed.  The status of [read8] is
    dropped, and the byte written back takes its low nibble from
    whatever the uninitialised [regval] held (the byte [leftover], any
    value).  [begin] itself has dropped the status of
    [enableSpreadSpectrum(false)], which failed on its read. *)
Theorem setupRdiv_drops_read_status (leftover : Z) :
  let dev := deaf_device leftover in
  let m := snd (@begin unit dev power_on) in
  fst (@begin unit dev power_on) = ERROR_NONE /\
  initialised (config m) = true /\
  fst (@enableSpreadSpectrum unit dev false
         (after_writes (begin_writes 0xC0) (after_begin power_on))) =
    ERROR_I2C_TRANSACTION /\
  trace m = EvRead 149 :: rev (map EvWrite (begin_writes 0xC0)) ++ [EvBegin] /\
  fst (@dev_write_then_read unit dev 44 (bus m)) = (false, leftover) /\
  @setupRdiv unit dev 0 1 m =
    (ERROR_NONE,
     {| obj := set_lastRdivValue 0 0x10 (obj m); bus := tt;
        trace := EvWrite [44; 0x10 + leftover mod 16] :: EvRead 44 :: trace m |}).
Proof.
  cbv zeta. rewrite begin_on_deaf_device. cbn [fst snd].
  split; [reflexivity|]. split; [reflexivity|]. split; [reflexivity|].
  split; [reflexivity|]. split; [reflexivity|].
  pose proof (@setupRdiv_eq unit (deaf_device leftover) 0 1) as E. cbv zeta in E.
  rewrite E by lia. clear E.
  cbn [deaf_device dev_write dev_write_then_read fst snd].
  change (u8 (Z.shiftl (Z.land (u8 1) 7) 4)) with (1 * 16).
  change (u8 (rdiv_register 0)) with 44.
  pose proof (u8_range leftover) as Hb.
  rewrite merge_low_nibble by lia.
  assert (Hlow : u8 leftover mod 16 = leftover mod 16).
  { unfold u8. change (2 ^ 8) with 256.
    apply Z.mod_mod_divide. exists 16. reflexivity. }
  rewrite Hlow. pose proof (Z.mod_pos_bound leftover 16 ltac:(lia)) as Hn.
  assert (Hu : u8 (1 * 16 + leftover mod 16) = 16 + leftover mod 16)
    by (unfold u8; rewrite Z.mod_small by lia; lia).
  rewrite Hu. reflexivity.
Qed.
End DroppedStatus.

(** * Further properties of initialisation *)

Section MoreInitialisation.
Context {Bus : Type} {device : I2CDevice Bus}.
Variable oor : spec_float -> Z.

Lemma obj_begin_finish (m : Machine Bus) :
  obj (begin_finish m) = set_config (begun_config (config m)) (obj m).
Proof.
  unfold begin_finish, with_config, with_obj, config. cbn [obj].
  rewrite enableSpreadSpectrum_keeps_obj. reflexivity.
Qed.

Lemma begin_success_obj (m : Machine Bus) :
  fst (begin m) = ERROR_NONE ->
  obj (snd (begin m)) = set_config (begun_config (config m)) (obj m).
Proof.
  rewrite begin_eq. destruct (fst (dev_begin (bus m))); [|discriminate].
  match goal with |- context [finish ?ws ?l ?m0] =>
    destruct (finish_cases ws l m0) as (k & Hk & [[-> Hl] | [-> Hl]]) end;
    cbn [fst snd]; [intros _ | discriminate].
  rewrite obj_begin_finish. unfold config. rewrite obj_after_writes. reflexivity.
Qed.

Lemma begin_error_obj (m : Machine Bus) :
  fst (begin m) <> ERROR_NONE -> obj (snd (begin m)) = obj m.
Proof.
  rewrite begin_eq. destruct (fst (dev_begin (bus m))); [|reflexivity].
  match goal with |- context [finish ?ws ?l ?m0] =>
    destruct (finish_cases ws l m0) as (k & Hk & [[-> Hl] | [-> Hl]]) end;
    cbn [fst snd]; [congruence | intros _].
  rewrite obj_after_writes. reflexivity.
Qed.

(** X11. The outcome of [begin].  It returns [ERROR_I2C_DEVICENOTFOUND]
    exactly when the device does not answer the detection, and
    [ERROR_NONE] exactly when the detection and each of the ten register
    writes that follow are acknowledged: the outcome of the call of
    [enableSpreadSpectrum] made after them plays no part.  Any other
    outcome is [ERROR_I2C_TRANSACTION].  On an error the driver object
    is as before.  On success the instance is marked initialised, both
    PLLs are marked unconfigured with frequency 0, and the crystal
    settings and the stored R-divider fields are kept. *)
Theorem begin_outcome (m : Machine Bus) :
  let r := begin m in
  let ws := begin_writes (crystalLoad (config m)) in
  (fst r = ERROR_I2C_DEVICENOTFOUND <-> fst (dev_begin (bus m)) = false) /\
  (fst r = ERROR_NONE <->
     fst (dev_begin (bus m)) = true /\
     fst (write_all ws (after_begin m)) = inr tt) /\
  (fst r = ERROR_NONE \/ fst r = ERROR_I2C_DEVICENOTFOUND \/
   fst r = ERROR_I2C_TRANSACTION) /\
  (fst r <> ERROR_NONE -> obj (snd r) = obj m) /\
  (fst r = ERROR_NONE ->
   obj (snd r) = set_config (begun_config (config m)) (obj m)).
Proof.
  cbv zeta. rewrite begin_eq.
  destruct (fst (dev_begin (bus m))); [|cbn; intuition congruence].
  unfold finish.
  destruct (write_all_spec (begin_writes (crystalLoad (config m))) (after_begin m))
    as (k & Hk & Hm & [[Hr Hl] | [Hr Hl]]); rewrite Hr, Hm; cbn [fst snd].
  - subst k. rewrite firstn_all, obj_begin_finish.
    unfold config. rewrite obj_after_writes. cbn [after_begin obj].
    intuition congruence.
  - rewrite obj_after_writes. cbn [after_begin obj]. intuition congruence.
Qed.

(** X12. The transactions of [begin] after a successful detection, in
    program order: output disable (register 3, 0xFF), power down of the
    eight output drivers (registers 16..23, 0x80), the crystal load
    capacitance (register 183), then the call of
    [enableSpreadSpectrum(false)].  The first write the device refuses
    ends the function: if that is the write at position [k] (from 0),
    [begin] returns [ERROR_I2C_TRANSACTION], the log holds the detection
    and the writes at positions 0 to [k] and nothing after them, and the
    driver object is as before.  If none of the ten is refused, [begin]
    returns [ERROR_NONE], and what follows the ten writes in the log is
    the read of register 149, and the write to it when the read
    succeeded. *)
Theorem begin_writes_in_order (m : Machine Bus) :
  fst (dev_begin (bus m)) = true ->
  let r := begin m in
  let ws := begin_writes (crystalLoad (config m)) in
  write_registers ws = [3; 16; 17; 18; 19; 20; 21; 22; 23; 183] /\
  write_values ws =
    [0xFF; 0x80; 0x80; 0x80; 0x80; 0x80; 0x80; 0x80; 0x80; u8 (crystalLoad (config m))] /\
  match first_refused ws (bus (after_begin m)) with
  | None =>
      fst r = ERROR_NONE /\
      trace (snd r) =
        trace (snd (enableSpreadSpectrum false (after_writes ws (after_begin m)))) /\
      exists later,
        trace (snd r) = later ++ rev (map EvWrite ws) ++ EvBegin :: trace m /\
        (later = [EvRead 149] \/
         exists v, 0 <= v < 128 /\ later = [EvWrite [149; v]; EvRead 149])
  | Some k =>
      (k < 10)%nat /\
      r = (ERROR_I2C_TRANSACTION, after_writes (firstn (S k) ws) (after_begin m)) /\
      trace (snd r) = rev (map EvWrite (firstn (S k) ws)) ++ EvBegin :: trace m /\
      obj (snd r) = obj m
  end.
Proof.
  intros Hb. cbv zeta. rewrite begin_eq, Hb.
  split; [reflexivity|]. split; [reflexivity|].
  rewrite finish_first_refused.
  destruct (first_refused (begin_writes (crystalLoad (config m))) (bus (after_begin m)))
    as [k|] eqn:E; cbn [fst snd].
  - split; [exact (first_refused_bound _ _ _ E)|]. split; [reflexivity|].
    split; [rewrite trace_after_writes; reflexivity|].
    rewrite obj_after_writes. reflexivity.
  - split; [reflexivity|]. split; [reflexivity|].
    unfold begin_finish, with_config, with_obj. cbn [trace].
    set (m1 := after_writes _ (after_begin m)).
    assert (Htr : trace m1 =
                  rev (map EvWrite (begin_writes (crystalLoad (config m)))) ++
                  EvBegin :: trace m)
      by (unfold m1; rewrite trace_after_writes; reflexivity).
    pose proof (enableSpreadSpectrum_eq false m1) as Eq. cbv zeta in Eq. rewrite Eq. clear Eq.
    change (u8 SI5351_REGISTER_149_SPREAD_SPECTRUM_PARAMETERS) with 149.
    set (b := u8 (snd (fst (dev_write_then_read 149 (bus m1))))).
    assert (Hb8 : 0 <= b < 256) by apply u8_range.
    rewrite (spread_spectrum_byte false b Hb8).
    destruct (fst (fst (dev_write_then_read 149 (bus m1))));
      cbn [snd after_write after_read trace]; rewrite Htr.
    + exists [EvWrite [149; 0 + b mod 128]; EvRead 149].
      split; [reflexivity|]. right. exists (0 + b mod 128).
      split; [|reflexivity].
      pose proof (Z.mod_pos_bound b 128 ltac:(lia)). lia.
    + exists [EvRead 149]. split; [reflexivity | left; reflexivity].
Qed.

(** X13. Calling [begin] again resets the PLL bookkeeping: after a
    successful [begin], whatever was configured before, both PLLs are
    marked unconfigured, and every call of [setupMultisynth] returns
    [ERROR_INVALIDPARAMETER] without a transaction until [setupPLL] has
    been called again. *)
Theorem begin_resets_plls (m : Machine Bus) :
  fst (begin m) = ERROR_NONE ->
  let m' := snd (begin m) in
  initialised (config m') = true /\
  (forall pll, pll_configured pll (config m') = false /\ pll_freq pll (config m') = 0) /\
  (forall output pll div num denom,
     setupMultisynth oor output pll div num denom m' = (ERROR_INVALIDPARAMETER, m')).
Proof.
  intros Hok. cbv zeta.
  pose proof (begin_success_obj m Hok) as Hobj.
  assert (Hc : config (snd (begin m)) = begun_config (config m))
    by (unfold config at 1; rewrite Hobj; reflexivity).
  split; [rewrite Hc; reflexivity|].
  split; [intros []; rewrite Hc; split; reflexivity|].
  intros output pll div num denom. rewrite setupMultisynth_eq.
  destruct (setupMultisynth_fields oor div num denom) as [[P1 P2] P3].
  rewrite Hc. cbn [begun_config set_initialised initialised].
  replace (pll_configured pll _) with false by (destruct pll; reflexivity).
  rewrite andb_false_r. reflexivity.
Qed.

(** X14. [setClockBuilderData] on an instance that is not initialised
    issues nothing.  Otherwise its writes go out in program order: output
    disable (register 3, 0xFF), the rows of the register table in table
    order, the soft reset (register 177, 0xAC) and output enable
    (register 3, 0x00).  The first write the device refuses ends the
    function: if that is the write at position [k] (from 0), it returns
    [ERROR_I2C_TRANSACTION] having issued the writes at positions 0 to
    [k] and nothing else.  It returns [ERROR_NONE] exactly when the
    device acknowledges every one of them, the output enable included.
    The driver object is never changed. *)
Theorem setClockBuilderData_writes_in_order (table : list (Z * Z)) (m : Machine Bus) :
  let r := setClockBuilderData table m in
  let ws := [3; 0xFF] :: map (fun row => [u8 (fst row); u8 (snd row)]) table
              ++ [[177; 0xAC]; [3; 0x00]] in
  obj (snd r) = obj m /\ length ws = (length table + 3)%nat /\
  (initialised (config m) = false -> r = (ERROR_DEVICENOTINITIALISED, m)) /\
  (initialised (config m) = true ->
   match first_refused ws (bus m) with
   | None =>
       r = (ERROR_NONE, after_writes ws m) /\
       trace (snd r) = rev (map EvWrite ws) ++ trace m
   | Some k =>
       (k < length table + 3)%nat /\
       r = (ERROR_I2C_TRANSACTION, after_writes (firstn (S k) ws) m) /\
       trace (snd r) = rev (map EvWrite (firstn (S k) ws)) ++ trace m
   end).
Proof.
  cbv zeta. rewrite setClockBuilderData_eq.
  change ([3; 255] :: map (fun row => [u8 (fst row); u8 (snd row)]) table
            ++ [[177; 172]; [3; 0]]) with (setClockBuilderData_writes table).
  assert (Hlen : length (setClockBuilderData_writes table) = (length table + 3)%nat).
  { unfold setClockBuilderData_writes, table_writes.
    cbn [length]. rewrite length_app, length_map. cbn [length]. lia. }
  destruct (initialised (config m));
    [| split; [reflexivity|]; split; [exact Hlen|]; split; [reflexivity | discriminate]].
  rewrite finish_first_refused.
  destruct (first_refused (setClockBuilderData_writes table) (bus m)) as [k|] eqn:E;
    cbn [fst snd]; rewrite obj_after_writes;
    (split; [reflexivity|]); (split; [exact Hlen|]); (split; [discriminate|]); intros _.
  - pose proof (first_refused_bound _ _ _ E) as Hk. rewrite Hlen in Hk.
    split; [exact Hk|]. split; [reflexivity | apply trace_after_writes].
  - split; [reflexivity | apply trace_after_writes].
Qed.
End MoreInitialisation.

(** * The fields against the documented formulas *)

Section FieldsAgainstFormulas.
Context {Bus : Type} {device : I2CDevice Bus}.
Variable oor : spec_float -> Z.

(** For a denominator of at most 16 bits the single-precision quotient
    cannot carry the floor past the next integer. *)
Lemma code_floor_exact (n d : Z) :
  0 < n < d -> d <= 65536 -> code_floor n d = 128 * n / d.
Proof.
  intros Hn Hd.
  destruct (floor_128_ratio_proper n d Hn ltac:(lia)) as (_ & Hlo & Hhi).
  destruct (F32_div_of_Z n d ltac:(lia) ltac:(lia)) as (m & e & Hq & Hdm & He & Hbr).
  pose proof (digits2_pos_bounds m) as Hbm. rewrite Hdm in Hbm.
  change (2 ^ (24 - 1)) with (2 ^ 23) in Hbm.
  assert (Hpe : 0 < 2 ^ (- e)) by (apply Z.pow_pos_nonneg; lia).
  assert (Hm1 : Z.pos m - 1 < 2 ^ (- e)).
  { apply (Zmult_lt_reg_r _ _ d); [lia|].
    apply Z.lt_trans with (n * 2 ^ (- e)); [lia|].
    rewrite (Z.mul_comm (2 ^ (- e)) d). apply Zmult_lt_compat_r; lia. }
  assert (He' : e <= -23).
  { destruct (Z_le_gt_dec e (-23)); [assumption|].
    assert (2 ^ (- e) <= 2 ^ 22) by (apply Z.pow_le_mono_r; lia). lia. }
  revert Hlo Hhi. unfold code_floor. rewrite Hq, F32_mul_128 by lia.
  set (t := - (e + 7)). assert (Ht : 16 <= t) by (subst t; lia).
  unfold SFfloorZ. replace (0 <=? e + 7) with false by lia. fold t.
  assert (HT : 65536 <= 2 ^ t).
  { change 65536 with (2 ^ 16). apply Z.pow_le_mono_r; lia. }
  assert (Hsplit : 2 ^ (- e) = 128 * 2 ^ t).
  { change 128 with (2 ^ 7). rewrite <- Z.pow_add_r by lia. f_equal. lia. }
  rewrite Hsplit in Hbr. destruct Hbr as [Hbr _].
  pose proof (Z_div_mod_eq_full (Z.pos m) (2 ^ t)) as Hm.
  pose proof (Z.mod_pos_bound (Z.pos m) (2 ^ t) ltac:(lia)) as Hr.
  set (F := Z.pos m / 2 ^ t) in *. set (T := 2 ^ t) in *.
  intros Hlo Hhi.
  assert (HF : 0 <= F) by (assert (0 <= 128 * n / d) by (apply Z.div_pos; lia); lia).
  destruct (Z_le_gt_dec (d * F) (128 * n)) as [Hle | Hgt].
  - apply (Z.div_unique (128 * n) d F (128 * n - d * F)); [|lia].
    left. split; [lia|].
    pose proof (Z_div_mod_eq_full (128 * n) d) as Hdm'.
    pose proof (Z.mod_pos_bound (128 * n) d ltac:(lia)) as Hmod.
    assert (d * (128 * n / d) <= d * F) by (apply Z.mul_le_mono_nonneg_l; lia).
    assert (d * F <= d * (128 * n / d + 1)) by (apply Z.mul_le_mono_nonneg_l; lia).
    destruct (Z.eq_dec F (128 * n / d)) as [-> | Hne]; [lia|].
    assert (F = 128 * n / d + 1) by lia. subst F. lia.
  - exfalso.
    assert (H1 : 128 * n * T <= (d * F - 1) * T)
      by (apply Z.mul_le_mono_nonneg_r; lia).
    assert (H2 : (T * F - 1) * d <= (Z.pos m - 1) * d)
      by (apply Z.mul_le_mono_nonneg_r; lia).
    assert (H3 : (Z.pos m - 1) * d < 128 * n * T) by lia.
    assert (H4 : (T * F - 1) * d < (d * F - 1) * T) by lia.
    replace ((T * F - 1) * d) with (d * F * T - d) in H4 by ring.
    replace ((d * F - 1) * T) with (d * F * T - T) in H4 by ring.
    lia.
Qed.

Lemma spec_P2_is_remainder (a num denom : Z) :
  denom <> 0 ->
  spec_fractional_fields a num denom =
    (128 * a + 128 * num / denom - 512, (128 * num) mod denom, denom).
Proof. intros H. unfold spec_fractional_fields. rewrite Z.mod_eq by exact H. reflexivity. Qed.

(** X15. For a proper fraction whose denominator is at most 65536 the
    fields the source computes through single-precision division are
    exactly those of the documented formulas, in [setupPLL] as in
    [setupMultisynth], on every board: P1 = 128*a + floor(128*b/c) - 512,
    P2 = 128*b - c*floor(128*b/c), P3 = c.  They then encode the ratio
    without loss: (P1 + 512) * P3 + P2 = 128 * (a*c + b), with P2 below
    P3. *)
Theorem fields_exact_for_small_denominators (a num denom : Z) :
  0 < num < denom -> denom <= 65536 ->
  (15 <= a <= 90 ->
   setupPLL_fields oor a num denom = spec_fractional_fields a num denom) /\
  (4 <= a <= 2048 ->
   setupMultisynth_fields oor a num denom = spec_fractional_fields a num denom /\
   let '(P1, P2, P3) := setupMultisynth_fields oor a num denom in
   0 <= P2 < P3 /\ (P1 + 512) * P3 + P2 = 128 * (a * denom + num)).
Proof.
  intros Hn Hd.
  assert (Hfrac : forall a, 4 <= a <= 2048 ->
            fractional_fields oor a num denom = spec_fractional_fields a num denom).
  { intros a' Ha.
    pose proof (fractional_fields_proper oor a' num denom Ha Hn ltac:(lia)) as H.
    cbv zeta in H. rewrite spec_P2_is_remainder by lia.
    destruct (fractional_fields oor a' num denom) as [[P1 P2] P3].
    destruct H as (_ & H1 & H3 & H2 & _).
    destruct (H2 (code_floor_exact num denom Hn Hd)) as (_ & _ & _ & HP2).
    rewrite (HP2 ltac:(lia)), H1, H3.
    rewrite code_floor_exact by assumption. reflexivity. }
  split.
  - intros Ha. unfold setupPLL_fields.
    replace (num =? 0) with false by lia. apply Hfrac. lia.
  - intros Ha.
    assert (E : setupMultisynth_fields oor a num denom =
                spec_fractional_fields a num denom).
    { unfold setupMultisynth_fields.
      replace (num =? 0) with false by lia. replace (denom =? 1) with false by lia.
      apply Hfrac. exact Ha. }
    split; [exact E|]. rewrite E, spec_P2_is_remainder by lia.
    pose proof (Z.mod_pos_bound (128 * num) denom ltac:(lia)).
    pose proof (Z_div_mod_eq_full (128 * num) denom).
    split; [lia|]. nia.
Qed.

(** X16. For every proper fraction within the documented domains
    (denominator up to 0xFFFFF) the fractional branch stays close to the
    documented formulas.  P3 is the denominator.  Either P1 is the
    documented value, and then P2 is within 4 of the documented value,
    the product of denominator and floor being rounded to single
    precision, and equal to it as long as 128 * numerator is below
    [2^24]; or P1 is one more than the documented value, which happens
    when the single-precision quotient rounds up across a multiple of
    1/128, and then P2 is 0 or the value converted for it is negative. *)
Theorem fractional_fields_within_one (a num denom : Z) :
  4 <= a <= 2048 -> 0 < num < denom -> denom <= 0xFFFFF ->
  let '(P1, P2, P3) := fractional_fields oor a num denom in
  let '(Q1, Q2, Q3) := spec_fractional_fields a num denom in
  P3 = Q3 /\
  (P1 = Q1 /\ 0 <= P2 /\ -4 <= P2 - Q2 <= 4 /\ (128 * num < 2 ^ 24 -> P2 = Q2) \/
   P1 = Q1 + 1 /\ (P2 = 0 \/ SFtruncZ (fractional_P2 num denom) < 0)).
Proof.
  intros Ha Hn Hd.
  pose proof (fractional_fields_proper oor a num denom Ha Hn ltac:(lia)) as H.
  cbv zeta in H. rewrite spec_P2_is_remainder by lia.
  destruct (fractional_fields oor a num denom) as [[P1 P2] P3].
  destruct H as (HF & H1 & H3 & H2 & H2').
  split; [exact H3|].
  destruct (Z.eq_dec (code_floor num denom) (128 * num / denom)) as [E | E].
  - left. destruct (H2 E) as (G1 & G2 & _ & G3).
    split; [lia|]. split; [exact G1|]. split; [exact G2 | exact G3].
  - right. split; [lia|]. apply H2'. lia.
Qed.

(** X17. Numerator 0 is a true special case: the integer branches of
    [setupPLL] and [setupMultisynth] yield the fields that the fractional
    formulas of the source and the documented formulas yield at
    numerator 0, namely P1 = 128*a - 512, P2 = 0 and P3 the
    denominator. *)
Theorem integer_branch_is_special_case (a denom : Z) :
  4 <= a <= 2048 -> 0 < denom <= 0xFFFFF ->
  setupMultisynth_fields oor a 0 denom = (128 * a - 512, 0, denom) /\
  setupPLL_fields oor a 0 denom = setupMultisynth_fields oor a 0 denom /\
  fractional_fields oor a 0 denom = setupMultisynth_fields oor a 0 denom /\
  spec_fractional_fields a 0 denom = setupMultisynth_fields oor a 0 denom.
Proof.
  intros Ha Hd.
  destruct (fractional_fields_at_zero oor a denom Ha ltac:(lia)) as (H1 & H2 & H3).
  assert (E : setupMultisynth_fields oor a 0 denom = (128 * a - 512, 0, denom)).
  { unfold setupMultisynth_fields. cbn [Z.eqb]. unfold u32.
    rewrite Z.mod_small by lia. reflexivity. }
  rewrite E. split; [reflexivity|]. split; [exact H3|]. split; [exact H1 | exact H2].
Qed.

Lemma rounded_product_table :
  forallb (fun mult =>
             let e := SFfloorZ (F32.of_Z (SI5351_CRYSTAL_FREQ_25MHZ * mult))
                      - SI5351_CRYSTAL_FREQ_25MHZ * mult in
             (Z.abs e <=? 128) && (e mod 64 =? 0) &&
             ((negb (Z.even mult) || (88 <? mult) || (mult =? 86)) || (e =? 0)))
          (zrange 15 76) = true.
Proof. vm_compute. reflexivity. Qed.

(** X18. The frequency [setupPLLInt] stores.  With the 25 MHz crystal, an
    acknowledging bus and a multiplier 15..90 the call succeeds and marks
    the PLL configured; the frequency stored is the product of crystal
    frequency and multiplier rounded to single precision, which is
    within 128 Hz of the product, and is the product itself for every
    multiplier up to 42 and for every even multiplier up to 84 and
    88. *)
Theorem setupPLLInt_stored_frequency (pll : si5351PLL_t) (mult : Z) (m : Machine Bus) :
  initialised (config m) = true ->
  crystalFreq (config m) = SI5351_CRYSTAL_FREQ_25MHZ ->
  15 <= mult <= 90 ->
  (forall bytes b, fst (dev_write bytes b) = true) ->
  let r := setupPLLInt oor pll mult m in
  let f := pll_freq pll (config (snd r)) in
  fst r = ERROR_NONE /\
  pll_configured pll (config (snd r)) = true /\
  Z.abs (f - 25000000 * mult) <= 128 /\
  (mult <= 42 \/ Z.even mult = true /\ (mult <= 84 \/ mult = 88) ->
   f = 25000000 * mult).
Proof.
  intros Hinit Hxtal Hmult Hack. cbv zeta. unfold setupPLLInt.
  destruct (setupPLL_integer_mode oor pll mult m Hinit Hxtal Hmult Hack)
    as (Hs & _ & _ & Hc & Hf & Hex).
  split; [exact Hs|]. split; [exact Hc|].
  pose proof rounded_product_table as T. rewrite forallb_forall in T.
  specialize (T mult (in_zrange 15 76 mult ltac:(lia))). cbv zeta in T.
  rewrite <- Hf in T. change SI5351_CRYSTAL_FREQ_25MHZ with 25000000 in *.
  apply andb_prop in T as [T T3]. apply andb_prop in T as [T1 T2].
  split; [lia|]. intros [H | [He H]]; [apply Hex; exact H|].
  rewrite He in T3. cbn [negb orb] in T3.
  apply orb_prop in T3 as [T3 | T3]; [|lia].
  apply orb_prop in T3 as [T3 | T3]; lia.
Qed.
End FieldsAgainstFormulas.

(** * Sequences of calls *)

Section Sequences.
Context {Bus : Type} {device : I2CDevice Bus}.
Variable oor : spec_float -> Z.
Variable table : list (Z * Z).

Lemma setupPLL_obj_cases (pll : si5351PLL_t) (mult num denom : Z) (m : Machine Bus) :
  obj (snd (setupPLL oor pll mult num denom m)) = obj m \/
  initialised (config m) = true /\
  exists f, obj (snd (setupPLL oor pll mult num denom m)) =
              set_config (set_pll pll f (config m)) (obj m).
Proof.
  rewrite setupPLL_eq.
  destruct (setupPLL_fields oor mult num denom) as [[P1 P2] P3].
  destruct (initialised (config m)) eqn:Hinit; [|left; reflexivity].
  destruct (setupPLL_args_ok mult num denom); [|left; reflexivity].
  match goal with |- context [finish ?ws ?l m] =>
    destruct (finish_cases ws l m) as (k & Hk & [[-> Hl] | [-> Hl]]) end;
    cbn [fst snd].
  - right. split; [reflexivity|]. eexists.
    unfold with_config, with_obj, config. cbn [obj]. rewrite obj_after_writes.
    reflexivity.
  - left. apply obj_after_writes.
Qed.

Lemma setupMultisynth_keeps_obj (output : Z) (pllSource : si5351PLL_t)
    (div num denom : Z) (m : Machine Bus) :
  obj (snd (setupMultisynth oor output pllSource div num denom m)) = obj m.
Proof.
  rewrite setupMultisynth_eq.
  destruct (setupMultisynth_fields oor div num denom) as [[P1 P2] P3].
  destruct (initialised (config m)); [|reflexivity].
  destruct (_ && _); [|reflexivity].
  match goal with |- context [finish ?ws _ m] =>
    destruct (finish_id_cases ws m) as (Hobj & _) end.
  exact Hobj.
Qed.

Lemma setupRdiv_obj_cases (output div : Z) (m : Machine Bus) :
  obj (snd (setupRdiv output div m)) = obj m \/
  obj (snd (setupRdiv output div m)) = set_lastRdivValue output (rdiv_field div) (obj m).
Proof.
  destruct (Z_lt_le_dec output 3) as [Hlt | Hge].
  - right. pose proof (setupRdiv_eq output div m Hlt) as E. cbv zeta in E.
    rewrite E. reflexivity.
  - left. rewrite setupRdiv_rejects by exact Hge. reflexivity.
Qed.

(** How a call changes the driver object. *)
Lemma perform_obj_cases (o : operation) (m : Machine Bus) :
  let d := obj m in
  let d' := obj (snd (perform oor table o m)) in
  match o with
  | Begin => d' = d \/ d' = set_config (begun_config (m_si5351Config d)) d
  | SetupPLLInt pll _ | SetupPLL pll _ _ _ =>
      d' = d \/
      initialised (m_si5351Config d) = true /\
      exists f, d' = set_config (set_pll pll f (m_si5351Config d)) d
  | SetupRdiv output div => d' = d \/ d' = set_lastRdivValue output (rdiv_field div) d
  | _ => d' = d
  end.
Proof.
  cbv zeta. destruct o; cbn [perform].
  - destruct (fst (begin m)) eqn:E;
      first [right; apply begin_success_obj; exact E
            | left; apply begin_error_obj; rewrite E; discriminate].
  - rewrite setClockBuilderData_eq. destruct (initialised (config m)); [|reflexivity].
    apply finish_id_cases.
  - apply setupPLL_obj_cases.
  - apply setupPLL_obj_cases.
  - apply setupMultisynth_keeps_obj.
  - apply setupRdiv_obj_cases.
  - apply setupMultisynth_keeps_obj.
  - rewrite enableOutputs_eq. destruct (initialised (config m)); [|reflexivity].
    apply finish_id_cases.
  - apply enableSpreadSpectrum_keeps_obj.
Qed.

Ltac obj_cases H :=
  repeat match type of H with
         | _ \/ _ => destruct H as [H | H]
         | _ /\ _ => destruct H as [? H]
         | exists _, _ => destruct H as [? H]
         end.

Ltac split_invariant := split; [|split; [|split; [|split; [|split]]]].

Lemma rdiv_wf_insert (output div : Z) (d : Adafruit_SI5351) :
  rdiv_wf d -> rdiv_wf (set_lastRdivValue output (rdiv_field div) d).
Proof.
  intros [Hlen Hall]. unfold rdiv_wf, set_lastRdivValue. cbn [lastRdivValue].
  split; [rewrite length_insert; exact Hlen|].
  apply Forall_insert; [exact Hall|].
  exists (div mod 8). split; [|apply rdiv_field_eq].
  pose proof (Z.mod_pos_bound div 8 ltac:(lia)). lia.
Qed.

Lemma driver_invariant_step (load : Z) (o : operation) (m : Machine Bus) :
  driver_invariant load (obj m) ->
  driver_invariant load (obj (snd (perform oor table o m))).
Proof.
  intros Hinv. pose proof (perform_obj_cases o m) as H. cbv zeta in H.
  destruct Hinv as (Hf & Hl & Hp & Hr & Hc & Hz).
  destruct o; obj_cases H;
    rewrite H; unfold driver_invariant; cbv zeta; cbn [m_si5351Config set_config];
    try (split_invariant; assumption).
  - split_invariant; try assumption; intros []; cbn; congruence.
  - destruct pll; split_invariant; try assumption; intros []; cbn; intros Hq;
      try congruence;
      first [exact (Hz SI5351_PLL_A Hq) | exact (Hz SI5351_PLL_B Hq)].
  - destruct pll; split_invariant; try assumption; intros []; cbn; intros Hq;
      try congruence;
      first [exact (Hz SI5351_PLL_A Hq) | exact (Hz SI5351_PLL_B Hq)].
  - split_invariant; try assumption. apply rdiv_wf_insert. exact Hr.
Qed.

(** X19. What each call may touch.  No call changes the crystal
    settings; only [setupRdiv] changes the stored R-divider fields; only
    [begin], [setupPLL] and [setupPLLInt] change the configuration, and
    [setupPLL] only that of the PLL it is called for; no call clears the
    initialised flag. *)
Theorem calls_keep_what_they_do_not_own (o : operation) (m : Machine Bus) :
  let c := config m in
  let c' := config (snd (perform oor table o m)) in
  (crystalFreq c' = crystalFreq c /\ crystalLoad c' = crystalLoad c /\
   crystalPPM c' = crystalPPM c) /\
  (initialised c = true -> initialised c' = true) /\
  match o with
  | SetupRdiv _ _ => c' = c
  | Begin => lastRdivValue (obj (snd (perform oor table o m))) = lastRdivValue (obj m)
  | SetupPLLInt pll _ | SetupPLL pll _ _ _ =>
      lastRdivValue (obj (snd (perform oor table o m))) = lastRdivValue (obj m) /\
      initialised c' = initialised c /\
      forall other, other <> pll ->
        pll_configured other c' = pll_configured other c /\
        pll_freq other c' = pll_freq other c
  | _ => obj (snd (perform oor table o m)) = obj m
  end.
Proof.
  cbv zeta. pose proof (perform_obj_cases o m) as H. cbv zeta in H. unfold config.
  destruct o; obj_cases H; rewrite H; clear H;
    try match goal with pll : si5351PLL_t |- _ => destruct pll end;
    split_all; try reflexivity; auto;
    intros other Hne; destruct other; try congruence; split; reflexivity.
Qed.

Lemma driver_invariant_fresh (load : Z) :
  driver_invariant load (new_Adafruit_SI5351 load).
Proof.
  unfold driver_invariant, new_Adafruit_SI5351. cbv zeta. cbn [m_si5351Config].
  split_invariant; try reflexivity.
  - split; [reflexivity|]. cbn [lastRdivValue].
    repeat constructor; exists 0; split; (lia || reflexivity).
  - intros []; discriminate.
  - intros []; reflexivity.
Qed.

(** X20. In every state a program reaches from the constructor by calls
    of the public functions, the first of them [begin], whatever the
    calls return and whatever the device does: the crystal frequency is
    25 MHz, the load capacitance and the ppm value are the constructor's,
    the stored R-divider fields are three 3-bit codes in bits 6:4, a PLL
    marked configured belongs to an initialised instance, and a PLL not
    marked configured has frequency 0. *)
Theorem reachable_states_satisfy_invariant (load : Z) (b : Bus) (os : list operation) :
  driver_invariant load (obj (perform_all oor table (Begin :: os) (fresh load b))).
Proof.
  unfold perform_all. cbn [fold_left].
  assert (H : driver_invariant load (obj (snd (perform oor table Begin (fresh load b)))))
    by (apply driver_invariant_step, driver_invariant_fresh).
  revert H. generalize (snd (perform oor table Begin (fresh load b))).
  induction os as [|o os IH]; intros m Hm; [exact Hm|].
  cbn [fold_left]. apply IH. apply driver_invariant_step. exact Hm.
Qed.

(** X21. An initialised instance stays initialised over any sequence of
    calls, failed ones included; and a PLL that is configured stays
    configured over any sequence of calls that does not contain
    [begin]. *)
Theorem configuration_persists (os : list operation) (m : Machine Bus) :
  initialised (config m) = true ->
  initialised (config (perform_all oor table os m)) = true /\
  (Forall (fun o => o <> Begin) os ->
   forall pll, pll_configured pll (config m) = true ->
               pll_configured pll (config (perform_all oor table os m)) = true).
Proof.
  revert m. unfold perform_all.
  induction os as [|o os IH]; intros m Hinit; [split; auto|].
  cbn [fold_left].
  pose proof (perform_obj_cases o m) as H. cbv zeta in H.
  assert (Hinit' : initialised (config (snd (perform oor table o m))) = true).
  { unfold config in *.
    destruct o; obj_cases H;
      rewrite H; try exact Hinit; try reflexivity; destruct pll; exact Hinit. }
  destruct (IH _ Hinit') as [IH1 IH2]. split; [exact IH1|].
  intros Hall pll Hpll. inversion Hall as [|? ? Ho Hos]; subst.
  apply (IH2 Hos). unfold config in *.
  destruct o; try congruence;
    obj_cases H;
    rewrite H; try exact Hpll;
    match goal with |- pll_configured ?p (m_si5351Config (set_config (set_pll ?q _ _) _)) = _ =>
      destruct p, q; try reflexivity; exact Hpll end.
Qed.
End Sequences.

(** * A complete bring-up *)

Section BringUp.
Context {Bus : Type} {device : I2CDevice Bus}.
Variable oor : spec_float -> Z.

Hypothesis detected : forall b, fst (dev_begin b) = true.
Hypothesis acknowledged : forall bytes b, fst (dev_write bytes b) = true.

Lemma write_all_acknowledged (ws : list (list Z)) (m : Machine Bus) :
  write_all ws m = (inr tt, after_writes ws m).
Proof.
  revert m. induction ws as [|w ws IH]; intros m; [reflexivity|].
  cbn [write_all]. rewrite bind_write, acknowledged. apply IH.
Qed.

Lemma finish_acknowledged (ws : list (list Z)) (last : Machine Bus -> Machine Bus)
    (m : Machine Bus) :
  finish ws last m = (ERROR_NONE, last (after_writes ws m)).
Proof. unfold finish. rewrite write_all_acknowledged. reflexivity. Qed.

(** The machines the calls of a bring-up leave behind, one after the
    other. *)
Lemma bring_up_machines (pll : si5351PLL_t) (mult output rdiv div : Z)
    (m : Machine Bus) :
  length (lastRdivValue (obj m)) = 3%nat ->
  15 <= mult <= 90 -> 0 <= output <= 2 -> 4 <= div <= 2048 ->
  let m1 := begin_finish
              (after_writes (begin_writes (crystalLoad (config m))) (after_begin m)) in
  let m2 := with_config
              (set_pll pll (fvco_floor oor (crystalFreq (config m1)) mult 0 1)
                 (config m1))
              (after_writes (setupPLL_writes pll (128 * mult - 512) 0 1) m1) in
  let reg := u8 (rdiv_register output) in
  let m3 := after_write
              [reg;
               u8 (Z.lor (Z.land (u8 (snd (fst (dev_write_then_read reg (bus m2))))) 0x0F)
                         (rdiv mod 8 * 16))]
              (with_obj (set_lastRdivValue output (rdiv mod 8 * 16) (obj m2))
                 (after_read reg m2)) in
  let m4 := after_writes
              (setupMultisynth_writes output (rdiv mod 8 * 16) pll 0
                 (128 * div - 512) 0 1) m3 in
  let m5 := after_writes [[3; 0]] m4 in
  begin m = (ERROR_NONE, m1) /\
  setupPLLInt oor pll mult m1 = (ERROR_NONE, m2) /\
  setupRdiv output rdiv m2 = (ERROR_NONE, m3) /\
  setupMultisynthInt oor output pll div m3 = (ERROR_NONE, m4) /\
  enableOutputs true m4 = (ERROR_NONE, m5) /\
  initialised (config m4) = true /\ pll_configured pll (config m4) = true.
Proof.
  intros Hlen Hmult Hout Hdiv. cbv zeta.
  (* begin *)
  assert (E1 : begin m =
               (ERROR_NONE,
                begin_finish
                  (after_writes (begin_writes (crystalLoad (config m))) (after_begin m))))
    by (rewrite begin_eq, detected, finish_acknowledged; reflexivity).
  set (m1 := begin_finish _) in *.
  assert (O1 : obj m1 = set_config (begun_config (config m)) (obj m)).
  { unfold m1. rewrite obj_begin_finish. unfold config. rewrite obj_after_writes.
    reflexivity. }
  (* setupPLLInt *)
  assert (E2 : setupPLLInt oor pll mult m1 =
               (ERROR_NONE,
                with_config (set_pll pll (fvco_floor oor (crystalFreq (config m1)) mult 0 1)
                               (config m1))
                  (after_writes (setupPLL_writes pll (128 * mult - 512) 0 1) m1))).
  { unfold setupPLLInt. rewrite setupPLL_eq.
    replace (setupPLL_fields oor mult 0 1) with (128 * mult - 512, 0, 1)
      by (unfold setupPLL_fields; cbn [Z.eqb]; unfold u32;
          rewrite Z.mod_small by lia; reflexivity).
    replace (initialised (config m1)) with true
      by (unfold config; rewrite O1; reflexivity).
    replace (setupPLL_args_ok mult 0 1) with true
      by (unfold setupPLL_args_ok; symmetry; rewrite !andb_true_iff; lia).
    rewrite finish_acknowledged. unfold config at 2 4. rewrite obj_after_writes.
    reflexivity. }
  set (m2 := with_config _ (after_writes _ m1)) in *.
  assert (I2 : initialised (config m2) = true).
  { unfold m2, with_config, with_obj, config. cbn [obj set_config m_si5351Config].
    rewrite O1. destruct pll; reflexivity. }
  assert (C2 : pll_configured pll (config m2) = true).
  { unfold m2, with_config, with_obj, config. cbn [obj set_config m_si5351Config].
    destruct pll; reflexivity. }
  assert (L2 : length (lastRdivValue (obj m2)) = 3%nat).
  { unfold m2, with_config, with_obj. cbn [obj set_config lastRdivValue].
    rewrite obj_after_writes, O1. exact Hlen. }
  (* setupRdiv *)
  pose proof (setupRdiv_eq output rdiv m2 ltac:(lia)) as E3. cbv zeta in E3.
  rewrite acknowledged in E3. fold (rdiv_field rdiv) in E3.
  rewrite rdiv_field_eq in E3.
  set (m3 := after_write _ (with_obj _ (after_read _ m2))) in *.
  assert (I3 : initialised (config m3) = true) by exact I2.
  assert (C3 : pll_configured pll (config m3) = true) by exact C2.
  assert (R3 : get_lastRdivValue output (obj m3) = rdiv mod 8 * 16).
  { unfold m3, after_write, with_obj, get_lastRdivValue, set_lastRdivValue.
    cbn [obj lastRdivValue].
    rewrite list_lookup_insert_eq by (rewrite L2; lia). reflexivity. }
  (* setupMultisynthInt *)
  assert (E4 : setupMultisynthInt oor output pll div m3 =
               (ERROR_NONE,
                after_writes
                  (setupMultisynth_writes output (rdiv mod 8 * 16) pll 0
                     (128 * div - 512) 0 1) m3)).
  { unfold setupMultisynthInt. rewrite setupMultisynth_eq.
    replace (setupMultisynth_fields oor div 0 1) with (128 * div - 512, 0, 1)
      by (unfold setupMultisynth_fields; cbn [Z.eqb]; unfold u32;
          rewrite Z.mod_small by lia; reflexivity).
    rewrite I3, C3, R3.
    replace (setupMultisynth_args_ok output div 0 1) with true
      by (unfold setupMultisynth_args_ok; symmetry; rewrite !andb_true_iff; lia).
    cbn [andb]. apply finish_acknowledged. }
  set (m4 := after_writes _ m3) in *.
  assert (O4 : obj m4 = obj m3) by apply obj_after_writes.
  assert (I4 : initialised (config m4) = true)
    by (unfold config; rewrite O4; exact I3).
  (* enableOutputs *)
  assert (E5 : enableOutputs true m4 = (ERROR_NONE, after_writes [[3; 0]] m4)).
  { rewrite enableOutputs_eq, I4. apply finish_acknowledged. }
  split_all; try assumption. unfold config. rewrite O4. exact C3.
Qed.

(** X22. The usual bring-up goes through on a device that answers the
    detection and acknowledges every write, from any state of the
    instance and whatever its reads return: [begin], [setupPLLInt] with
    a multiplier 15..90, [setupRdiv] on a channel 0..2,
    [setupMultisynthInt] on that channel from that PLL with a divider
    4..2048 and [enableOutputs(true)] all return [ERROR_NONE].  The last
    three transactions are the Multisynth burst, carrying P1 = 128*div -
    512, P2 = 0, P3 = 1 and the R-divider field just stored, the clock
    control byte (0x4F for PLL A, 0x6F for PLL B) and the output enable
    (register 3, 0x00). *)
Theorem bring_up_succeeds (pll : si5351PLL_t) (mult output rdiv div : Z)
    (m : Machine Bus) :
  length (lastRdivValue (obj m)) = 3%nat ->
  15 <= mult <= 90 -> 0 <= output <= 2 -> 4 <= div <= 2048 ->
  let s1 := begin m in
  let s2 := setupPLLInt oor pll mult (snd s1) in
  let s3 := setupRdiv output rdiv (snd s2) in
  let s4 := setupMultisynthInt oor output pll div (snd s3) in
  let s5 := enableOutputs true (snd s4) in
  (fst s1 = ERROR_NONE /\ fst s2 = ERROR_NONE /\ fst s3 = ERROR_NONE /\
   fst s4 = ERROR_NONE /\ fst s5 = ERROR_NONE) /\
  initialised (config (snd s5)) = true /\
  pll_configured pll (config (snd s5)) = true /\
  trace (snd s5) =
    EvWrite [3; 0]
      :: EvWrite [16 + output; if pll is SI5351_PLL_A then 0x4F else 0x6F]
      :: EvWrite (multisynth_sendBuffer output (rdiv mod 8 * 16) (128 * div - 512) 0 1)
      :: trace (snd s3).
Proof.
  intros Hlen Hmult Hout Hdiv. cbv zeta.
  pose proof (bring_up_machines pll mult output rdiv div m Hlen Hmult Hout Hdiv) as H.
  cbv zeta in H. destruct H as (E1 & E2 & E3 & E4 & E5 & I4 & C4).
  rewrite E1. cbn [fst snd]. rewrite E2. cbn [fst snd]. rewrite E3. cbn [fst snd].
  rewrite E4. cbn [fst snd]. rewrite E5. cbn [fst snd].
  split; [split_all; reflexivity|].
  unfold config in *. rewrite obj_after_writes.
  split; [exact I4|]. split; [exact C4|].
  rewrite !trace_after_writes.
  assert (output = 0 \/ output = 1 \/ output = 2) as [-> | [-> | ->]] by lia;
    destruct pll; reflexivity.
Qed.
End BringUp.

(** * Status codes, and the PLL a Multisynth draws from *)

Section StatusCodes.
Context {Bus : Type} {device : I2CDevice Bus}.
Variable oor : spec_float -> Z.
Variable table : list (Z * Z).

Lemma finish_status (ws : list (list Z)) (last : Machine Bus -> Machine Bus)
    (m : Machine Bus) :
  fst (finish ws last m) = ERROR_NONE \/ fst (finish ws last m) = ERROR_I2C_TRANSACTION.
Proof.
  destruct (finish_cases ws last m) as (k & _ & [[-> _] | [-> _]]); auto.
Qed.

(** X23. Which status a call can return, and what an early rejection
    means.  [ERROR_I2C_DEVICENOTFOUND] comes from [begin] alone.
    [ERROR_DEVICENOTINITIALISED] comes only from the functions that
    check the flag ([begin], [setupRdiv] and [enableSpreadSpectrum] do
    not) and only on an instance that is not initialised.
    [ERROR_INVALIDPARAMETER] comes only from the functions that take
    parameters to check.  Whenever one of the latter two is returned,
    nothing has been sent to the device and the instance is untouched. *)
Theorem status_codes_of_calls (o : operation) (m : Machine Bus) :
  let r := perform oor table o m in
  (fst r = ERROR_I2C_DEVICENOTFOUND -> o = Begin) /\
  (fst r = ERROR_DEVICENOTINITIALISED ->
   match o with
   | Begin | SetupRdiv _ _ | EnableSpreadSpectrum _ => False
   | _ => initialised (config m) = false /\ snd r = m
   end) /\
  (fst r = ERROR_INVALIDPARAMETER ->
   match o with
   | Begin | SetClockBuilderData | EnableOutputs _ | EnableSpreadSpectrum _ => False
   | _ => snd r = m
   end).
Proof.
  cbv zeta. destruct o; cbn [perform]; unfold setupPLLInt, setupMultisynthInt.
  - rewrite begin_eq. destruct (fst (dev_begin (bus m)));
      [|cbn [fst]; split_all; congruence].
    match goal with |- context [finish ?ws ?l ?m0] =>
      destruct (finish_status ws l m0) as [-> | ->] end; split_all; congruence.
  - rewrite setClockBuilderData_eq. destruct (initialised (config m));
      [|cbn [fst snd]; split_all; auto; congruence].
    match goal with |- context [finish ?ws ?l ?m0] =>
      destruct (finish_status ws l m0) as [-> | ->] end; split_all; congruence.
  - rewrite setupPLL_eq. destruct (setupPLL_fields oor mult 0 1) as [[P1 P2] P3].
    destruct (initialised (config m)); [|cbn [fst snd]; split_all; auto; congruence].
    destruct (setupPLL_args_ok mult 0 1); [|cbn [fst snd]; split_all; auto; congruence].
    match goal with |- context [finish ?ws ?l ?m0] =>
      destruct (finish_status ws l m0) as [-> | ->] end; split_all; congruence.
  - rewrite setupPLL_eq. destruct (setupPLL_fields oor mult num denom) as [[P1 P2] P3].
    destruct (initialised (config m)); [|cbn [fst snd]; split_all; auto; congruence].
    destruct (setupPLL_args_ok mult num denom);
      [|cbn [fst snd]; split_all; auto; congruence].
    match goal with |- context [finish ?ws ?l ?m0] =>
      destruct (finish_status ws l m0) as [-> | ->] end; split_all; congruence.
  - rewrite setupMultisynth_eq.
    destruct (setupMultisynth_fields oor div 0 1) as [[P1 P2] P3].
    destruct (initialised (config m)); [|cbn [fst snd]; split_all; auto; congruence].
    destruct (_ && _); [|cbn [fst snd]; split_all; auto; congruence].
    match goal with |- context [finish ?ws ?l ?m0] =>
      destruct (finish_status ws l m0) as [-> | ->] end; split_all; congruence.
  - destruct (Z_lt_le_dec output 3) as [Hlt | Hge].
    + pose proof (setupRdiv_eq output div m Hlt) as E. cbv zeta in E. rewrite E.
      cbn [fst]. destruct (fst (dev_write _ _)); split_all; congruence.
    + rewrite setupRdiv_rejects by exact Hge. cbn [fst snd]. split_all; auto; congruence.
  - rewrite setupMultisynth_eq.
    destruct (setupMultisynth_fields oor div num denom) as [[P1 P2] P3].
    destruct (initialised (config m)); [|cbn [fst snd]; split_all; auto; congruence].
    destruct (_ && _); [|cbn [fst snd]; split_all; auto; congruence].
    match goal with |- context [finish ?ws ?l ?m0] =>
      destruct (finish_status ws l m0) as [-> | ->] end; split_all; congruence.
  - rewrite enableOutputs_eq. destruct (initialised (config m));
      [|cbn [fst snd]; split_all; auto; congruence].
    match goal with |- context [finish ?ws ?l ?m0] =>
      destruct (finish_status ws l m0) as [-> | ->] end; split_all; congruence.
  - destruct (enableSpreadSpectrum_status enabled m) as [-> | ->]; split_all; congruence.
Qed.

(** X24. A Multisynth draws only from a PLL that has itself been set up
    since the last [begin]: after a successful [begin] and a call of
    [setupPLL] for one PLL, whatever its arguments and its outcome,
    every [setupMultisynth] that names the other PLL as its source is
    rejected with [ERROR_INVALIDPARAMETER] and sends nothing. *)
Theorem multisynth_needs_its_own_pll (pll other : si5351PLL_t) (mult num denom : Z)
    (output div num' denom' : Z) (m : Machine Bus) :
  fst (begin m) = ERROR_NONE -> other <> pll ->
  let m1 := snd (begin m) in
  let m2 := snd (setupPLL oor pll mult num denom m1) in
  setupMultisynth oor output other div num' denom' m2 = (ERROR_INVALIDPARAMETER, m2).
Proof.
  intros Hok Hne. cbv zeta.
  pose proof (begin_success_obj m Hok) as O1.
  set (m1 := snd (begin m)) in *.
  assert (C1 : config m1 = begun_config (config m))
    by (unfold config at 1; rewrite O1; reflexivity).
  set (m2 := snd (setupPLL oor pll mult num denom m1)).
  assert (H2 : initialised (config m2) = true /\ pll_configured other (config m2) = false).
  { destruct (setupPLL_obj_cases oor pll mult num denom m1) as [H | (_ & f & H)];
      fold m2 in H; unfold config at 1 2; rewrite H.
    - fold (config m1). rewrite C1. split; [reflexivity | destruct other; reflexivity].
    - cbn [set_config m_si5351Config]. rewrite C1.
      destruct pll, other; try congruence; split; reflexivity. }
  destruct H2 as [I2 P2]. rewrite setupMultisynth_eq.
  destruct (setupMultisynth_fields oor div num' denom') as [[Q1 Q2] Q3].
  rewrite I2, P2, andb_false_r. reflexivity.
Qed.

(** X25. The closed form [setupMultisynth] uses for denominator 1.  For
    a numerator 1..0xFFFFF and a divider 4..2048 it yields
    P1 = 128*div + 128*num - 512, as the documented formula does, and
    P2 = 128*num - 128, where the documented formula yields 0: the two
    agree exactly when the numerator is 1. *)
Theorem closed_form_branch_fields (div num : Z) :
  4 <= div <= 2048 -> 1 <= num <= 0xFFFFF ->
  setupMultisynth_fields oor div num 1 =
    (128 * div + 128 * num - 512, 128 * num - 128, 1) /\
  spec_fractional_fields div num 1 = (128 * div + 128 * num - 512, 0, 1) /\
  (setupMultisynth_fields oor div num 1 = spec_fractional_fields div num 1 <-> num = 1).
Proof.
  intros Hdiv Hnum.
  assert (E1 : setupMultisynth_fields oor div num 1 =
               (128 * div + 128 * num - 512, 128 * num - 128, 1)).
  { unfold setupMultisynth_fields. replace (num =? 0) with false by lia.
    cbn [Z.eqb Pos.eqb]. unfold u32. rewrite !Z.mod_small by lia. reflexivity. }
  assert (E2 : spec_fractional_fields div num 1 = (128 * div + 128 * num - 512, 0, 1)).
  { unfold spec_fractional_fields. rewrite Z.div_1_r. f_equal. f_equal. lia. }
  split; [exact E1|]. split; [exact E2|]. rewrite E1, E2. split.
  - intros H. injection H as H. lia.
  - intros ->. reflexivity.
Qed.
End StatusCodes.

(** * On a device with registers *)

Section Registers.
Variable oor : spec_float -> Z.

Lemma register_device_acknowledges (bytes : list Z) (regs : Z -> Z) :
  fst (@dev_write _ register_device bytes regs) = true.
Proof. destruct bytes; reflexivity. Qed.

Lemma get_lastRdivValue_wf (output : Z) (d : Adafruit_SI5351) :
  rdiv_wf d -> exists r, 0 <= r <= 7 /\ get_lastRdivValue output d = r * 16.
Proof.
  intros [_ Hall]. unfold get_lastRdivValue.
  destruct (lastRdivValue d !! Z.to_nat output) as [v|] eqn:E.
  - rewrite Forall_lookup in Hall. exact (Hall _ _ E).
  - exists 0. split; [lia | reflexivity].
Qed.

Lemma get_set_lastRdivValue (output v : Z) (d : Adafruit_SI5351) :
  0 <= output < 3 -> length (lastRdivValue d) = 3%nat ->
  get_lastRdivValue output (set_lastRdivValue output v d) = v.
Proof.
  intros Ho Hl. unfold get_lastRdivValue, set_lastRdivValue. cbn [lastRdivValue].
  rewrite list_lookup_insert_eq by (rewrite Hl; lia). reflexivity.
Qed.

(** The third register byte once the R-divider field has been merged
    into a byte that holds the two high bits of P1 under another
    field. *)
Lemma remerged_third_byte (P1 r0 div : Z) :
  0 <= r0 <= 7 ->
  u8 (Z.lor (Z.land (u8 (u8 (Z.lor (Z.shiftr (Z.land P1 0x30000) 16) (r0 * 16)))) 0x0F)
            (rdiv_field div)) =
  u8 (Z.lor (Z.shiftr (Z.land P1 0x30000) 16) (rdiv_field div)).
Proof.
  intros Hr0. rewrite rdiv_field_eq.
  pose proof (Z.mod_pos_bound div 8 ltac:(lia)) as Hd.
  destruct (third_byte_layout P1 r0 Hr0) as (E0 & _ & _). cbv zeta in E0.
  destruct (third_byte_layout P1 (div mod 8) ltac:(lia)) as (E1 & _ & _). cbv zeta in E1.
  rewrite E0, E1.
  pose proof (Z.mod_pos_bound (Z.shiftr P1 16) 4 ltac:(lia)) as Hh.
  set (h := Z.shiftr P1 16 mod 4) in *.
  assert (Hu : forall z, 0 <= z < 256 -> u8 z = z)
    by (intros z Hz; unfold u8; apply Z.mod_small; exact Hz).
  rewrite (Hu (r0 * 16 + h)) by lia.
  rewrite merge_low_nibble by lia.
  rewrite <- (Z.mod_unique (r0 * 16 + h) 16 r0 h) by lia.
  apply Hu. lia.
Qed.

Ltac register_cases a B C :=
  assert (a = B \/ a = B + 1 \/ a = B + 2 \/ a = B + 3 \/ a = B + 4 \/
          a = B + 5 \/ a = B + 6 \/ a = B + 7 \/ a = C \/
          (a < B \/ B + 7 < a) /\ a <> C) as Ha by lia.

(** X26. On a device with registers [setupRdiv] and [setupMultisynth]
    for the same channel can be called in either order: the driver
    object and every register of the device end up the same.  The burst
    of [setupMultisynth] rewrites the register that holds the R divider,
    and it is the field stored by [setupRdiv] that keeps the divider in
    place; in the other order the read-modify-write of [setupRdiv] keeps
    the two high bits of P1 that share the register.  This holds in
    every state whose stored fields are well formed, whether or not the
    calls pass their validation. *)
Theorem rdiv_and_multisynth_commute (output rdiv : Z) (pllSource : si5351PLL_t)
    (div num denom : Z) (m : Machine (Z -> Z)) :
  rdiv_wf (obj m) -> 0 <= output ->
  let mA := snd (@setupMultisynth _ register_device oor output pllSource div num denom
                   (snd (@setupRdiv _ register_device output rdiv m))) in
  let mB := snd (@setupRdiv _ register_device output rdiv
                   (snd (@setupMultisynth _ register_device oor output pllSource
                           div num denom m))) in
  obj mA = obj mB /\ forall a, bus mA a = bus mB a.
Proof.
  intros Hwf Hout. cbv zeta.
  destruct (Z_lt_le_dec output 3) as [Hlt | Hge].
  2:{ rewrite !(@setupRdiv_rejects _ register_device) by exact Hge. cbn [snd].
      rewrite !(@setupMultisynth_eq _ register_device).
      destruct (setupMultisynth_fields oor div num denom) as [[P1 P2] P3].
      replace (setupMultisynth_args_ok output div num denom) with false
        by (unfold setupMultisynth_args_ok; replace (output <? 3) with false by lia;
            reflexivity).
      cbn [andb]. destruct (initialised (config m)); split; reflexivity. }
  pose proof (@setupRdiv_eq _ register_device output rdiv) as ER. cbv zeta in ER.
  rewrite !ER by exact Hlt. cbn [snd]. fold (rdiv_field rdiv).
  rewrite !(@setupMultisynth_eq _ register_device).
  destruct (setupMultisynth_fields oor div num denom) as [[P1 P2] P3].
  change (config (after_write ?w (with_obj ?d (after_read ?r m)))) with
    (m_si5351Config d).
  cbn [set_lastRdivValue m_si5351Config]. fold (config m).
  destruct (initialised (config m)); [|cbn [snd]; split; reflexivity].
  destruct (setupMultisynth_args_ok output div num denom && _);
    [|cbn [snd]; split; reflexivity].
  rewrite !(finish_acknowledged register_device_acknowledges). cbn [snd].
  destruct (get_lastRdivValue_wf output (obj m) Hwf) as (r0 & Hr0 & E0).
  destruct Hwf as [Hlen _].
  cbn [after_write after_read with_obj obj bus].
  rewrite !obj_after_writes. cbn [obj].
  rewrite get_set_lastRdivValue by (assumption || lia).
  split; [reflexivity|]. intros a.
  rewrite E0.
  assert (output = 0 \/ output = 1 \/ output = 2) as Ho by lia.
  unfold setupMultisynth_writes, after_writes. cbn [fold_left after_write bus].
  pose proof (remerged_third_byte P1 r0 rdiv Hr0) as Hbyte.
  destruct Ho as [-> | [-> | ->]];
    cbn [clk_control_writes Z.eqb Pos.eqb fold_left after_write bus dev_write
         register_device snd multisynth_sendBuffer multisynth_baseaddr
         rdiv_register dev_write_then_read fst] in *;
    unfold store_burst; cbn [length Nat.add] in *;
    change (Z.of_nat 1) with 1; change (Z.of_nat 8) with 8;
    repeat match goal with
           | |- context [u8 ?c] =>
               is_const c; let v := eval vm_compute in (u8 c) in change (u8 c) with v
           end;
    [ register_cases a 42 16 | register_cases a 50 17 | register_cases a 58 18 ];
    repeat (destruct Ha as [-> | Ha]);
    repeat match goal with
           | |- context [if ?c then _ else _] =>
               first [replace c with true by lia | replace c with false by lia]
           end;
    simpl (Z.to_nat _); cbn [nth]; first [reflexivity | symmetry; exact Hbyte].
Qed.
Lemma decode_parameter_bytes (P1 P2 P3 b2 : Z) :
  0 <= P1 < 2 ^ 18 -> 0 <= P2 < 2 ^ 20 -> 0 <= P3 < 2 ^ 20 ->
  b2 mod 4 = (P1 / 65536) mod 4 ->
  decode_fields
    [ u8 (Z.shiftr (Z.land P3 0xFF00) 8); u8 (Z.land P3 0xFF); b2;
      u8 (Z.shiftr (Z.land P1 0xFF00) 8); u8 (Z.land P1 0xFF);
      u8 (Z.lor (Z.shiftr (Z.land P3 0xF0000) 12) (Z.shiftr (Z.land P2 0xF0000) 16));
      u8 (Z.shiftr (Z.land P2 0xFF00) 8); u8 (Z.land P2 0xFF) ] = (P1, P2, P3).
Proof.
  intros H1 H2 H3 Hb.
  destruct (parameter_bytes P1 P2 P3) as (E0 & E1 & E2 & E3 & E4 & E5 & E6 & E7).
  cbn [decode_fields]. rewrite E0, E1, E3, E4, E5, E6, E7, Hb.
  pose proof (Z.mod_pos_bound (P3 / 65536) 16 ltac:(lia)).
  pose proof (Z.mod_pos_bound (P2 / 65536) 16 ltac:(lia)).
  set (h3 := (P3 / 65536) mod 16) in *. set (h2 := (P2 / 65536) mod 16) in *.
  rewrite <- (Z.mod_unique (h3 * 16 + h2) 16 h3 h2) by lia.
  rewrite <- (Z.div_unique (h3 * 16 + h2) 16 h3 h2) by lia.
  subst h3 h2.
  rewrite (fields_from_bytes P1 4), (fields_from_bytes P2 16), (fields_from_bytes P3 16)
    by lia.
  reflexivity.
Qed.

Lemma register_device_detected (regs : Z -> Z) :
  fst (@dev_begin _ register_device regs) = true.
Proof. reflexivity. Qed.

Lemma bus_after_writes (ws : list (list Z)) (m : Machine (Z -> Z)) :
  bus (@after_writes _ register_device ws m) = store_all ws (bus m).
Proof.
  revert m. induction ws as [|w ws IH]; intros m; [reflexivity|].
  unfold after_writes, store_all in *. cbn [fold_left]. rewrite IH. reflexivity.
Qed.

Lemma store_all_app (ws1 ws2 : list (list Z)) (regs : Z -> Z) :
  store_all ws2 (store_all ws1 regs) = store_all (ws1 ++ ws2) regs.
Proof. unfold store_all. rewrite fold_left_app. reflexivity. Qed.

(** The registers after a bring-up: those before it with the writes of
    the five calls stored in program order. *)
Lemma bring_up_bus (pll : si5351PLL_t) (mult output rdiv div : Z)
    (m : Machine (Z -> Z)) :
  length (lastRdivValue (obj m)) = 3%nat ->
  15 <= mult <= 90 -> 0 <= output <= 2 -> 4 <= div <= 2048 ->
  let m1 := snd (@begin _ register_device m) in
  let m2 := snd (@setupPLLInt _ register_device oor pll mult m1) in
  let m3 := snd (@setupRdiv _ register_device output rdiv m2) in
  let m4 := snd (@setupMultisynthInt _ register_device oor output pll div m3) in
  exists vs vr,
    bus (snd (@enableOutputs _ register_device true m4)) =
      store_all
        (begin_writes (crystalLoad (config m))
           ++ [[149; u8 (Z.land vs 0x7F)]]
           ++ setupPLL_writes pll (128 * mult - 512) 0 1
           ++ [[u8 (rdiv_register output); vr]]
           ++ setupMultisynth_writes output (rdiv mod 8 * 16) pll 0 (128 * div - 512) 0 1
           ++ [[3; 0]])
        (bus m).
Proof.
  intros Hlen Hmult Hout Hdiv. cbv zeta.
  pose proof (@bring_up_machines _ register_device oor register_device_detected
                register_device_acknowledges pll mult output rdiv div m
                Hlen Hmult Hout Hdiv) as H.
  cbv zeta in H. destruct H as (E1 & E2 & E3 & E4 & E5 & _).
  rewrite E1. cbn [snd]. rewrite E2. cbn [snd]. rewrite E3. cbn [snd].
  rewrite E4. cbn [snd]. rewrite E5. cbn [snd]. clear E1 E2 E3 E4 E5.
  set (m0 := @after_writes _ register_device (begin_writes (crystalLoad (config m)))
               (after_begin m)).
  assert (B0 : bus m0 = store_all (begin_writes (crystalLoad (config m))) (bus m))
    by (unfold m0; rewrite bus_after_writes; reflexivity).
  assert (B1 : exists vs, bus (@begin_finish _ register_device m0) =
                          store_all [[149; u8 (Z.land vs 0x7F)]] (bus m0)).
  { unfold begin_finish.
    pose proof (@enableSpreadSpectrum_eq _ register_device false m0) as ES.
    cbv zeta in ES. rewrite ES. eexists. reflexivity. }
  destruct B1 as [vs B1]. exists vs. rewrite B0 in B1. clear B0.
  set (m1 := @begin_finish _ register_device m0) in *. clearbody m1. clear m0.
  match goal with |- context [with_config ?c (after_writes ?ws m1)] =>
    set (m2 := with_config c (@after_writes _ register_device ws m1)) end.
  assert (B2 : bus m2 = store_all (setupPLL_writes pll (128 * mult - 512) 0 1) (bus m1))
    by (unfold m2, with_config, with_obj; cbn [bus]; apply bus_after_writes).
  clearbody m2.
  match goal with |- context [after_write [_; ?v] (with_obj ?d ?m')] =>
    exists v; set (m3 := @after_write _ register_device [u8 (rdiv_register output); v]
                            (with_obj d m')) end.
  assert (B3 : bus m3 =
               store_all [[u8 (rdiv_register output);
                           u8 (Z.lor (Z.land (u8 (bus m2 (u8 (rdiv_register output)))) 15)
                                     (rdiv mod 8 * 16))]] (bus m2))
    by reflexivity.
  clearbody m3.
  rewrite !bus_after_writes, B3, B2, B1, !store_all_app.
  reflexivity.
Qed.

(** X27. What a device with registers holds after the usual bring-up
    ([begin], [setupPLLInt], [setupRdiv], [setupMultisynthInt],
    [enableOutputs(true)], with a multiplier 15..90, a channel 0..2 and a
    divider 4..2048), whatever it held before: register 3 is 0 (all
    outputs enabled); of the eight clock control registers 16..23 the
    one of the channel holds 0x4F or 0x6F (powered up, PLL A or B as
    source, integer mode) and the seven others 0x80 (powered down); bit 7
    of register 149 (spread spectrum) is clear; register 177 holds the
    PLL reset word 0xA0 and register 183 the crystal load capacitance;
    the eight registers of the PLL decode to P1 = 128*mult - 512, P2 = 0,
    P3 = 1 and the eight registers of the Multisynth to P1 = 128*div -
    512, P2 = 0, P3 = 1; and bits 6:4 of the Multisynth's third register
    hold the R-divider code. *)
Theorem bring_up_registers (pll : si5351PLL_t) (mult output rdiv div : Z)
    (m : Machine (Z -> Z)) :
  length (lastRdivValue (obj m)) = 3%nat ->
  15 <= mult <= 90 -> 0 <= output <= 2 -> 4 <= div <= 2048 ->
  let m1 := snd (@begin _ register_device m) in
  let m2 := snd (@setupPLLInt _ register_device oor pll mult m1) in
  let m3 := snd (@setupRdiv _ register_device output rdiv m2) in
  let m4 := snd (@setupMultisynthInt _ register_device oor output pll div m3) in
  let regs := bus (snd (@enableOutputs _ register_device true m4)) in
  regs 3 = 0 /\
  (forall o, 0 <= o <= 7 ->
     regs (16 + o) =
       (if o =? output then (if pll is SI5351_PLL_A then 0x4F else 0x6F) else 0x80)) /\
  regs 149 < 128 /\ regs 177 = 0xA0 /\ regs 183 = u8 (crystalLoad (config m)) /\
  decode_fields (map regs (zrange (pll_baseaddr pll) 8)) = (128 * mult - 512, 0, 1) /\
  decode_fields (map regs (zrange (42 + 8 * output) 8)) = (128 * div - 512, 0, 1) /\
  regs (44 + 8 * output) / 16 = rdiv mod 8.
Proof.
  intros Hlen Hmult Hout Hdiv. cbv zeta.
  destruct (bring_up_bus pll mult output rdiv div m Hlen Hmult Hout Hdiv) as (vs & vr & ->).
  set (regs := store_all _ (bus m)).
  pose proof (Z.mod_pos_bound rdiv 8 ltac:(lia)) as Hr.
  assert (HP : forall a, 4 <= a <= 2048 -> 0 <= 128 * a - 512 < 2 ^ 18) by (intros; lia).
  assert (Hhigh : forall P1,
            u8 (Z.shiftr (Z.land P1 0x30000) 16) mod 4 = (P1 / 65536) mod 4).
  { intros P1. destruct (parameter_bytes P1 0 0) as (_ & _ & -> & _).
    apply Z.mod_mod. lia. }
  assert (Hthird : forall P1,
            u8 (Z.lor (Z.shiftr (Z.land P1 0x30000) 16) (rdiv mod 8 * 16)) mod 4 =
              (P1 / 65536) mod 4 /\
            u8 (Z.lor (Z.shiftr (Z.land P1 0x30000) 16) (rdiv mod 8 * 16)) / 16 =
              rdiv mod 8).
  { intros P1. destruct (third_byte_layout P1 (rdiv mod 8) ltac:(lia)) as (Eb & _ & _).
    cbv zeta in Eb. rewrite Eb, Z.shiftr_div_pow2 by lia. change (2 ^ 16) with 65536.
    pose proof (Z.mod_pos_bound (P1 / 65536) 4 ltac:(lia)).
    set (h := (P1 / 65536) mod 4) in *. split.
    - symmetry. apply (Z.mod_unique _ 4 (rdiv mod 8 * 4) h); lia.
    - symmetry. apply (Z.div_unique _ 16 (rdiv mod 8) h); lia. }
  assert (Hss : u8 (Z.land vs 0x7F) < 128).
  { change 0x7F with (Z.ones 7). rewrite Z.land_ones by lia.
    pose proof (Z.mod_pos_bound vs (2 ^ 7) ltac:(lia)). unfold u8.
    rewrite Z.mod_small; lia. }
  assert (output = 0 \/ output = 1 \/ output = 2) as Ho by lia.
  set (P1 := 128 * mult - 512) in *. set (Q1 := 128 * div - 512) in *.
  assert (HP1 : 0 <= P1 < 2 ^ 18) by (apply HP; lia).
  assert (HQ1 : 0 <= Q1 < 2 ^ 18) by (apply HP; lia).
  destruct pll; destruct Ho as [-> | [-> | ->]];
    (split; [reflexivity|]);
    (split; [intros o Hrange;
             assert (o = 0 \/ o = 1 \/ o = 2 \/ o = 3 \/ o = 4 \/ o = 5 \/ o = 6 \/ o = 7)
               as Hc by lia;
             repeat (destruct Hc as [-> | Hc]); try subst o; reflexivity|]);
    (split; [exact Hss|]);
    (split; [reflexivity|]);
    (split; [reflexivity|]);
    (split; [exact (decode_parameter_bytes P1 0 1 _ HP1 ltac:(lia) ltac:(lia) (Hhigh P1))|]);
    (split; [exact (decode_parameter_bytes Q1 0 1 _ HQ1 ltac:(lia) ltac:(lia)
                      (proj1 (Hthird Q1)))|]);
    exact (proj2 (Hthird Q1)).
Qed.
End Registers.

(** * The further theorems at concrete inputs *)

Lemma setupPLL_error_keeps_state_witness :
  @first_refused nat flaky_device (setupPLL_writes SI5351_PLL_A 4096 0 1)
    (bus (flaky_machine 3)) = Some 3%nat /\
  fst (@setupPLL nat flaky_device oor_zero SI5351_PLL_A 36 0 1 (flaky_machine 3)) =
    ERROR_I2C_TRANSACTION /\
  obj (snd (@setupPLL nat flaky_device oor_zero SI5351_PLL_A 36 0 1 (flaky_machine 3))) =
    obj (flaky_machine 3) /\
  (fst (@setupPLL nat flaky_device oor_zero SI5351_PLL_A 36 0 1 (flaky_machine 9)) =
     ERROR_NONE <->
   initialised (config (flaky_machine 9)) = true /\ setupPLL_args_ok 36 0 1 = true /\
   @first_refused nat flaky_device (setupPLL_writes SI5351_PLL_A 4096 0 1)
     (bus (flaky_machine 9)) = None).
Proof.
  pose proof (@setupPLL_error_keeps_state nat flaky_device oor_zero SI5351_PLL_A 36 0 1
                (flaky_machine 3)) as H.
  pose proof (@setupPLL_error_keeps_state nat flaky_device oor_zero SI5351_PLL_A 36 0 1
                (flaky_machine 9)) as H9.
  cbv zeta in H, H9. change (setupPLL_fields oor_zero 36 0 1) with (4096, 0, 1) in H, H9.
  cbv beta iota in H, H9.
  destruct H as (Hobj & _ & Hk & _). destruct H9 as (_ & Hiff & _).
  assert (E : @first_refused nat flaky_device (setupPLL_writes SI5351_PLL_A 4096 0 1)
                (bus (flaky_machine 3)) = Some 3%nat) by reflexivity.
  split; [exact E|].
  split; [rewrite (Hk eq_refl eq_refl 3%nat E); reflexivity|].
  split; [apply Hobj; rewrite (Hk eq_refl eq_refl 3%nat E); discriminate | exact Hiff].
Defined.

Lemma setupPLL_writes_in_order_witness :
  initialised (config (flaky_machine 8)) = true /\
  setupPLL_args_ok 36 0 1 = true /\
  @first_refused nat flaky_device (setupPLL_writes SI5351_PLL_B 4096 0 1)
    (bus (flaky_machine 8)) = Some 8%nat /\
  fst (@setupPLL nat flaky_device oor_zero SI5351_PLL_B 36 0 1 (flaky_machine 8)) =
    ERROR_I2C_TRANSACTION /\
  trace (snd (@setupPLL nat flaky_device oor_zero SI5351_PLL_B 36 0 1 (flaky_machine 8))) =
    rev (map EvWrite (setupPLL_writes SI5351_PLL_B 4096 0 1)).
Proof.
  split; [reflexivity|]. split; [reflexivity|]. split; [reflexivity|].
  pose proof (@setupPLL_writes_in_order nat flaky_device oor_zero SI5351_PLL_B 36 0 1
                (flaky_machine 8) eq_refl eq_refl) as H.
  cbv zeta in H. change (setupPLL_fields oor_zero 36 0 1) with (4096, 0, 1) in H.
  cbv beta iota in H.
  change (@first_refused nat flaky_device (setupPLL_writes SI5351_PLL_B 4096 0 1)
            (bus (flaky_machine 8))) with (Some 8%nat) in H.
  cbv iota in H. destruct H as (_ & _ & _ & Hr & Ht).
  split; [rewrite Hr; reflexivity|]. rewrite Ht. reflexivity.
Defined.

Lemma setupMultisynth_writes_in_order_witness :
  initialised (config ready_machine) = true /\ 0 <= 1 /\
  setupMultisynth_args_ok 1 8 0 1 = true /\
  pll_configured SI5351_PLL_A (config ready_machine) = true /\
  nth 0 (multisynth_sendBuffer 1 (get_lastRdivValue 1 (obj ready_machine)) 512 0 1) 0 =
    42 + 8 * 1 /\
  fst (@setupMultisynth unit ack_device oor_zero 1 SI5351_PLL_A 8 0 1 ready_machine) =
    ERROR_NONE.
Proof.
  split; [reflexivity|]. split; [lia|]. split; [reflexivity|]. split; [reflexivity|].
  pose proof (@setupMultisynth_writes_in_order unit ack_device oor_zero 1 SI5351_PLL_A
                8 0 1 ready_machine eq_refl ltac:(lia) eq_refl eq_refl) as H.
  cbv zeta in H. change (setupMultisynth_fields oor_zero 8 0 1) with (512, 0, 1) in H.
  cbv beta iota in H. destruct H as (_ & Hb & _ & Hok).
  split; [exact Hb|]. exact (proj2 (Hok eq_refl)).
Defined.

Lemma multisynth_burst_round_trip_witness :
  0 <= 5 <= 7 /\
  decode_fields (tl (multisynth_sendBuffer 2 (5 * 16) 134217600 74565 1043915)) =
    (134217600 mod 2 ^ 18, 74565 mod 2 ^ 20, 1043915 mod 2 ^ 20) /\
  burst_byte 3 (multisynth_sendBuffer 2 (5 * 16) 134217600 74565 1043915) / 16 = 5.
Proof.
  split; [lia|].
  pose proof (multisynth_burst_round_trip 2 5 134217600 74565 1043915 ltac:(lia)) as H.
  cbv zeta in H. destruct H as (Hf & _ & Hr & _). split; [exact Hf | exact Hr].
Defined.

Lemma setupRdiv_read_modify_write_witness :
  0 <= 1 /\ 1 < 3 /\
  lastRdivValue (obj (snd (@setupRdiv unit ack_device 1 14 begun_machine))) = [0; 96; 0] /\
  trace (snd (@setupRdiv unit ack_device 1 14 begun_machine)) =
    EvWrite [52; 96] :: EvRead 52 :: trace begun_machine.
Proof.
  split; [lia|]. split; [lia|].
  pose proof (@setupRdiv_read_modify_write unit ack_device 1 14 begun_machine ltac:(lia)) as H.
  cbv zeta in H. destruct H as [_ H]. destruct (H ltac:(lia)) as (_ & Hl & Ht & _).
  split; [exact Hl | exact Ht].
Defined.

Lemma begin_writes_in_order_witness :
  fst (@dev_begin nat flaky_device (bus (fresh 0xC0 4%nat))) = true /\
  @first_refused nat flaky_device (begin_writes 0xC0) 4%nat = Some 4%nat /\
  fst (@begin nat flaky_device (fresh 0xC0 4%nat)) = ERROR_I2C_TRANSACTION /\
  trace (snd (@begin nat flaky_device (fresh 0xC0 4%nat))) =
    [EvWrite [19; 0x80]; EvWrite [18; 0x80]; EvWrite [17; 0x80]; EvWrite [16; 0x80];
     EvWrite [3; 0xFF]; EvBegin] /\
  obj (snd (@begin nat flaky_device (fresh 0xC0 4%nat))) = new_Adafruit_SI5351 0xC0.
Proof.
  split; [reflexivity|]. split; [reflexivity|].
  pose proof (@begin_writes_in_order nat flaky_device (fresh 0xC0 4%nat) eq_refl) as H.
  cbv zeta in H. destruct H as (_ & _ & H).
  change (@first_refused nat flaky_device
            (begin_writes (crystalLoad (config (fresh 0xC0 4%nat))))
            (bus (after_begin (fresh 0xC0 4%nat)))) with (Some 4%nat) in H.
  cbv iota in H. destruct H as (_ & Hr & Ht & Ho).
  split; [rewrite Hr; reflexivity|]. split; [rewrite Ht; reflexivity | exact Ho].
Defined.

Lemma begin_resets_plls_witness :
  fst (@begin unit ack_device ready_machine) = ERROR_NONE /\
  pll_configured SI5351_PLL_A (config ready_machine) = true /\
  pll_configured SI5351_PLL_A (config (snd (@begin unit ack_device ready_machine))) = false /\
  @setupMultisynth unit ack_device oor_zero 0 SI5351_PLL_A 8 0 1
    (snd (@begin unit ack_device ready_machine)) =
    (ERROR_INVALIDPARAMETER, snd (@begin unit ack_device ready_machine)).
Proof.
  split; [reflexivity|]. split; [reflexivity|].
  pose proof (@begin_resets_plls unit ack_device oor_zero ready_machine eq_refl) as H.
  cbv zeta in H. destruct H as (_ & Hp & Hm).
  split; [exact (proj1 (Hp SI5351_PLL_A)) | exact (Hm 0 SI5351_PLL_A 8 0 1)].
Defined.

Lemma fields_exact_for_small_denominators_witness :
  0 < 1 < 3 /\ 3 <= 65536 /\ 15 <= 36 <= 90 /\
  setupPLL_fields oor_zero 36 1 3 = spec_fractional_fields 36 1 3 /\
  spec_fractional_fields 36 1 3 = (4138, 2, 3).
Proof.
  split; [lia|]. split; [lia|]. split; [lia|].
  split; [|reflexivity].
  exact (proj1 (fields_exact_for_small_denominators oor_zero 36 1 3 ltac:(lia) ltac:(lia))
           ltac:(lia)).
Defined.

Lemma fractional_fields_within_one_witness :
  4 <= 642 <= 2048 /\ 0 < 651819 < 1048575 /\ 1048575 <= 0xFFFFF /\
  fractional_fields oor_zero 642 651819 1048575 = (81743, 595408, 1048575) /\
  spec_fractional_fields 642 651819 1048575 = (81743, 595407, 1048575) /\
  (let '(P1, P2, P3) := fractional_fields oor_zero 642 651819 1048575 in
   let '(Q1, Q2, Q3) := spec_fractional_fields 642 651819 1048575 in
   P3 = Q3 /\
   (P1 = Q1 /\ 0 <= P2 /\ -4 <= P2 - Q2 <= 4 /\ (128 * 651819 < 2 ^ 24 -> P2 = Q2) \/
    P1 = Q1 + 1 /\ (P2 = 0 \/ SFtruncZ (fractional_P2 651819 1048575) < 0))).
Proof.
  split; [lia|]. split; [lia|]. split; [lia|].
  split; [vm_compute; reflexivity|]. split; [vm_compute; reflexivity|].
  apply (fractional_fields_within_one oor_zero 642 651819 1048575); lia.
Defined.

Lemma integer_branch_is_special_case_witness :
  4 <= 8 <= 2048 /\ 0 < 1 <= 0xFFFFF /\
  setupMultisynth_fields oor_zero 8 0 1 = (128 * 8 - 512, 0, 1) /\
  fractional_fields oor_zero 8 0 1 = setupMultisynth_fields oor_zero 8 0 1.
Proof.
  split; [lia|]. split; [lia|].
  pose proof (integer_branch_is_special_case oor_zero 8 1 ltac:(lia) ltac:(lia)) as H.
  destruct H as (H1 & _ & H3 & _). split; [exact H1 | exact H3].
Defined.

Lemma setupPLLInt_stored_frequency_witness :
  initialised (config begun_machine) = true /\
  crystalFreq (config begun_machine) = SI5351_CRYSTAL_FREQ_25MHZ /\
  15 <= 36 <= 90 /\
  (forall bytes b, fst (@dev_write unit ack_device bytes b) = true) /\
  fst (@setupPLLInt unit ack_device oor_zero SI5351_PLL_A 36 begun_machine) = ERROR_NONE /\
  pll_freq SI5351_PLL_A
    (config (snd (@setupPLLInt unit ack_device oor_zero SI5351_PLL_A 36 begun_machine))) =
    25000000 * 36.
Proof.
  split; [reflexivity|]. split; [reflexivity|]. split; [lia|].
  split; [intros bytes b; reflexivity|].
  pose proof (@setupPLLInt_stored_frequency unit ack_device oor_zero SI5351_PLL_A 36
                begun_machine eq_refl eq_refl ltac:(lia)
                (fun bytes b => eq_refl)) as H.
  cbv zeta in H. destruct H as (Hs & _ & _ & Hf).
  split; [exact Hs|]. apply Hf. left. lia.
Defined.

Lemma configuration_persists_witness :
  initialised (config begun_machine) = true /\
  initialised
    (config (@perform_all unit ack_device oor_zero []
               [SetupPLLInt SI5351_PLL_A 36; SetupRdiv 7 1; EnableOutputs true]
               begun_machine)) = true.
Proof.
  split; [reflexivity|].
  exact (proj1 (@configuration_persists unit ack_device oor_zero []
                  [SetupPLLInt SI5351_PLL_A 36; SetupRdiv 7 1; EnableOutputs true]
                  begun_machine eq_refl)).
Defined.

Lemma bring_up_succeeds_witness :
  (forall b, fst (@dev_begin unit ack_device b) = true) /\
  (forall bytes b, fst (@dev_write unit ack_device bytes b) = true) /\
  length (lastRdivValue (obj power_on)) = 3%nat /\
  15 <= 36 <= 90 /\ 0 <= 0 <= 2 /\ 4 <= 6 <= 2048 /\
  fst (@begin unit ack_device power_on) = ERROR_NONE /\
  fst (@setupPLLInt unit ack_device oor_zero SI5351_PLL_A 36
         (snd (@begin unit ack_device power_on))) = ERROR_NONE.
Proof.
  split; [intros b; reflexivity|]. split; [intros bytes b; reflexivity|].
  split; [reflexivity|]. split; [lia|]. split; [lia|]. split; [lia|].
  pose proof (@bring_up_succeeds unit ack_device oor_zero
                (fun b => eq_refl) (fun bytes b => eq_refl)
                SI5351_PLL_A 36 0 1 6 power_on eq_refl
                ltac:(lia) ltac:(lia) ltac:(lia)) as H.
  cbv zeta in H. destruct H as ((H1 & H2 & _) & _).
  split; [exact H1 | exact H2].
Defined.

Lemma multisynth_needs_its_own_pll_witness :
  fst (@begin unit ack_device power_on) = ERROR_NONE /\
  SI5351_PLL_B <> SI5351_PLL_A /\
  fst (@setupPLL unit ack_device oor_zero SI5351_PLL_A 36 0 1
         (snd (@begin unit ack_device power_on))) = ERROR_NONE /\
  fst (@setupMultisynth unit ack_device oor_zero 0 SI5351_PLL_B 8 0 1
         (snd (@setupPLL unit ack_device oor_zero SI5351_PLL_A 36 0 1
                 (snd (@begin unit ack_device power_on))))) = ERROR_INVALIDPARAMETER.
Proof.
  split; [reflexivity|]. split; [discriminate|]. split; [reflexivity|].
  pose proof (@multisynth_needs_its_own_pll unit ack_device oor_zero
                SI5351_PLL_A SI5351_PLL_B 36 0 1 0 8 0 1 power_on eq_refl
                ltac:(discriminate)) as H.
  cbv zeta in H. rewrite H. reflexivity.
Defined.

Lemma closed_form_branch_fields_witness :
  4 <= 8 <= 2048 /\ 1 <= 2 <= 0xFFFFF /\
  setupMultisynth_fields oor_zero 8 2 1 = (128 * 8 + 128 * 2 - 512, 128 * 2 - 128, 1) /\
  spec_fractional_fields 8 2 1 = (128 * 8 + 128 * 2 - 512, 0, 1).
Proof.
  split; [lia|]. split; [lia|].
  pose proof (closed_form_branch_fields oor_zero 8 2 ltac:(lia) ltac:(lia)) as H.
  destruct H as (H1 & H2 & _). split; [exact H1 | exact H2].
Defined.

Lemma rdiv_and_multisynth_commute_witness :
  initialised (config configured_registers) = true /\
  pll_configured SI5351_PLL_A (config configured_registers) = true /\
  rdiv_wf (obj configured_registers) /\ 0 <= 1 /\
  (let mA := snd (@setupMultisynth _ register_device oor_zero 1 SI5351_PLL_A 8 0 1
                    (snd (@setupRdiv _ register_device 1 5 configured_registers))) in
   let mB := snd (@setupRdiv _ register_device 1 5
                    (snd (@setupMultisynth _ register_device oor_zero 1 SI5351_PLL_A 8 0 1
                            configured_registers))) in
   fst (@setupMultisynth _ register_device oor_zero 1 SI5351_PLL_A 8 0 1
          (snd (@setupRdiv _ register_device 1 5 configured_registers))) = ERROR_NONE /\
   fst (@setupMultisynth _ register_device oor_zero 1 SI5351_PLL_A 8 0 1
          configured_registers) = ERROR_NONE /\
   obj mA = obj mB /\ (forall a, bus mA a = bus mB a) /\
   map (bus mA) [50; 51; 52; 53; 54; 55; 56; 57; 17] = [0; 1; 0x50; 2; 0; 0; 0; 0; 0x4F] /\
   lastRdivValue (obj mA) = [0; 0x50; 0]).
Proof.
  assert (Hwf : rdiv_wf (obj configured_registers)).
  { split; [reflexivity|].
    change (lastRdivValue (obj configured_registers)) with [0; 0; 0].
    repeat constructor; exists 0; split; (lia || reflexivity). }
  split; [reflexivity|]. split; [reflexivity|]. split; [exact Hwf|]. split; [lia|].
  pose proof (rdiv_and_multisynth_commute oor_zero 1 5 SI5351_PLL_A 8 0 1
                configured_registers Hwf ltac:(lia)) as H.
  cbv zeta in H |- *. destruct H as [Hobj Hbus].
  split; [vm_compute; reflexivity|]. split; [vm_compute; reflexivity|].
  split; [exact Hobj|]. split; [exact Hbus|].
  split; vm_compute; reflexivity.
Defined.

Lemma bring_up_registers_witness :
  length (lastRdivValue (obj blank_registers)) = 3%nat /\
  15 <= 36 <= 90 /\ 0 <= 0 <= 2 /\ 4 <= 6 <= 2048 /\
  (let m1 := snd (@begin _ register_device blank_registers) in
   let m2 := snd (@setupPLLInt _ register_device oor_zero SI5351_PLL_A 36 m1) in
   let m3 := snd (@setupRdiv _ register_device 0 1 m2) in
   let m4 := snd (@setupMultisynthInt _ register_device oor_zero 0 SI5351_PLL_A 6 m3) in
   let regs := bus (snd (@enableOutputs _ register_device true m4)) in
   regs 3 = 0 /\ regs 177 = 0xA0 /\ regs (44 + 8 * 0) / 16 = 1 mod 8).
Proof.
  split; [reflexivity|]. split; [lia|]. split; [lia|]. split; [lia|].
  pose proof (bring_up_registers oor_zero SI5351_PLL_A 36 0 1 6 blank_registers
                eq_refl ltac:(lia) ltac:(lia) ltac:(lia)) as H.
  cbv zeta in H. destruct H as (H3 & _ & _ & H177 & _ & _ & _ & Hr).
  cbv zeta. split; [exact H3|]. split; [exact H177 | exact Hr].
Defined.
